(** * upbit-trading-bot: risk-managed position lifecycle and signal fusion

    A shallow embedding of the decision logic of the trading bot
    ([src/risk_management/risk_manager.py], [src/strategies/combined_strategy.py],
    [src/indicators/technical.py]) together with the properties of its
    specification.

    Conventions of the embedding:
    - a Python [float] is an exact rational ([Q]); a division whose divisor
      is zero raises [ZeroDivisionError] in Python and is modelled as an
      explicit error result;
    - a [dict] is an association list in insertion order (iteration order
      matters to the risk cycle);
    - the exchange is a record of answers ([Api.t]); every order submitted
      is appended to a log so that "no order submitted" is a statement
      about that log. *)

From Stdlib Require Import QArith Qminmax Qabs ZArith List String Ascii Bool Lia Lqa.
From Stdlib Require Import DecimalString DecimalNat.
Import ListNotations.
Open Scope Q_scope.

(** ** Python built-ins *)

Module Py.

Definition Qltb (x y : Q) : bool :=
  match x ?= y with Lt => true | _ => false end.

(** [max(a, b)]: the later argument replaces the earlier one only when it is
    strictly greater. *)
Definition max2 (a b : Q) : Q := if Qltb a b then b else a.

(** [min(a, b)]: the later argument replaces the earlier one only when it is
    strictly smaller. *)
Definition min2 (a b : Q) : Q := if Qltb b a then b else a.

(** [min(a, b, c)] scans its arguments from left to right. *)
Definition min3 (a b c : Q) : Q := min2 (min2 a b) c.

(** Exceptions that the modelled code can raise. *)
Inductive exn := ZeroDivisionError | RuntimeError | IndexError | KeyError.

Inductive outcome (A : Type) :=
| Returned (a : A)
| Raised (e : exn).
Arguments Returned {A} a.
Arguments Raised {A} e.

(** [a / b] on Python floats. *)
Definition div (a b : Q) : outcome Q :=
  if Qeq_bool b 0 then Raised ZeroDivisionError else Returned (a / b).

End Py.

(** ** Ordered dictionaries with string keys *)

Module PyDict.
Section Dict.
Context {V : Type}.

Definition t := list (string * V).

Definition empty : t := [].

Fixpoint get (k : string) (d : t) : option V :=
  match d with
  | [] => None
  | (k', v) :: r => if String.eqb k k' then Some v else get k r
  end.

Definition mem (k : string) (d : t) : bool :=
  match get k d with Some _ => true | None => false end.

(** [d[k] = v]: an existing key keeps its place, a new key goes last. *)
Fixpoint set (k : string) (v : V) (d : t) : t :=
  match d with
  | [] => [(k, v)]
  | (k', v') :: r =>
      if String.eqb k k' then (k, v) :: r else (k', v') :: set k v r
  end.

(** [del d[k]]: the binding of [k] goes, the other keys keep their order. *)
Fixpoint del (k : string) (d : t) : t :=
  match d with
  | [] => []
  | (k', v') :: r => if String.eqb k k' then del k r else (k', v') :: del k r
  end.

(** In-place mutation of the object stored under [k]: every holder of a
    reference to that object sees the change, the dictionary keeps its
    keys. *)
Fixpoint alter (f : V -> V) (k : string) (d : t) : t :=
  match d with
  | [] => []
  | (k', v') :: r =>
      if String.eqb k k' then (k', f v') :: r else (k', v') :: alter f k r
  end.

Definition len (d : t) : nat := List.length d.

Definition keys (d : t) : list string := List.map fst d.

End Dict.
Arguments t V : clear implicits.
End PyDict.

(** ** The exchange collaborator *)

Module Api.

(** One element of the list returned by [get_balance()]. *)
Record balance_entry := { currency : string; balance : Q }.

(** The part of an order dictionary that the bot reads. *)
Record order := { uuid : string }.

(** Answers of the exchange during one cycle; [None] is Python's [None]. *)
Record t := {
  get_current_price : string -> option Q;
  get_balances : option (list balance_entry);
  get_balance : string -> option Q;
  buy_market_order : string -> Q -> option order;
  sell_market_order : string -> Q -> option order;
  now : Z
}.

(** Orders handed to the exchange. *)
Inductive call :=
| BuyMarket (ticker : string) (price : Q)
| SellMarket (ticker : string) (volume : Q).

Definition call_ticker (c : call) : string :=
  match c with BuyMarket t _ => t | SellMarket t _ => t end.

(** What the exchange answers to an order. *)
Definition answer (api : t) (c : call) : option order :=
  match c with
  | BuyMarket tk price => buy_market_order api tk price
  | SellMarket tk volume => sell_market_order api tk volume
  end.

End Api.

(** ** [RiskManager] *)

Module RiskManager.

(** [config['risk_management']]. *)
Record config := {
  stop_loss : Q;
  take_profit : Q;
  trailing_stop : Q;
  use_trailing_stop : bool
}.

(** A ledger entry.  Entries are created by [update_positions] only, which
    writes every key but ['trailing_stop_price']; that key is the one
    optional field. *)
Record position := {
  currency : string;
  quantity : Q;
  entry_price : Q;
  entry_time : Z;
  current_price : Q;
  highest_price : Q;
  lowest_price : Q;
  trailing_stop_price : option Q
}.

Definition ledger := PyDict.t position.

Definition set_quantity (p : position) (q : Q) : position :=
  {| currency := currency p; quantity := q; entry_price := entry_price p;
     entry_time := entry_time p; current_price := current_price p;
     highest_price := highest_price p; lowest_price := lowest_price p;
     trailing_stop_price := trailing_stop_price p |}.

Definition set_current_price (p : position) (c : Q) : position :=
  {| currency := currency p; quantity := quantity p; entry_price := entry_price p;
     entry_time := entry_time p; current_price := c;
     highest_price := highest_price p; lowest_price := lowest_price p;
     trailing_stop_price := trailing_stop_price p |}.

Definition set_highest_price (p : position) (h : Q) : position :=
  {| currency := currency p; quantity := quantity p; entry_price := entry_price p;
     entry_time := entry_time p; current_price := current_price p;
     highest_price := h; lowest_price := lowest_price p;
     trailing_stop_price := trailing_stop_price p |}.

Definition set_lowest_price (p : position) (l : Q) : position :=
  {| currency := currency p; quantity := quantity p; entry_price := entry_price p;
     entry_time := entry_time p; current_price := current_price p;
     highest_price := highest_price p; lowest_price := l;
     trailing_stop_price := trailing_stop_price p |}.

Definition set_trailing_stop_price (p : position) (s : Q) : position :=
  {| currency := currency p; quantity := quantity p; entry_price := entry_price p;
     entry_time := entry_time p; current_price := current_price p;
     highest_price := highest_price p; lowest_price := lowest_price p;
     trailing_stop_price := Some s |}.

(** [_update_trailing_stop(position, current_price)]. *)
Definition _update_trailing_stop (cfg : config) (p : position) (cp : Q)
  : position :=
  match trailing_stop_price p with
  | None => set_trailing_stop_price p (cp * (1 - trailing_stop cfg))
  | Some old_stop =>
      let new_stop_price := cp * (1 - trailing_stop cfg) in
      if Py.Qltb old_stop new_stop_price
      then set_trailing_stop_price p new_stop_price
      else p
  end.

(** The branch of [update_positions] for a ticker already in the ledger. *)
Definition refresh_position (cfg : config) (old : position) (bal cp : Q)
  : position :=
  let p := set_current_price (set_quantity old bal) cp in
  let p := if Py.Qltb (highest_price p) cp then set_highest_price p cp else p in
  let p := if Py.Qltb cp (lowest_price p) then set_lowest_price p cp else p in
  if use_trailing_stop cfg then _update_trailing_stop cfg p cp else p.

(** The branch of [update_positions] for a ticker not yet in the ledger. *)
Definition fresh_position (cfg : config) (cur : string) (bal cp : Q) (t : Z)
  : position :=
  {| currency := cur; quantity := bal; entry_price := cp; entry_time := t;
     current_price := cp; highest_price := cp; lowest_price := cp;
     trailing_stop_price :=
       if use_trailing_stop cfg then Some (cp * (1 - trailing_stop cfg))
       else None |}.

Definition ticker_of (cur : string) : string := ("KRW-" ++ cur)%string.

(** One iteration of the loop over [balances]. *)
Definition update_entry (cfg : config) (api : Api.t) (old_positions : ledger)
  (new_positions : ledger) (b : Api.balance_entry) : ledger :=
  if String.eqb (Api.currency b) "KRW" then new_positions
  else if Qle_bool (Api.balance b) 0 then new_positions
  else
    let ticker := ticker_of (Api.currency b) in
    match Api.get_current_price api ticker with
    | None => new_positions
    | Some cp =>
        if Qeq_bool cp 0 then new_positions
        else
          match PyDict.get ticker old_positions with
          | Some old =>
              PyDict.set ticker (refresh_position cfg old (Api.balance b) cp)
                new_positions
          | None =>
              PyDict.set ticker
                (fresh_position cfg (Api.currency b) (Api.balance b) cp
                   (Api.now api))
                new_positions
          end
    end.

(** [update_positions()]: the new value of [self.positions]. *)
Definition update_positions (cfg : config) (api : Api.t) (positions : ledger)
  : ledger :=
  match Api.get_balances api with
  | None => positions
  | Some [] => positions
  | Some balances =>
      fold_left (update_entry cfg api positions) balances PyDict.empty
  end.

Inductive action_kind := Sell | PartialSell | Hold.
Inductive reason_kind := StopLoss | TrailingStop | TakeProfit | WithinLimits.

Inductive risk_details :=
| StopLossDetails (profit_pct threshold entry current : Q)
| TrailingStopDetails (stop_price current highest : Q)
| TakeProfitDetails (profit_pct threshold entry current sell_ratio : Q)
| WithinLimitsDetails (profit_pct entry current : Q).

Record risk_action := {
  action : action_kind;
  reason : reason_kind;
  details : risk_details
}.

Definition action_eqb (a b : action_kind) : bool :=
  match a, b with
  | Sell, Sell | PartialSell, PartialSell | Hold, Hold => true
  | _, _ => false
  end.

(** [_check_position_risk(ticker, position)]; the division by
    [entry_price] is the only operation that can raise. *)
Definition _check_position_risk (cfg : config) (ticker : string)
  (p : position) : Py.outcome risk_action :=
  let current := current_price p in
  let entry := entry_price p in
  match Py.div (current - entry) entry with
  | Py.Raised e => Py.Raised e
  | Py.Returned profit_pct =>
      (* the stop that fires, if trailing stops are in use, one is stored and
         the price is at or below it *)
      let trailing_hit :=
        if use_trailing_stop cfg then
          match trailing_stop_price p with
          | Some stop => if Qle_bool current stop then Some stop else None
          | None => None
          end
        else None in
      if Qle_bool profit_pct (- stop_loss cfg) then
        Py.Returned
          {| action := Sell; reason := StopLoss;
             details := StopLossDetails profit_pct (- stop_loss cfg) entry current |}
      else
        match trailing_hit with
        | Some stop =>
            Py.Returned
              {| action := Sell; reason := TrailingStop;
                 details := TrailingStopDetails stop current (highest_price p) |}
        | None =>
            if Qle_bool (take_profit cfg) profit_pct then
              Py.Returned
                {| action := PartialSell; reason := TakeProfit;
                   details := TakeProfitDetails profit_pct (take_profit cfg)
                                entry current (1 # 2) |}
            else
              Py.Returned
                {| action := Hold; reason := WithinLimits;
                   details := WithinLimitsDetails profit_pct entry current |}
        end
  end.

Inductive failure := SellOrderFailed | PartialSellOrderFailed.

Inductive execution_details :=
| SoldDetails (order_id : string) (volume price : Q)
| PartialSoldDetails (order_id : string) (volume price remaining : Q)
| FailureDetails (why : failure)
| RiskDetails (d : risk_details).

Record execution_result := {
  success : bool;
  exec_action : action_kind;
  exec_reason : reason_kind;
  exec_details : execution_details
}.

(** What the object holds between calls: the ledger, and the orders handed
    to the exchange so far. *)
Record state := {
  positions : ledger;
  submitted : list Api.call
}.

(** [risk_action['details'].get('sell_ratio', 0.5)]. *)
Definition sell_ratio_of (d : risk_details) : Q :=
  match d with
  | TakeProfitDetails _ _ _ _ r => r
  | _ => 1 # 2
  end.

(** [_execute_risk_action(ticker, position, risk_action)].  [position] is
    the object stored in the ledger under [ticker] (the caller passes the
    value it is iterating over), so the in-place decrement of its quantity is
    a change of the ledger entry. *)
Definition _execute_risk_action (api : Api.t) (ticker : string)
  (p : position) (ra : risk_action) (st : state)
  : execution_result * state :=
  match action ra with
  | Sell =>
      let volume := quantity p in
      let st1 := {| positions := positions st;
                    submitted := submitted st ++ [Api.SellMarket ticker volume] |} in
      match Api.sell_market_order api ticker volume with
      | Some order =>
          ({| success := true; exec_action := Sell; exec_reason := reason ra;
              exec_details :=
                SoldDetails (Api.uuid order) volume (current_price p) |},
           {| positions :=
                if PyDict.mem ticker (positions st1)
                then PyDict.del ticker (positions st1) else positions st1;
              submitted := submitted st1 |})
      | None =>
          ({| success := false; exec_action := Hold; exec_reason := reason ra;
              exec_details := FailureDetails SellOrderFailed |}, st1)
      end
  | PartialSell =>
      let sell_ratio := sell_ratio_of (details ra) in
      let volume := quantity p * sell_ratio in
      let st1 := {| positions := positions st;
                    submitted := submitted st ++ [Api.SellMarket ticker volume] |} in
      match Api.sell_market_order api ticker volume with
      | Some order =>
          let remaining := quantity p - volume in
          ({| success := true; exec_action := PartialSell;
              exec_reason := reason ra;
              exec_details :=
                PartialSoldDetails (Api.uuid order) volume (current_price p)
                  remaining |},
           {| positions :=
                PyDict.alter (fun q => set_quantity q remaining) ticker
                  (positions st1);
              submitted := submitted st1 |})
      | None =>
          ({| success := false; exec_action := Hold; exec_reason := reason ra;
              exec_details := FailureDetails PartialSellOrderFailed |}, st1)
      end
  | Hold =>
      ({| success := true; exec_action := Hold; exec_reason := reason ra;
          exec_details := RiskDetails (details ra) |}, st)
  end.

(** A value of the [actions] dictionary of a cycle: the verdict itself for
    a hold, the execution result otherwise. *)
Inductive action_record :=
| Verdict (ra : risk_action)
| Execution (er : execution_result).

Definition record_action (r : action_record) : action_kind :=
  match r with
  | Verdict ra => action ra
  | Execution er => exec_action er
  end.

(** The [for ticker, position in self.positions.items()] loop.  The
    dictionary iterator remembers the size the dictionary had when the loop
    started ([di_used]) and, every time the next item is asked for, also
    after the last one, raises [RuntimeError] if the size has changed.
    [items] are the entries not yet visited. *)
Fixpoint risk_loop (cfg : config) (api : Api.t) (di_used : nat)
  (items : list (string * position)) (actions : PyDict.t action_record)
  (st : state) : Py.outcome (PyDict.t action_record) * state :=
  if negb (Nat.eqb (PyDict.len (positions st)) di_used)
  then (Py.Raised Py.RuntimeError, st)
  else
    match items with
    | [] => (Py.Returned actions, st)
    | (ticker, p) :: rest =>
        match _check_position_risk cfg ticker p with
        | Py.Raised e => (Py.Raised e, st)
        | Py.Returned ra =>
            if negb (action_eqb (action ra) Hold) then
              let '(er, st') := _execute_risk_action api ticker p ra st in
              risk_loop cfg api di_used rest
                (PyDict.set ticker (Execution er) actions) st'
            else
              risk_loop cfg api di_used rest
                (PyDict.set ticker (Verdict ra) actions) st
        end
    end.

(** [check_risk_limits()]: the ['actions'] of the returned dictionary (the
    timestamp is left out).  Whatever is raised inside is caught and an
    empty [actions] is returned; changes already made to the ledger and
    orders already submitted stay. *)
Definition check_risk_limits (cfg : config) (api : Api.t) (st : state)
  : PyDict.t action_record * state :=
  let st0 := {| positions := update_positions cfg api (positions st);
                submitted := submitted st |} in
  match risk_loop cfg api (PyDict.len (positions st0)) (positions st0)
          PyDict.empty st0 with
  | (Py.Returned actions, st') => (actions, st')
  | (Py.Raised _, st') => (PyDict.empty, st')
  end.

(** *** Portfolio risk and rebalancing *)

(** A value of [portfolio_exposure].  The ratio is written by a second loop,
    after the total is known. *)
Record exposure := {
  value : Q;
  held : Q;
  price : Q;
  ratio : Q
}.

Inductive risk_level := Low | Medium | High.

(** The result of [check_portfolio_risk], without its timestamp.  The
    handler of its [try], which answers ['unknown'], is not reached by
    anything modelled here. *)
Record portfolio := {
  total_balance : Q;
  krw_balance : Q;
  portfolio_exposure : PyDict.t exposure;
  risk : risk_level
}.

(** [x or 0] *)
Definition or_zero (x : option Q) : Q :=
  match x with
  | Some q => if Qeq_bool q 0 then 0 else q
  | None => 0
  end.

(** One iteration of the first loop: the running total and the exposures
    without their ratio. *)
Definition add_exposure (api : Api.t) (acc : Q * PyDict.t exposure)
  (b : Api.balance_entry) : Q * PyDict.t exposure :=
  if String.eqb (Api.currency b) "KRW" then acc
  else if Qle_bool (Api.balance b) 0 then acc
  else
    let ticker := ticker_of (Api.currency b) in
    match Api.get_current_price api ticker with
    | None => acc
    | Some cp =>
        if Qeq_bool cp 0 then acc
        else
          let coin_value := Api.balance b * cp in
          (fst acc + coin_value,
           PyDict.set ticker
             {| value := coin_value; held := Api.balance b; price := cp;
                ratio := 0 |}
             (snd acc))
    end.

Definition set_ratio (total_value : Q) (e : exposure) : exposure :=
  {| value := value e; held := held e; price := price e;
     ratio := if Py.Qltb 0 total_value then value e / total_value else 0 |}.

(** [max(values, default=0)] *)
Definition max_default (values : list Q) : Q :=
  match values with
  | [] => 0
  | v :: rest => fold_left Py.max2 rest v
  end.

Definition level_of (max_exposure : Q) : risk_level :=
  if Py.Qltb (1 # 2) max_exposure then High
  else if Py.Qltb (3 # 10) max_exposure then Medium
  else Low.

(** [check_portfolio_risk()] *)
Definition check_portfolio_risk (api : Api.t) : portfolio :=
  let krw := or_zero (Api.get_balance api "KRW") in
  let balances :=
    match Api.get_balances api with Some bs => bs | None => [] end in
  let '(total_value, exposures) :=
    fold_left (add_exposure api) balances (krw, PyDict.empty) in
  let exposures :=
    map (fun kv : string * exposure => (fst kv, set_ratio total_value (snd kv)))
        exposures in
  {| total_balance := total_value;
     krw_balance := krw;
     portfolio_exposure := exposures;
     risk := level_of (max_default (map (fun kv => ratio (snd kv)) exposures)) |}.

Inductive rebalance_action :=
| Sold (ticker : string) (quantity value : Q) (order_id : string)
| Bought (ticker : string) (value : Q) (order_id : string).

Inductive rebalance_details :=
| PortfolioUnavailable
| SellFailed (ticker : string)
| BuyFailed (ticker : string)
| Rebalanced
| Failed (e : Py.exn).

Record rebalance_result := {
  rebalanced : bool;
  actions : list rebalance_action;
  outcome : rebalance_details
}.

(** The first loop of [rebalance_portfolio]: sell what exceeds the target.
    [Some] is the failure that ends the call. *)
Fixpoint sell_excess (api : Api.t) (target_allocations : PyDict.t Q)
  (total : Q) (items : list (string * exposure))
  (done : list rebalance_action) (st : state)
  : list rebalance_action * option rebalance_details * state :=
  match items with
  | [] => (done, None, st)
  | (ticker, e) :: rest =>
      let current_ratio := ratio e in
      let target_ratio :=
        match PyDict.get ticker target_allocations with
        | Some r => r
        | None => 0
        end in
      if Py.Qltb target_ratio current_ratio then
        let excess_value := (current_ratio - target_ratio) * total in
        match Py.div excess_value (price e) with
        | Py.Raised err => ([], Some (Failed err), st)
        | Py.Returned sell_quantity =>
            let sell_quantity := Py.min2 sell_quantity (held e) in
            if Py.Qltb 0 sell_quantity then
              let st1 := {| positions := positions st;
                            submitted := submitted st ++
                                         [Api.SellMarket ticker sell_quantity] |} in
              match Api.sell_market_order api ticker sell_quantity with
              | Some order =>
                  sell_excess api target_allocations total rest
                    (done ++ [Sold ticker sell_quantity
                                (sell_quantity * price e) (Api.uuid order)])
                    st1
              | None => (done, Some (SellFailed ticker), st1)
              end
            else sell_excess api target_allocations total rest done st
        end
      else sell_excess api target_allocations total rest done st
  end.

(** The second loop: buy what is missing, out of the cash that is left. *)
Fixpoint buy_deficit (api : Api.t) (exposures : PyDict.t exposure)
  (total : Q) (targets : list (string * Q)) (krw : Q)
  (done : list rebalance_action) (st : state)
  : list rebalance_action * option rebalance_details * state :=
  match targets with
  | [] => (done, None, st)
  | (ticker, target_ratio) :: rest =>
      if String.eqb ticker "KRW" then
        buy_deficit api exposures total rest krw done st
      else
        let current_ratio :=
          match PyDict.get ticker exposures with
          | Some e => ratio e
          | None => 0
          end in
        if Py.Qltb current_ratio target_ratio then
          let deficit_value := (target_ratio - current_ratio) * total in
          let deficit_value :=
            if Py.Qltb krw deficit_value then krw else deficit_value in
          if Qle_bool 5000 deficit_value then
            let st1 := {| positions := positions st;
                          submitted := submitted st ++
                                       [Api.BuyMarket ticker deficit_value] |} in
            match Api.buy_market_order api ticker deficit_value with
            | Some order =>
                buy_deficit api exposures total rest (krw - deficit_value)
                  (done ++ [Bought ticker deficit_value (Api.uuid order)]) st1
            | None => (done, Some (BuyFailed ticker), st1)
            end
          else buy_deficit api exposures total rest krw done st
        else buy_deficit api exposures total rest krw done st
  end.

(** [rebalance_portfolio(target_allocations)].  [api] answers until the
    sells are done, [api_after] after the pause that follows them. *)
Definition rebalance_portfolio (api api_after : Api.t)
  (target_allocations : PyDict.t Q) (st : state) : rebalance_result * state :=
  let portfolio := check_portfolio_risk api in
  if Qle_bool (total_balance portfolio) 0 then
    ({| rebalanced := false; actions := []; outcome := PortfolioUnavailable |},
     st)
  else
    let total := total_balance portfolio in
    match sell_excess api target_allocations total
            (portfolio_exposure portfolio) [] st with
    | (done, Some why, st1) =>
        ({| rebalanced := false; actions := done; outcome := why |}, st1)
    | (done, None, st1) =>
        let krw := or_zero (Api.get_balance api_after "KRW") in
        match buy_deficit api_after (portfolio_exposure portfolio) total
                target_allocations krw done st1 with
        | (done, Some why, st2) =>
            ({| rebalanced := false; actions := done; outcome := why |}, st2)
        | (done, None, st2) =>
            ({| rebalanced := true; actions := done; outcome := Rebalanced |},
             st2)
        end
    end.

End RiskManager.

(** ** NumPy floats *)

(** A NumPy [float64] is a rational, an infinity or NaN.  Rounding and the
    sign of zero are not modelled; a division by zero gives an infinity or
    NaN, as NumPy does, and every comparison with NaN is false. *)
Module Np.

Inductive float := Fin (q : Q) | PInf | NInf | NaN.

Definition of_Z (z : Z) : float := Fin (inject_Z z).

Definition isnan (x : float) : bool :=
  match x with NaN => true | _ => false end.

Definition ltb (a b : float) : bool :=
  match a, b with
  | NaN, _ | _, NaN => false
  | Fin x, Fin y => Py.Qltb x y
  | Fin _, PInf => true
  | Fin _, NInf => false
  | PInf, _ => false
  | NInf, NInf => false
  | NInf, _ => true
  end.

Definition leb (a b : float) : bool :=
  match a, b with
  | NaN, _ | _, NaN => false
  | Fin x, Fin y => Qle_bool x y
  | Fin _, PInf => true
  | Fin _, NInf => false
  | PInf, PInf => true
  | PInf, _ => false
  | NInf, _ => true
  end.

Definition gtb (a b : float) : bool := ltb b a.
Definition geb (a b : float) : bool := leb b a.

(** [a != b] *)
Definition neb (a b : float) : bool :=
  match a, b with
  | Fin x, Fin y => negb (Qeq_bool x y)
  | PInf, PInf | NInf, NInf => false
  | _, _ => true
  end.

Definition neg (a : float) : float :=
  match a with
  | Fin q => Fin (- q)
  | PInf => NInf
  | NInf => PInf
  | NaN => NaN
  end.

Definition add (a b : float) : float :=
  match a, b with
  | NaN, _ | _, NaN => NaN
  | Fin x, Fin y => Fin (x + y)
  | PInf, NInf | NInf, PInf => NaN
  | PInf, _ | _, PInf => PInf
  | NInf, _ | _, NInf => NInf
  end.

Definition sub (a b : float) : float := add a (neg b).

(** An infinity of the sign of [q] times the sign of [inf]; NaN for zero. *)
Definition scaled_inf (inf : float) (q : Q) : float :=
  if Py.Qltb 0 q then inf else if Py.Qltb q 0 then neg inf else NaN.

Definition mul (a b : float) : float :=
  match a, b with
  | NaN, _ | _, NaN => NaN
  | Fin x, Fin y => Fin (x * y)
  | Fin x, PInf | PInf, Fin x => scaled_inf PInf x
  | Fin x, NInf | NInf, Fin x => scaled_inf NInf x
  | PInf, PInf | NInf, NInf => PInf
  | PInf, NInf | NInf, PInf => NInf
  end.

Definition div (a b : float) : float :=
  match a, b with
  | NaN, _ | _, NaN => NaN
  | Fin x, Fin y =>
      if Qeq_bool y 0 then scaled_inf PInf x else Fin (x / y)
  | Fin _, PInf | Fin _, NInf => Fin 0
  | PInf, Fin y => if Py.Qltb y 0 then NInf else PInf
  | NInf, Fin y => if Py.Qltb y 0 then PInf else NInf
  | PInf, PInf | PInf, NInf | NInf, PInf | NInf, NInf => NaN
  end.

Definition abs (a : float) : float :=
  match a with
  | Fin q => Fin (Qabs q)
  | PInf | NInf => PInf
  | NaN => NaN
  end.

End Np.

(** ** pandas data frames *)

Module Pd.

Inductive column :=
| FloatCol (xs : list Np.float)
| IntCol (xs : list Z)
| BoolCol (xs : list bool).

(** A candle frame as the exchange returns it, with the columns the
    indicators have added to it, in the order they were added.  [index] is
    the timestamp of each row.  The candle columns that no computation reads
    (open, high, low, value) are left out: they hold finite numbers and their
    names do not start with [ma], so neither [dropna] nor any lookup by name
    sees them. *)
Record frame := {
  index : list Z;
  close : list Q;
  volume : list Q;
  added : PyDict.t column
}.

Definition len (df : frame) : nat := List.length (index df).

(** [df.empty] *)
Definition empty (df : frame) : bool := Nat.eqb (len df) 0.

(** The cells of a column as numbers. *)
Definition floats (c : column) : list Np.float :=
  match c with
  | FloatCol xs => xs
  | IntCol xs => map Np.of_Z xs
  | BoolCol xs => map (fun b : bool => if b then Np.Fin 1 else Np.Fin 0) xs
  end.

(** [df[name] = col] *)
Definition with_column (name : string) (col : column) (df : frame) : frame :=
  {| index := index df; close := close df; volume := volume df;
     added := PyDict.set name col (added df) |}.

(** [name in df.columns], for the name of an added column. *)
Definition has_column (name : string) (df : frame) : bool :=
  PyDict.mem name (added df).

Fixpoint map2 {A B C} (f : A -> B -> C) (xs : list A) (ys : list B) : list C :=
  match xs, ys with
  | x :: xs', y :: ys' => f x y :: map2 f xs' ys'
  | _, _ => []
  end.

(** [s.shift(1)] *)
Definition shift (xs : list Np.float) : list Np.float :=
  match xs with
  | [] => []
  | _ :: _ => Np.NaN :: removelast xs
  end.

(** The [w] values ending at row [i], when there are that many. *)
Definition window_at (w i : nat) (xs : list Q) : option (list Q) :=
  if Nat.eqb w 0 || Nat.ltb (i + 1) w then None
  else Some (firstn w (skipn (i + 1 - w) xs)).

(** [s.rolling(window=w)] followed by an aggregation [f]: undefined until
    [w] values are available. *)
Definition rolling (w : nat) (f : list Q -> Np.float) (xs : list Q)
  : list Np.float :=
  map (fun i => match window_at w i xs with
                | Some ws => f ws
                | None => Np.NaN
                end)
      (seq 0 (List.length xs)).

Definition sum (xs : list Q) : Q := fold_right Qplus 0 xs.

Definition mean (xs : list Q) : Q :=
  sum xs / inject_Z (Z.of_nat (List.length xs)).

(** [s.rolling(window=w).mean()] *)
Definition rolling_mean (w : nat) (xs : list Q) : list Np.float :=
  rolling w (fun ws => Np.Fin (mean ws)) xs.

(** The sample variance, with [n - 1] in the denominator. *)
Definition variance (xs : list Q) : Q :=
  sum (map (fun x => (x - mean xs) * (x - mean xs)) xs)
  / inject_Z (Z.of_nat (List.length xs - 1)).

(** [s.rolling(window=w).std()]; [sqrt] is the square root of the floating
    point unit.  A window of one value has no sample deviation. *)
Definition rolling_std (sqrt : Q -> Q) (w : nat) (xs : list Q)
  : list Np.float :=
  rolling w (fun ws => if Nat.leb (List.length ws) 1 then Np.NaN
                       else Np.Fin (sqrt (variance ws))) xs.

(** Rows are kept where the mask is true. *)
Fixpoint select {A} (mask : list bool) (xs : list A) : list A :=
  match mask, xs with
  | b :: mask', x :: xs' =>
      if b then x :: select mask' xs' else select mask' xs'
  | _, _ => []
  end.

Definition select_column (mask : list bool) (c : column) : column :=
  match c with
  | FloatCol xs => FloatCol (select mask xs)
  | IntCol xs => IntCol (select mask xs)
  | BoolCol xs => BoolCol (select mask xs)
  end.

(** Per row, whether the cell of the column is not missing. *)
Definition notna (c : column) : list bool :=
  match c with
  | FloatCol xs => map (fun x => negb (Np.isnan x)) xs
  | IntCol xs => map (fun _ => true) xs
  | BoolCol xs => map (fun _ => true) xs
  end.

(** Per row, whether no added column has a missing cell (the candle columns
    never have one). *)
Definition complete_rows (df : frame) : list bool :=
  fold_left (fun mask kc => map2 andb mask (notna (snd kc))) (added df)
    (repeat true (len df)).

(** [df.dropna()] *)
Definition dropna (df : frame) : frame :=
  let mask := complete_rows df in
  {| index := select mask (index df);
     close := select mask (close df);
     volume := select mask (volume df);
     added := map (fun kc => (fst kc, select_column mask (snd kc))) (added df) |}.

(** [s.iloc[-i]] for [i >= 1]. *)
Definition iloc_back {A} (i : nat) (xs : list A) : Py.outcome A :=
  if Nat.ltb (List.length xs) i then Py.Raised Py.IndexError
  else
    match nth_error xs (List.length xs - i) with
    | Some x => Py.Returned x
    | None => Py.Raised Py.IndexError
    end.

End Pd.

(** ** [TechnicalIndicators] *)

Module TechnicalIndicators.

(** The numerical routines of the libraries the module calls:
    [ta.rsi(close, length)] of pandas_ta, one value per row, undefined (NaN)
    where the index has no value yet, and the floating-point square root. *)
Record library := {
  ta_rsi : list Q -> nat -> list Np.float;
  sqrt : Q -> Q
}.

(** [config['strategy']]. *)
Record config := {
  ma_enabled : bool;
  short_period : nat;
  long_period : nat;
  trend_period : nat;
  rsi_enabled : bool;
  rsi_period : nat;
  use_divergence : bool;
  bollinger_enabled : bool;
  bollinger_period : nat;
  std_dev : Q;
  volume_enabled : bool;
  volume_period : nat;
  surge_threshold : Q
}.

(** [str(n)] *)
Definition str (n : nat) : string :=
  NilEmpty.string_of_uint (Nat.to_uint n).

Definition ma_name (period : nat) : string := ("ma" ++ str period)%string.
Definition rsi_name (period : nat) : string := ("rsi" ++ str period)%string.

Definition closes (df : Pd.frame) : list Np.float := map Np.Fin (Pd.close df).

(** A signal column: [0], then [1] where [up] holds, then [-1] where
    [down] holds. *)
Definition signal_of (up down : bool) : Z :=
  if down then (-1)%Z else if up then 1%Z else 0%Z.

Fixpoint map3 {A B C D} (f : A -> B -> C -> D)
  (xs : list A) (ys : list B) (zs : list C) : list D :=
  match xs, ys, zs with
  | x :: xs', y :: ys', z :: zs' => f x y z :: map3 f xs' ys' zs'
  | _, _, _ => []
  end.

Fixpoint map4 {A B C D E} (f : A -> B -> C -> D -> E)
  (xs : list A) (ys : list B) (zs : list C) (ws : list D) : list E :=
  match xs, ys, zs, ws with
  | x :: xs', y :: ys', z :: zs', w :: ws' => f x y z w :: map4 f xs' ys' zs' ws'
  | _, _, _, _ => []
  end.

(** [add_moving_average(df, short_period, long_period, trend_period)] *)
Definition add_moving_average (df : Pd.frame)
  (short_period long_period trend_period : nat) : Pd.frame :=
  let ma_short := Pd.rolling_mean short_period (Pd.close df) in
  let ma_long := Pd.rolling_mean long_period (Pd.close df) in
  let ma_trend := Pd.rolling_mean trend_period (Pd.close df) in
  let df := Pd.with_column (ma_name short_period) (Pd.FloatCol ma_short) df in
  let df := Pd.with_column (ma_name long_period) (Pd.FloatCol ma_long) df in
  let df := Pd.with_column (ma_name trend_period) (Pd.FloatCol ma_trend) df in
  let cross :=
    map4 (fun s_prev l_prev s l =>
            signal_of (Np.leb s_prev l_prev && Np.gtb s l)
                      (Np.geb s_prev l_prev && Np.ltb s l))
         (Pd.shift ma_short) (Pd.shift ma_long) ma_short ma_long in
  let df := Pd.with_column "ma_cross_signal" (Pd.IntCol cross) df in
  let trend :=
    Pd.map2 (fun c t => if Np.gtb c t then 1%Z else (-1)%Z) (closes df) ma_trend in
  Pd.with_column "trend_direction" (Pd.IntCol trend) df.

(** The answer of [ta.rsi], brought to the length of the frame. *)
Definition rsi_column (lib : library) (df : Pd.frame) (period : nat)
  : list Np.float :=
  firstn (Pd.len df)
    (ta_rsi lib (Pd.close df) period ++ repeat Np.NaN (Pd.len df)).

(** [add_rsi(df, period)] *)
Definition add_rsi (lib : library) (df : Pd.frame) (period : nat) : Pd.frame :=
  let rsi := rsi_column lib df period in
  let df := Pd.with_column (rsi_name period) (Pd.FloatCol rsi) df in
  let signal :=
    Pd.map2 (fun prev cur =>
               signal_of (Np.ltb prev (Np.Fin 30) && Np.geb cur (Np.Fin 30))
                         (Np.gtb prev (Np.Fin 70) && Np.leb cur (Np.Fin 70)))
            (Pd.shift rsi) rsi in
  Pd.with_column "rsi_signal" (Pd.IntCol signal) df.

(** The value of row [i] of the divergence column. *)
Definition divergence_at (window : nat) (close rsi : list Np.float) (i : nat)
  : Z :=
  if Nat.ltb i window then 0%Z
  else
    let c := nth i close Np.NaN in
    let c_back := nth (i - window) close Np.NaN in
    let r := nth i rsi Np.NaN in
    let r_back := nth (i - window) rsi Np.NaN in
    signal_of (Np.ltb c c_back && Np.gtb r r_back)
              (Np.gtb c c_back && Np.ltb r r_back).

(** [add_rsi_divergence(df, period=14, window=10)] *)
Definition add_rsi_divergence (df : Pd.frame) (period window : nat) : Pd.frame :=
  match PyDict.get (rsi_name period) (Pd.added df) with
  | None => df
  | Some rsi =>
      Pd.with_column "rsi_divergence"
        (Pd.IntCol (map (divergence_at window (closes df) (Pd.floats rsi))
                        (seq 0 (Pd.len df))))
        df
  end.

(** [add_bollinger_bands(df, period, std_dev)] *)
Definition add_bollinger_bands (lib : library) (df : Pd.frame) (period : nat)
  (std_dev : Q) : Pd.frame :=
  let middle := Pd.rolling_mean period (Pd.close df) in
  let std := Pd.rolling_std (sqrt lib) period (Pd.close df) in
  let upper := Pd.map2 (fun m s => Np.add m (Np.mul s (Np.Fin std_dev))) middle std in
  let lower := Pd.map2 (fun m s => Np.sub m (Np.mul s (Np.Fin std_dev))) middle std in
  let bandwidth :=
    map3 (fun u l m => Np.div (Np.sub u l) m) upper lower middle in
  let df := Pd.with_column "bb_middle" (Pd.FloatCol middle) df in
  let df := Pd.with_column "bb_std" (Pd.FloatCol std) df in
  let df := Pd.with_column "bb_upper" (Pd.FloatCol upper) df in
  let df := Pd.with_column "bb_lower" (Pd.FloatCol lower) df in
  let df := Pd.with_column "bb_bandwidth" (Pd.FloatCol bandwidth) df in
  let close := closes df in
  let touch_lower :=
    map4 (fun c_prev l_prev c l =>
            Np.leb c_prev l_prev && Np.gtb c l && Np.gtb c c_prev)
         (Pd.shift close) (Pd.shift lower) close lower in
  let touch_upper :=
    map4 (fun c_prev u_prev c u =>
            Np.geb c_prev u_prev && Np.ltb c u && Np.ltb c c_prev)
         (Pd.shift close) (Pd.shift upper) close upper in
  Pd.with_column "bb_signal"
    (Pd.IntCol (Pd.map2 signal_of touch_lower touch_upper)) df.

(** [add_volume_indicators(df, period, surge_threshold)] *)
Definition add_volume_indicators (df : Pd.frame) (period : nat)
  (surge_threshold : Q) : Pd.frame :=
  let volume_ma := Pd.rolling_mean period (Pd.volume df) in
  let volume_ratio := Pd.map2 Np.div (map Np.Fin (Pd.volume df)) volume_ma in
  let volume_surge :=
    map (fun r => Np.gtb r (Np.Fin surge_threshold)) volume_ratio in
  let df := Pd.with_column "volume_ma" (Pd.FloatCol volume_ma) df in
  let df := Pd.with_column "volume_ratio" (Pd.FloatCol volume_ratio) df in
  let df := Pd.with_column "volume_surge" (Pd.BoolCol volume_surge) df in
  let close := closes df in
  let signal :=
    map3 (fun (surge : bool) c c_prev =>
            signal_of (surge && Np.gtb c c_prev) (surge && Np.ltb c c_prev))
         volume_surge close (Pd.shift close) in
  Pd.with_column "volume_signal" (Pd.IntCol signal) df.

(** The frame of [add_indicators] just before [dropna]. *)
Definition with_indicators (lib : library) (cfg : config) (df : Pd.frame)
  : Pd.frame :=
  let df :=
    if ma_enabled cfg
    then add_moving_average df (short_period cfg) (long_period cfg)
           (trend_period cfg)
    else df in
  let df :=
    if rsi_enabled cfg then
      let df := add_rsi lib df (rsi_period cfg) in
      if use_divergence cfg then add_rsi_divergence df 14 10 else df
    else df in
  let df :=
    if bollinger_enabled cfg
    then add_bollinger_bands lib df (bollinger_period cfg) (std_dev cfg)
    else df in
  if volume_enabled cfg
  then add_volume_indicators df (volume_period cfg) (surge_threshold cfg)
  else df.

(** [add_indicators(df, config)] *)
Definition add_indicators (lib : library) (cfg : config) (df : Pd.frame)
  : Pd.frame :=
  Pd.dropna (with_indicators lib cfg df).

(** The signal columns that [get_combined_signal] looks for, with their
    weights, in the order of the source. *)
Definition signal_weights : list (string * Q) :=
  [("ma_cross_signal"%string, 3 # 10);
   ("rsi_signal"%string, 2 # 10);
   ("rsi_divergence"%string, 15 # 100);
   ("bb_signal"%string, 2 # 10);
   ("volume_signal"%string, 15 # 100)].

(** The lists [signals] and [weights], zipped. *)
Definition available_signals (df : Pd.frame) : list (list Np.float * Q) :=
  flat_map (fun nw : string * Q =>
              match PyDict.get (fst nw) (Pd.added df) with
              | Some c => [(Pd.floats c, snd nw)]
              | None => []
              end)
           signal_weights.

(** [sum(signal * weight for signal, weight in zip(signals, weights))],
    which starts from [0]. *)
Definition weighted_signal (df : Pd.frame) : list Np.float :=
  fold_left (fun acc sw =>
               Pd.map2 Np.add acc
                 (map (fun s => Np.mul s (Np.Fin (snd sw))) (fst sw)))
            (available_signals df)
            (repeat (Np.Fin 0) (Pd.len df)).

(** One cell of [combined_signal]. *)
Definition discretize (w : Np.float) : Z :=
  if Np.ltb w (Np.Fin (- (3 # 10))) then (-1)%Z
  else if Np.gtb w (Np.Fin (3 # 10)) then 1%Z
  else 0%Z.

(** [get_combined_signal(df)] *)
Definition get_combined_signal (df : Pd.frame) : list Z :=
  match available_signals df with
  | [] => repeat 0%Z (Pd.len df)
  | _ :: _ => map discretize (weighted_signal df)
  end.

End TechnicalIndicators.

(** ** [CombinedStrategy] *)

Module CombinedStrategy.

(** [config['trading']], the two options read by [execute_trade]. *)
Record config := {
  trade_amount : Q;
  max_invest_ratio : Q
}.

(** [signal_info], without its data frame. *)
Record signal_info := {
  signal : Z;
  confidence : Q
}.

(** [df[name].iloc[-i]] for an added column. *)
Definition cell_back (i : nat) (name : string) (df : Pd.frame)
  : Py.outcome Np.float :=
  match PyDict.get name (Pd.added df) with
  | None => Py.Raised Py.KeyError
  | Some c => Pd.iloc_back i (Pd.floats c)
  end.

Definition bind {A B} (m : Py.outcome A) (f : A -> Py.outcome B)
  : Py.outcome B :=
  match m with
  | Py.Returned a => f a
  | Py.Raised e => Py.Raised e
  end.

Notation "x <- m ;; k" := (bind m (fun x => k))
  (at level 61, m at next level, right associativity).

(** [min(1.0, max(0.0, x))] for a NumPy float [x].  [max] keeps [0.0]
    unless [x > 0.0], so it answers [0.0] for NaN; [min] keeps [1.0] unless
    the other value is smaller, so it answers [1.0] for an infinity. *)
Definition clamp01 (x : Np.float) : Q :=
  match x with
  | Np.Fin q => Py.min2 1 (Py.max2 0 q)
  | Np.PInf => 1
  | Np.NInf => 0
  | Np.NaN => 0
  end.

(** [df.columns[df.columns.str.startswith('ma')]] *)
Definition ma_columns (df : Pd.frame) : list string :=
  filter (String.prefix "ma") (PyDict.keys (Pd.added df)).

(** [.min()] and [.max()] of an index of strings. *)
Definition least (names : list string) : option string :=
  match names with
  | [] => None
  | n :: rest =>
      Some (fold_left (fun m x => if String.ltb x m then x else m) rest n)
  end.

Definition greatest (names : list string) : option string :=
  match names with
  | [] => None
  | n :: rest =>
      Some (fold_left (fun m x => if String.ltb m x then x else m) rest n)
  end.

(** The first factor: how many of the four bars before the last carry the
    signal of the last bar. *)
Definition signal_consistency (df : Pd.frame) (signal : Np.float) : Q :=
  let same (i : nat) : bool :=
    Nat.leb i (Pd.len df) &&
    match cell_back i "signal" df with
    | Py.Returned s => negb (Np.neb s signal)
    | Py.Raised _ => false
    end in
  inject_Z (Z.of_nat (List.length (filter same [2; 3; 4; 5]%nat))) / 4.

(** The second factor, when it is computed: the strength of the moving
    average crossing.  [ma_short] and [ma_long] are the least and the
    greatest column name that starts with [ma]. *)
Definition ma_cross_strength (df : Pd.frame) : Py.outcome (option Q) :=
  if Pd.has_column "ma_cross_signal" df then
    cross <- cell_back 1 "ma_cross_signal" df ;;
    if Np.neb cross (Np.Fin 0) then
      match least (ma_columns df), greatest (ma_columns df) with
      | Some ma_short, Some ma_long =>
          short <- cell_back 1 ma_short df ;;
          long <- cell_back 1 ma_long df ;;
          close <- Pd.iloc_back 1 (TechnicalIndicators.closes df) ;;
          let ma_diff := Np.div (Np.abs (Np.sub short long)) close in
          Py.Returned
            (Some (clamp01 (Np.div (Np.sub ma_diff (Np.Fin (1 # 1000)))
                                   (Np.Fin (49 # 1000)))))
      | _, _ => Py.Raised Py.KeyError
      end
    else Py.Returned None
  else Py.Returned None.

(** The third factor: narrow Bollinger bands. *)
Definition bb_confidence (df : Pd.frame) : Py.outcome (option Q) :=
  if Pd.has_column "bb_bandwidth" df then
    bw <- cell_back 1 "bb_bandwidth" df ;;
    Py.Returned
      (Some (1 - clamp01 (Np.div (Np.sub bw (Np.Fin (3 # 100)))
                                 (Np.Fin (12 # 100)))))
  else Py.Returned None.

(** The fourth factor: the distance of the RSI to its thresholds. *)
Definition rsi_confidence (df : Pd.frame) (signal : Np.float)
  : Py.outcome (option Q) :=
  if Pd.has_column "rsi14" df then
    rsi <- cell_back 1 "rsi14" df ;;
    Py.Returned
      (Some (if Np.gtb signal (Np.Fin 0) then
               1 - clamp01 (Np.div (Np.sub rsi (Np.Fin 30)) (Np.Fin 20))
             else if Np.ltb signal (Np.Fin 0) then
               clamp01 (Np.div (Np.sub rsi (Np.Fin 50)) (Np.Fin 20))
             else 1 # 2))
  else Py.Returned None.

(** The fifth factor: the volume ratio. *)
Definition volume_confidence (df : Pd.frame) : Py.outcome (option Q) :=
  if Pd.has_column "volume_ratio" df then
    ratio <- cell_back 1 "volume_ratio" df ;;
    Py.Returned
      (Some (clamp01 (Np.div (Np.sub ratio (Np.Fin 1)) (Np.Fin 2))))
  else Py.Returned None.

Definition factor_list (f : option Q) : list Q :=
  match f with Some q => [q] | None => [] end.

(** [_calculate_confidence(df)] *)
Definition _calculate_confidence (df : Pd.frame) : Py.outcome Q :=
  signal <- cell_back 1 "signal" df ;;
  ma <- ma_cross_strength df ;;
  bb <- bb_confidence df ;;
  rsi <- rsi_confidence df signal ;;
  vol <- volume_confidence df ;;
  let confidence_factors :=
    [signal_consistency df signal] ++ factor_list ma ++ factor_list bb ++
    factor_list rsi ++ factor_list vol in
  Py.Returned
    (Pd.sum confidence_factors /
     inject_Z (Z.of_nat (List.length confidence_factors))).

(** [update_market_data(ticker, interval, count)]; [ohlcv] is the answer of
    [api.get_ohlcv]. *)
Definition update_market_data (lib : TechnicalIndicators.library)
  (cfg : TechnicalIndicators.config) (ohlcv : option Pd.frame)
  : option Pd.frame :=
  match ohlcv with
  | None => None
  | Some df =>
      if Pd.empty df then None
      else
        let df := TechnicalIndicators.add_indicators lib cfg df in
        Some (Pd.with_column "signal"
                (Pd.IntCol (TechnicalIndicators.get_combined_signal df)) df)
  end.

(** The cells of [df['signal']]. *)
Definition signal_column (df : Pd.frame) : list Z :=
  match PyDict.get "signal" (Pd.added df) with
  | Some (Pd.IntCol xs) => xs
  | _ => []
  end.

Definition no_signal : signal_info := {| signal := 0; confidence := 0 |}.

(** [get_signal(ticker, interval, count)], without the data frame of the
    result and without the bookkeeping of [last_signals].  Anything raised
    inside gives the neutral answer. *)
Definition get_signal (lib : TechnicalIndicators.library)
  (cfg : TechnicalIndicators.config) (ohlcv : option Pd.frame) : signal_info :=
  match update_market_data lib cfg ohlcv with
  | None => no_signal
  | Some df =>
      if Pd.empty df then no_signal
      else
        match Pd.iloc_back 1 (signal_column df), _calculate_confidence df with
        | Py.Returned current_signal, Py.Returned confidence =>
            {| signal := current_signal; confidence := confidence |}
        | _, _ => no_signal
        end
  end.

Inductive trade_action := Buy | Sell | Hold.

Inductive trade_details :=
| NoSignalOrLowConfidence (signal : Z) (confidence : Q)
| PriceUnavailable
| BalanceUnavailable
| AlreadyInvested (coin_ratio : Q)
| BelowMinimumOrder (amount : Q)
| Bought (order_id : string) (amount price : Q)
| BuyOrderFailed
| NothingHeld
| Sold (order_id : string) (volume price : Q)
| SellOrderFailed
| Waiting
| Error (e : Py.exn).

Record trade_result := {
  success : bool;
  action : trade_action;
  details : trade_details
}.

Inductive order_type := BuyOrder | SellOrder.

(** A value of [self.orders]; [size] is the ['amount'] of a buy and the
    ['volume'] of a sell. *)
Record order_info := {
  ticker : string;
  type : order_type;
  price : Q;
  size : Q;
  timestamp : Z
}.

(** The fields of the strategy object, and the orders handed to the
    exchange so far. *)
Record state := {
  positions : PyDict.t Q;
  orders : PyDict.t order_info;
  submitted : list Api.call
}.

(** [s.split(sep)] for a one-character separator. *)
Fixpoint split (sep : ascii) (s : string) : list string :=
  match s with
  | EmptyString => [EmptyString]
  | String c r =>
      if Ascii.eqb c sep then EmptyString :: split sep r
      else
        match split sep r with
        | h :: t => String c h :: t
        | [] => [String c EmptyString]
        end
  end.

(** [ticker.split('-')[1]]. *)
Definition coin_of (ticker : string) : Py.outcome string :=
  match nth_error (split "-"%char ticker) 1 with
  | Some c => Py.Returned c
  | None => Py.Raised Py.IndexError
  end.

Definition hold_ok (d : trade_details) : trade_result :=
  {| success := true; action := Hold; details := d |}.

Definition hold_failed (d : trade_details) : trade_result :=
  {| success := false; action := Hold; details := d |}.

Definition submit (c : Api.call) (st : state) : state :=
  {| positions := positions st; orders := orders st;
     submitted := submitted st ++ [c] |}.

Definition store_order (id : string) (o : order_info) (st : state) : state :=
  {| positions := positions st; orders := PyDict.set id o (orders st);
     submitted := submitted st |}.

(** The minimum order amount of the exchange, written as the literal [5000]
    in the source. *)
Definition min_order_amount : Q := 5000.

(** [execute_trade(ticker, signal_info)].  The whole body is inside a
    [try] whose handler returns a failed hold. *)
Definition execute_trade (cfg : config) (api : Api.t) (tk : string)
  (si : signal_info) (st : state) : trade_result * state :=
  if Z.eqb (signal si) 0 || Py.Qltb (confidence si) (6 # 10) then
    (hold_ok (NoSignalOrLowConfidence (signal si) (confidence si)), st)
  else
    match Api.get_current_price api tk with
    | None => (hold_failed PriceUnavailable, st)
    | Some current_price =>
        let krw_balance := Api.get_balance api "KRW" in
        match coin_of tk with
        | Py.Raised e => (hold_failed (Error e), st)
        | Py.Returned coin =>
            match krw_balance, Api.get_balance api coin with
            | Some krw_balance, Some coin_balance =>
                if Z.ltb 0 (signal si) then
                  let total_asset := krw_balance + coin_balance * current_price in
                  match Py.div (coin_balance * current_price) total_asset with
                  | Py.Raised e => (hold_failed (Error e), st)
                  | Py.Returned coin_ratio =>
                      if Qle_bool (max_invest_ratio cfg) coin_ratio then
                        (hold_ok (AlreadyInvested coin_ratio), st)
                      else
                        let amount :=
                          Py.min3 (trade_amount cfg)
                            (krw_balance * (9 # 10))
                            ((max_invest_ratio cfg - coin_ratio) * total_asset) in
                        if Py.Qltb amount min_order_amount then
                          (hold_ok (BelowMinimumOrder amount), st)
                        else
                          let st1 := submit (Api.BuyMarket tk amount) st in
                          match Api.buy_market_order api tk amount with
                          | Some order =>
                              ({| success := true; action := Buy;
                                  details := Bought (Api.uuid order) amount
                                               current_price |},
                               store_order (Api.uuid order)
                                 {| ticker := tk; type := BuyOrder;
                                    price := current_price; size := amount;
                                    timestamp := Api.now api |} st1)
                          | None => (hold_failed BuyOrderFailed, st1)
                          end
                  end
                else if Z.ltb (signal si) 0 then
                  if Qle_bool coin_balance 0 then (hold_ok NothingHeld, st)
                  else
                    let trade_volume := coin_balance in
                    let st1 := submit (Api.SellMarket tk trade_volume) st in
                    match Api.sell_market_order api tk trade_volume with
                    | Some order =>
                        ({| success := true; action := Sell;
                            details := Sold (Api.uuid order) trade_volume
                                         current_price |},
                         store_order (Api.uuid order)
                           {| ticker := tk; type := SellOrder;
                              price := current_price; size := trade_volume;
                              timestamp := Api.now api |} st1)
                    | None => (hold_failed SellOrderFailed, st1)
                    end
                else (hold_ok Waiting, st)
            | _, _ => (hold_failed BalanceUnavailable, st)
            end
        end
    end.

(** A value of the [trades] dictionary of a cycle. *)
Record cycle_record := {
  cycle_signal : Z;
  cycle_confidence : Q;
  trade_result_of : trade_result
}.

(** What the exchange answers while the [k]-th market of the list is being
    processed: its candles for a ticker and its account and order answers. *)
Record visit := {
  candles_at : string -> option Pd.frame;
  exchange_at : Api.t
}.

(** The loop of [run_trading_cycle] from its [k]-th market on.  [get_signal]
    and [execute_trade] handle whatever is raised inside them, so the handler
    of the loop is not reached. *)
Fixpoint trading_loop (lib : TechnicalIndicators.library)
  (scfg : TechnicalIndicators.config) (cfg : config) (world : nat -> visit)
  (k : nat) (markets : list string) (results : PyDict.t cycle_record)
  (st : state) : PyDict.t cycle_record * state :=
  match markets with
  | [] => (results, st)
  | tk :: rest =>
      let signal_info := get_signal lib scfg (candles_at (world k) tk) in
      let '(trade_result, st') :=
        execute_trade cfg (exchange_at (world k)) tk signal_info st in
      trading_loop lib scfg cfg world (S k) rest
        (PyDict.set tk
           {| cycle_signal := signal signal_info;
              cycle_confidence := confidence signal_info;
              trade_result_of := trade_result |}
           results)
        st'
  end.

(** [run_trading_cycle(markets, interval)]: the [trades] of the result. *)
Definition run_trading_cycle (lib : TechnicalIndicators.library)
  (scfg : TechnicalIndicators.config) (cfg : config) (world : nat -> visit)
  (markets : list string) (st : state) : PyDict.t cycle_record * state :=
  trading_loop lib scfg cfg world 0 markets PyDict.empty st.

End CombinedStrategy.

(** * Properties *)

(** ** Comparisons and dictionaries *)

Lemma Qltb_lt (x y : Q) : Py.Qltb x y = true <-> x < y.
Proof.
  unfold Py.Qltb. rewrite Qlt_alt. destruct (x ?= y); split; congruence.
Qed.

Lemma Qltb_ge (x y : Q) : Py.Qltb x y = false <-> y <= x.
Proof.
  pose proof (Qltb_lt x y) as H. pose proof (Qnot_lt_le x y) as H1.
  pose proof (Qle_not_lt y x) as H2.
  destruct (Py.Qltb x y); split; intros; try congruence.
  - exfalso. apply H2; auto. now apply H.
  - apply H1. intros C. apply H in C. discriminate.
Qed.

Lemma Qle_bool_false (x y : Q) : Qle_bool x y = false <-> y < x.
Proof.
  pose proof (Qle_bool_iff x y) as H. pose proof (Qnot_le_lt x y) as H1.
  pose proof (Qlt_not_le y x) as H2.
  destruct (Qle_bool x y); split; intros; try congruence.
  - exfalso. apply H2; auto. now apply H.
  - apply H1. intros C. apply H in C. discriminate.
Qed.

Lemma max2_ge_l (a b : Q) : a <= Py.max2 a b.
Proof.
  unfold Py.max2. destruct (Py.Qltb a b) eqn:E.
  - apply Qltb_lt in E. lra.
  - lra.
Qed.

Lemma max2_ge_r (a b : Q) : b <= Py.max2 a b.
Proof.
  unfold Py.max2. destruct (Py.Qltb a b) eqn:E.
  - lra.
  - apply Qltb_ge in E. exact E.
Qed.

Lemma min2_le_l (a b : Q) : Py.min2 a b <= a.
Proof.
  unfold Py.min2. destruct (Py.Qltb b a) eqn:E.
  - apply Qltb_lt in E. lra.
  - lra.
Qed.

Lemma min2_le_r (a b : Q) : Py.min2 a b <= b.
Proof.
  unfold Py.min2. destruct (Py.Qltb b a) eqn:E.
  - lra.
  - apply Qltb_ge in E. exact E.
Qed.

Lemma min3_le_mid (a b c : Q) : Py.min3 a b c <= b.
Proof.
  unfold Py.min3. eapply Qle_trans; [apply min2_le_l | apply min2_le_r].
Qed.

Section DictFacts.
Context {V : Type}.
Implicit Types (d : PyDict.t V) (k : string) (v : V).

Lemma get_set_same k v d : PyDict.get k (PyDict.set k v d) = Some v.
Proof.
  induction d as [|[k' v'] r IH]; simpl.
  - now rewrite String.eqb_refl.
  - destruct (String.eqb k k') eqn:E; simpl; rewrite ?String.eqb_refl, ?E; auto.
Qed.

Lemma get_set_other k k' v d :
  k <> k' -> PyDict.get k (PyDict.set k' v d) = PyDict.get k d.
Proof.
  intros Hne. induction d as [|[k2 v2] r IH]; simpl.
  - apply String.eqb_neq in Hne. now rewrite Hne.
  - destruct (String.eqb k' k2) eqn:E; simpl.
    + apply String.eqb_eq in E. subst k2.
      apply String.eqb_neq in Hne. now rewrite Hne.
    + now rewrite IH.
Qed.

Lemma get_del_same k d : PyDict.get k (PyDict.del k d) = None.
Proof.
  induction d as [|[k' v'] r IH]; simpl; auto.
  destruct (String.eqb k k') eqn:E; simpl; rewrite ?E; auto.
Qed.

Lemma get_del_other k k' d :
  k <> k' -> PyDict.get k (PyDict.del k' d) = PyDict.get k d.
Proof.
  intros Hne. induction d as [|[k2 v2] r IH]; simpl; auto.
  destruct (String.eqb k' k2) eqn:E; simpl.
  - apply String.eqb_eq in E. subst k2.
    apply String.eqb_neq in Hne. now rewrite Hne.
  - now rewrite IH.
Qed.

Lemma get_alter f k k' d :
  PyDict.get k (PyDict.alter f k' d) =
  if String.eqb k k' then option_map f (PyDict.get k d) else PyDict.get k d.
Proof.
  induction d as [|[k2 v2] r IH]; simpl.
  - now destruct (String.eqb k k').
  - destruct (String.eqb k' k2) eqn:E; simpl.
    + apply String.eqb_eq in E. subst k2.
      destruct (String.eqb k k') eqn:E2; simpl; auto.
    + rewrite IH. destruct (String.eqb k k') eqn:E2; auto.
      apply String.eqb_eq in E2. subst k'. now rewrite E.
Qed.

Lemma len_alter f k d : PyDict.len (PyDict.alter f k d) = PyDict.len d.
Proof.
  unfold PyDict.len.
  induction d as [|[k2 v2] r IH]; simpl; auto.
  destruct (String.eqb k k2); simpl; auto.
Qed.

Lemma len_del_mem k d :
  PyDict.mem k d = true -> (PyDict.len (PyDict.del k d) < PyDict.len d)%nat.
Proof.
  unfold PyDict.len, PyDict.mem.
  assert (Hle : forall d', (List.length (PyDict.del k d') <= List.length d')%nat).
  { induction d' as [|[k2 v2] r IH]; simpl; auto.
    destruct (String.eqb k k2); simpl; lia. }
  induction d as [|[k2 v2] r IH]; simpl; [discriminate|].
  destruct (String.eqb k k2) eqn:E; simpl; intros H.
  - specialize (Hle r). lia.
  - specialize (IH H). lia.
Qed.

Lemma mem_get k d : PyDict.mem k d = true <-> exists v, PyDict.get k d = Some v.
Proof.
  unfold PyDict.mem. destruct (PyDict.get k d); split; eauto; try discriminate.
  intros [v H]; discriminate.
Qed.

Lemma get_head k v d : PyDict.get k ((k, v) :: d) = Some v.
Proof. simpl. now rewrite String.eqb_refl. Qed.

End DictFacts.

(** ** Exit decision of the Risk Engine *)

Section ExitDecision.
Import RiskManager.
Variable cfg : config.

(** The three triggers, as the specification words them. *)
Definition profit_pct (p : position) : Q :=
  (current_price p - entry_price p) / entry_price p.

Definition stop_loss_hit (p : position) : Prop :=
  profit_pct p <= - stop_loss cfg.

Definition trailing_stop_hit (p : position) : Prop :=
  use_trailing_stop cfg = true /\
  exists stop, trailing_stop_price p = Some stop /\ current_price p <= stop.

Definition take_profit_hit (p : position) : Prop :=
  take_profit cfg <= profit_pct p.

Lemma check_position_risk_returns tk p :
  ~ entry_price p == 0 ->
  exists ra, _check_position_risk cfg tk p = Py.Returned ra.
Proof.
  intros Hne. unfold _check_position_risk, Py.div.
  destruct (Qeq_bool (entry_price p) 0) eqn:E.
  - apply Qeq_bool_iff in E. contradiction.
  - destruct (Qle_bool _ _); [eauto|].
    destruct (use_trailing_stop cfg); [destruct (trailing_stop_price p) as [s|]|].
    + destruct (Qle_bool (current_price p) s); [eauto|].
      destruct (Qle_bool _ _); eauto.
    + destruct (Qle_bool _ _); eauto.
    + destruct (Qle_bool _ _); eauto.
Qed.

Lemma trailing_stop_hit_dec p :
  (if use_trailing_stop cfg then
     match trailing_stop_price p with
     | Some stop => if Qle_bool (current_price p) stop then Some stop else None
     | None => None
     end
   else None) = None <-> ~ trailing_stop_hit p.
Proof.
  unfold trailing_stop_hit.
  destruct (use_trailing_stop cfg).
  - destruct (trailing_stop_price p) as [s|].
    + destruct (Qle_bool (current_price p) s) eqn:E.
      * apply Qle_bool_iff in E. split; [discriminate|].
        intros H. exfalso. apply H. eauto.
      * apply Qle_bool_false in E. split; auto.
        intros _ [_ [s' [Hs Hle]]]. inversion Hs; subst. lra.
    + split; auto. intros _ [_ [s' [Hs _]]]. discriminate.
  - split; auto. intros _ [Hf _]. discriminate.
Qed.

End ExitDecision.


(** ** The position ledger across [update_positions] *)

(** Where the entry of a ticker in the refreshed ledger comes from. *)
Inductive entry_origin (cfg : RiskManager.config) (api : Api.t)
  (old : RiskManager.ledger) (tk : string)
  : option RiskManager.position -> Prop :=
| origin_absent : entry_origin cfg api old tk None
| origin_refreshed (p : RiskManager.position) (bal cp : Q) :
    PyDict.get tk old = Some p ->
    Api.get_current_price api tk = Some cp ->
    ~ cp == 0 ->
    entry_origin cfg api old tk
      (Some (RiskManager.refresh_position cfg p bal cp))
| origin_created (cur : string) (bal cp : Q) :
    PyDict.get tk old = None ->
    tk = RiskManager.ticker_of cur ->
    Api.get_current_price api tk = Some cp ->
    ~ cp == 0 ->
    entry_origin cfg api old tk
      (Some (RiskManager.fresh_position cfg cur bal cp (Api.now api))).

(** [q] is [p] up to the quantity held. *)
Definition same_but_quantity (p q : RiskManager.position) : Prop :=
  RiskManager.set_quantity p (RiskManager.quantity q) = q.

Lemma same_but_quantity_refl p : same_but_quantity p p.
Proof. destruct p; reflexivity. Qed.

Lemma same_but_quantity_trans p q r :
  same_but_quantity p q -> same_but_quantity q r -> same_but_quantity p r.
Proof.
  unfold same_but_quantity. intros H1 H2. rewrite <- H2, <- H1. reflexivity.
Qed.

Lemma same_but_quantity_set p v :
  same_but_quantity p (RiskManager.set_quantity p v).
Proof. reflexivity. Qed.

Lemma update_entry_origin cfg api old new b tk :
  entry_origin cfg api old tk (PyDict.get tk new) ->
  entry_origin cfg api old tk
    (PyDict.get tk (RiskManager.update_entry cfg api old new b)).
Proof.
  intros Hnew. unfold RiskManager.update_entry.
  destruct (String.eqb _ _); auto.
  destruct (Qle_bool _ _); auto.
  destruct (Api.get_current_price api _) as [cp|] eqn:Ep; auto.
  destruct (Qeq_bool cp 0) eqn:Ez; auto.
  assert (Hnz : ~ cp == 0).
  { intros C. apply Qeq_bool_iff in C. congruence. }
  destruct (string_dec tk (RiskManager.ticker_of (Api.currency b))) as [->|Hne].
  - destruct (PyDict.get _ old) as [p|] eqn:Eo; rewrite get_set_same.
    + now apply origin_refreshed.
    + now apply origin_created.
  - destruct (PyDict.get _ old); now rewrite get_set_other.
Qed.

Lemma fold_update_entry_origin cfg api old bs new tk :
  entry_origin cfg api old tk (PyDict.get tk new) ->
  entry_origin cfg api old tk
    (PyDict.get tk (fold_left (RiskManager.update_entry cfg api old) bs new)).
Proof.
  revert new. induction bs as [|b bs IH]; intros new H; simpl; auto.
  apply IH. now apply update_entry_origin.
Qed.

(** Either the balance query failed and the ledger is untouched, or every
    entry of the new ledger is a refreshed or a newly created one. *)
Lemma update_positions_origin cfg api old tk :
  RiskManager.update_positions cfg api old = old \/
  entry_origin cfg api old tk
    (PyDict.get tk (RiskManager.update_positions cfg api old)).
Proof.
  unfold RiskManager.update_positions.
  destruct (Api.get_balances api) as [[|b bs]|]; auto.
  right. apply fold_update_entry_origin. simpl. constructor.
Qed.

Lemma refresh_position_frame cfg p bal cp :
  RiskManager.currency (RiskManager.refresh_position cfg p bal cp) =
    RiskManager.currency p /\
  RiskManager.entry_price (RiskManager.refresh_position cfg p bal cp) =
    RiskManager.entry_price p /\
  RiskManager.entry_time (RiskManager.refresh_position cfg p bal cp) =
    RiskManager.entry_time p.
Proof.
  unfold RiskManager.refresh_position, RiskManager._update_trailing_stop.
  simpl.
  destruct (Py.Qltb (RiskManager.highest_price p) cp); simpl;
    destruct (Py.Qltb cp (RiskManager.lowest_price p)); simpl;
    destruct (RiskManager.use_trailing_stop cfg); simpl;
    destruct (RiskManager.trailing_stop_price p); simpl;
    try destruct (Py.Qltb _ _); simpl; auto.
Qed.

Lemma update_trailing_stop_max cfg p cp s :
  RiskManager.trailing_stop_price p = Some s ->
  RiskManager.trailing_stop_price (RiskManager._update_trailing_stop cfg p cp) =
    Some (Py.max2 s (cp * (1 - RiskManager.trailing_stop cfg))).
Proof.
  intros H. unfold RiskManager._update_trailing_stop, Py.max2. rewrite H.
  destruct (Py.Qltb _ _); simpl; auto.
Qed.

Lemma refresh_position_stop cfg p bal cp s :
  RiskManager.trailing_stop_price p = Some s ->
  RiskManager.trailing_stop_price (RiskManager.refresh_position cfg p bal cp) =
    Some (if RiskManager.use_trailing_stop cfg
          then Py.max2 s (cp * (1 - RiskManager.trailing_stop cfg)) else s).
Proof.
  intros H. unfold RiskManager.refresh_position.
  destruct (RiskManager.use_trailing_stop cfg).
  - apply update_trailing_stop_max.
    simpl. destruct (Py.Qltb (RiskManager.highest_price p) cp); simpl;
      destruct (Py.Qltb cp _); simpl; auto.
  - simpl. destruct (Py.Qltb (RiskManager.highest_price p) cp); simpl;
      destruct (Py.Qltb cp _); simpl; auto.
Qed.

(** ** The ledger across a risk cycle *)

Lemma execute_risk_action_positions api tk p ra st k q :
  PyDict.get k
    (RiskManager.positions (snd (RiskManager._execute_risk_action api tk p ra st)))
    = Some q ->
  exists p0, PyDict.get k (RiskManager.positions st) = Some p0 /\
             same_but_quantity p0 q.
Proof.
  unfold RiskManager._execute_risk_action.
  destruct (RiskManager.action ra); simpl.
  - destruct (Api.sell_market_order _ _ _); simpl.
    + destruct (PyDict.mem tk (RiskManager.positions st)); intros H.
      * destruct (string_dec k tk) as [->|Hne].
        -- rewrite get_del_same in H. discriminate.
        -- rewrite get_del_other in H by auto.
           eexists; split; eauto using same_but_quantity_refl.
      * eexists; split; eauto using same_but_quantity_refl.
    + intros H. eexists; split; eauto using same_but_quantity_refl.
  - destruct (Api.sell_market_order _ _ _); simpl.
    + rewrite get_alter. destruct (String.eqb k tk).
      * destruct (PyDict.get k (RiskManager.positions st)) as [p0|]; simpl;
          [|discriminate].
        intros H. inversion H; subst. eexists; split; eauto.
        apply same_but_quantity_set.
      * intros H. eexists; split; eauto using same_but_quantity_refl.
    + intros H. eexists; split; eauto using same_but_quantity_refl.
  - intros H. eexists; split; eauto using same_but_quantity_refl.
Qed.

Lemma risk_loop_positions cfg api n items :
  forall actions st k q,
    PyDict.get k
      (RiskManager.positions (snd (RiskManager.risk_loop cfg api n items actions st)))
      = Some q ->
    exists p0, PyDict.get k (RiskManager.positions st) = Some p0 /\
               same_but_quantity p0 q.
Proof.
  induction items as [|[tk p] rest IH]; intros actions st k q; simpl.
  - destruct (negb _); simpl; intros H;
      eexists; split; eauto using same_but_quantity_refl.
  - destruct (negb (Nat.eqb _ _)); simpl.
    { intros H. eexists; split; eauto using same_but_quantity_refl. }
    destruct (RiskManager._check_position_risk cfg tk p) as [ra|e]; simpl.
    2:{ intros H. eexists; split; eauto using same_but_quantity_refl. }
    destruct (negb (RiskManager.action_eqb _ _)).
    + destruct (RiskManager._execute_risk_action api tk p ra st) as [er st'] eqn:Ex.
      intros H. apply IH in H. destruct H as [p1 [H1 S1]].
      pose proof (execute_risk_action_positions api tk p ra st k p1) as Hx.
      rewrite Ex in Hx. simpl in Hx. destruct (Hx H1) as [p0 [H0 S0]].
      exists p0. split; auto. eapply same_but_quantity_trans; eauto.
    + apply IH.
Qed.

(** After a cycle, an entry of the ledger is an entry of the refreshed
    ledger, up to its quantity. *)
Lemma check_risk_limits_positions cfg api st k q :
  PyDict.get k
    (RiskManager.positions (snd (RiskManager.check_risk_limits cfg api st)))
    = Some q ->
  exists p0,
    PyDict.get k (RiskManager.update_positions cfg api (RiskManager.positions st))
      = Some p0 /\
    same_but_quantity p0 q.
Proof.
  unfold RiskManager.check_risk_limits.
  match goal with
  | |- context [RiskManager.risk_loop ?c ?a ?n ?i ?ac ?s] =>
      pose proof (risk_loop_positions c a n i ac s k q) as H;
      destruct (RiskManager.risk_loop c a n i ac s) as [[acts|e] st'] eqn:E
  end; simpl in *; exact H.
Qed.

(** ** Trailing stop over the lifetime of a position *)

(** The ledgers after each of a sequence of cycles, one exchange snapshot
    per cycle. *)
Fixpoint run_cycles (cfg : RiskManager.config) (apis : list Api.t)
  (st : RiskManager.state) : list RiskManager.state :=
  match apis with
  | [] => []
  | api :: rest =>
      let st' := snd (RiskManager.check_risk_limits cfg api st) in
      st' :: run_cycles cfg rest st'
  end.

Definition stop_of (tk : string) (st : RiskManager.state) : option Q :=
  match PyDict.get tk (RiskManager.positions st) with
  | Some p => RiskManager.trailing_stop_price p
  | None => None
  end.

Definition open_in (tk : string) (st : RiskManager.state) : Prop :=
  PyDict.mem tk (RiskManager.positions st) = true.

(** Starting from the stop [s], the stop stays set and never goes down. *)
Fixpoint never_lowered (s : Q) (stops : list (option Q)) : Prop :=
  match stops with
  | [] => True
  | Some s' :: rest => s <= s' /\ never_lowered s' rest
  | None :: rest => False
  end.

Lemma cycle_stop cfg api st tk p s q :
  PyDict.get tk (RiskManager.positions st) = Some p ->
  RiskManager.trailing_stop_price p = Some s ->
  PyDict.get tk
    (RiskManager.positions (snd (RiskManager.check_risk_limits cfg api st)))
    = Some q ->
  (RiskManager.update_positions cfg api (RiskManager.positions st) =
     RiskManager.positions st /\
   RiskManager.trailing_stop_price q = Some s) \/
  (exists cp,
     Api.get_current_price api tk = Some cp /\
     RiskManager.trailing_stop_price q =
       Some (if RiskManager.use_trailing_stop cfg
             then Py.max2 s (cp * (1 - RiskManager.trailing_stop cfg))
             else s)).
Proof.
  intros Hp Hs Hq.
  apply check_risk_limits_positions in Hq. destruct Hq as [p0 [H0 Hsame]].
  assert (Hstop : RiskManager.trailing_stop_price q =
                  RiskManager.trailing_stop_price p0).
  { unfold same_but_quantity in Hsame. rewrite <- Hsame. reflexivity. }
  destruct (update_positions_origin cfg api (RiskManager.positions st) tk)
    as [Hsame_ledger | Horigin].
  - left. split; auto. rewrite Hsame_ledger in H0. congruence.
  - right. rewrite H0 in Horigin. inversion Horigin; subst.
    + exists cp. split; auto. rewrite Hstop.
      apply refresh_position_stop. congruence.
    + congruence.
Qed.

Lemma cycle_stop_le cfg api st tk s :
  stop_of tk st = Some s ->
  open_in tk (snd (RiskManager.check_risk_limits cfg api st)) ->
  exists s', stop_of tk (snd (RiskManager.check_risk_limits cfg api st)) = Some s'
             /\ s <= s'.
Proof.
  unfold stop_of, open_in. intros Hs Hopen.
  destruct (PyDict.get tk (RiskManager.positions st)) as [p|] eqn:Ep;
    [|discriminate].
  apply mem_get in Hopen. destruct Hopen as [q Hq]. rewrite Hq.
  destruct (cycle_stop cfg api st tk p s q Ep Hs Hq) as [[_ H]|[cp [_ H]]];
    rewrite H; eexists; split; eauto; try lra.
  destruct (RiskManager.use_trailing_stop cfg); [apply max2_ge_l | lra].
Qed.


(** ** Frame of a position update *)

(** C10. A position update leaves the entry price, the entry time (and the
    currency) of a position that is already in the ledger unchanged: the
    only fields it writes are quantity, current price, the extrema and the
    trailing stop.  The entry price is taken from the observed price only
    for a ticker that was not in the ledger, i.e. on creation. *)
Theorem update_positions_preserves_entry :
  forall (cfg : RiskManager.config) (api : Api.t) (old : RiskManager.ledger)
         (tk : string) (p' : RiskManager.position),
    PyDict.get tk (RiskManager.update_positions cfg api old) = Some p' ->
    match PyDict.get tk old with
    | Some p =>
        RiskManager.entry_price p' = RiskManager.entry_price p /\
        RiskManager.entry_time p' = RiskManager.entry_time p /\
        RiskManager.currency p' = RiskManager.currency p
    | None =>
        Api.get_current_price api tk = Some (RiskManager.entry_price p') /\
        RiskManager.entry_time p' = Api.now api
    end.
Proof.
  intros cfg api old tk p' H.
  destruct (update_positions_origin cfg api old tk) as [Hsame|Horigin].
  - rewrite Hsame in H. rewrite H. auto.
  - rewrite H in Horigin.
    inversion Horigin as [|p bal cp Hold Hprice Hnz Heq
                          |cur bal cp Hold Htk Hprice Hnz Heq].
    + rewrite Hold.
      pose proof (refresh_position_frame cfg p bal cp) as [Hc [He Ht]]. auto.
    + rewrite Hold. simpl. auto.
Qed.

(** ** Full exit and re-entry *)

Lemma mem_set_same {V} k (v : V) d : PyDict.mem k (PyDict.set k v d) = true.
Proof. unfold PyDict.mem. now rewrite get_set_same. Qed.

Lemma mem_set_keeps {V} k k' (v : V) d :
  PyDict.mem k d = true -> PyDict.mem k (PyDict.set k' v d) = true.
Proof.
  intros H. destruct (string_dec k k') as [->|Hne].
  - apply mem_set_same.
  - unfold PyDict.mem in *. now rewrite get_set_other.
Qed.

Lemma update_entry_keeps cfg api old new b k :
  PyDict.mem k new = true ->
  PyDict.mem k (RiskManager.update_entry cfg api old new b) = true.
Proof.
  intros H. unfold RiskManager.update_entry.
  destruct (String.eqb _ _); auto.
  destruct (Qle_bool _ _); auto.
  destruct (Api.get_current_price api _) as [cp|]; auto.
  destruct (Qeq_bool cp 0); auto.
  destruct (PyDict.get _ old); now apply mem_set_keeps.
Qed.

Lemma fold_update_entry_keeps cfg api old bs new k :
  PyDict.mem k new = true ->
  PyDict.mem k (fold_left (RiskManager.update_entry cfg api old) bs new) = true.
Proof.
  revert new. induction bs as [|b bs IH]; intros new H; simpl; auto.
  apply IH. now apply update_entry_keeps.
Qed.

(** A balance entry that [update_positions] does not skip. *)
Definition held (api : Api.t) (b : Api.balance_entry) : Prop :=
  Api.currency b <> "KRW"%string /\
  0 < Api.balance b /\
  exists cp,
    Api.get_current_price api (RiskManager.ticker_of (Api.currency b)) = Some cp /\
    ~ cp == 0.

Lemma update_entry_held cfg api old new b :
  held api b ->
  PyDict.mem (RiskManager.ticker_of (Api.currency b))
    (RiskManager.update_entry cfg api old new b) = true.
Proof.
  intros [Hkrw [Hpos [cp [Hp Hnz]]]]. unfold RiskManager.update_entry.
  apply String.eqb_neq in Hkrw. rewrite Hkrw.
  apply Qle_bool_false in Hpos. rewrite Hpos. rewrite Hp.
  destruct (Qeq_bool cp 0) eqn:E.
  - apply Qeq_bool_iff in E. contradiction.
  - destruct (PyDict.get _ old); apply mem_set_same.
Qed.

Lemma update_positions_held cfg api old bs b :
  Api.get_balances api = Some bs -> In b bs -> held api b ->
  PyDict.mem (RiskManager.ticker_of (Api.currency b))
    (RiskManager.update_positions cfg api old) = true.
Proof.
  intros Hbs Hin Hheld. unfold RiskManager.update_positions. rewrite Hbs.
  destruct bs as [|b0 bs0]; [contradiction|].
  remember (b0 :: bs0) as l eqn:El. clear El Hbs.
  generalize (@PyDict.empty RiskManager.position).
  induction l as [|x l IH]; intros acc; [contradiction|]. simpl.
  destruct Hin as [->|Hin].
  - apply fold_update_entry_keeps. now apply update_entry_held.
  - now apply IH.
Qed.

(** C7. A successful full exit removes the ledger entry.  Whatever the
    next position update then stores for that ticker is a newly created
    position: entry price, highest and lowest price all equal the price
    observed in that update, the entry time is the time of that update, and
    nothing of the position depends on the one that was exited.  Such a
    position is indeed created as soon as a positive balance with a price is
    observed. *)
Theorem full_exit_then_fresh_entry :
  forall (cfg : RiskManager.config) (api : Api.t) (tk : string)
         (p : RiskManager.position) (ra : RiskManager.risk_action)
         (st : RiskManager.state) (o : Api.order),
    RiskManager.action ra = RiskManager.Sell ->
    Api.sell_market_order api tk (RiskManager.quantity p) = Some o ->
    let st' := snd (RiskManager._execute_risk_action api tk p ra st) in
    PyDict.get tk (RiskManager.positions st') = None /\
    (forall api' p',
       PyDict.get tk
         (RiskManager.update_positions cfg api' (RiskManager.positions st'))
         = Some p' ->
       exists cur bal cp,
         Api.get_current_price api' tk = Some cp /\
         p' = RiskManager.fresh_position cfg cur bal cp (Api.now api') /\
         RiskManager.entry_price p' = cp /\
         RiskManager.highest_price p' = cp /\
         RiskManager.lowest_price p' = cp /\
         RiskManager.current_price p' = cp) /\
    (forall api' bs b,
       Api.get_balances api' = Some bs -> In b bs -> held api' b ->
       tk = RiskManager.ticker_of (Api.currency b) ->
       PyDict.mem tk
         (RiskManager.update_positions cfg api' (RiskManager.positions st'))
         = true).
Proof.
  intros cfg api tk p ra st o Hsell Horder st'.
  assert (Hgone : PyDict.get tk (RiskManager.positions st') = None).
  { subst st'. unfold RiskManager._execute_risk_action.
    rewrite Hsell, Horder. simpl.
    unfold PyDict.mem.
    destruct (PyDict.get tk (RiskManager.positions st)) eqn:E; auto.
    apply get_del_same. }
  split; [exact Hgone|split].
  - intros api' p' H.
    destruct (update_positions_origin cfg api' (RiskManager.positions st') tk)
      as [Hsame|Horigin].
    + rewrite Hsame in H. congruence.
    + rewrite H in Horigin.
      inversion Horigin as [|p0 bal cp Hold Hprice Hnz Heq
                            |cur bal cp Hold Htk Hprice Hnz Heq].
      * congruence.
      * exists cur, bal, cp. repeat split; auto.
  - intros api' bs b Hbs Hin Hheld ->.
    eapply update_positions_held; eauto.
Qed.

(** ** Failed orders *)

Lemma keys_set_in {V} k (v : V) d k' :
  In k' (PyDict.keys (PyDict.set k v d)) <-> k' = k \/ In k' (PyDict.keys d).
Proof.
  unfold PyDict.keys. induction d as [|[k2 v2] r IH]; simpl.
  - intuition.
  - destruct (String.eqb k k2) eqn:E; simpl.
    + apply String.eqb_eq in E. subst. intuition.
    + rewrite IH. intuition.
Qed.

Lemma keys_set_nodup {V} k (v : V) d :
  NoDup (PyDict.keys d) -> NoDup (PyDict.keys (PyDict.set k v d)).
Proof.
  unfold PyDict.keys. induction d as [|[k2 v2] r IH]; simpl; intros H.
  - constructor; [intros []|constructor].
  - inversion H as [|? ? Hnotin Hr]; subst.
    destruct (String.eqb k k2) eqn:E; simpl.
    + apply String.eqb_eq in E. subst. constructor; auto.
    + constructor; auto.
      intros Hin. apply (keys_set_in k v r k2) in Hin.
      destruct Hin as [->|Hin]; [|contradiction].
      rewrite String.eqb_refl in E. discriminate.
Qed.

Lemma update_entry_nodup cfg api old new b :
  NoDup (PyDict.keys new) ->
  NoDup (PyDict.keys (RiskManager.update_entry cfg api old new b)).
Proof.
  intros H. unfold RiskManager.update_entry.
  destruct (String.eqb _ _); auto.
  destruct (Qle_bool _ _); auto.
  destruct (Api.get_current_price api _) as [cp|]; auto.
  destruct (Qeq_bool cp 0); auto.
  destruct (PyDict.get _ old); now apply keys_set_nodup.
Qed.

Lemma update_positions_nodup cfg api old :
  NoDup (PyDict.keys old) ->
  NoDup (PyDict.keys (RiskManager.update_positions cfg api old)).
Proof.
  intros H. unfold RiskManager.update_positions.
  destruct (Api.get_balances api) as [[|b bs]|]; auto.
  assert (Hacc : NoDup (PyDict.keys (@PyDict.empty RiskManager.position)))
    by constructor.
  revert Hacc. generalize (@PyDict.empty RiskManager.position).
  induction (b :: bs) as [|x l IH]; intros acc Hacc; simpl; auto.
  apply IH. now apply update_entry_nodup.
Qed.

(** One call of [_execute_risk_action] hands at most one order to the
    exchange; if that order comes back absent the result is a failed hold
    and the ledger is the one before the call. *)
Lemma execute_risk_action_once api tk p ra st :
  let '(er, st') := RiskManager._execute_risk_action api tk p ra st in
  (RiskManager.submitted st' = RiskManager.submitted st /\
   RiskManager.action ra = RiskManager.Hold) \/
  (exists volume,
     RiskManager.submitted st' =
       RiskManager.submitted st ++ [Api.SellMarket tk volume] /\
     volume = (match RiskManager.action ra with
               | RiskManager.PartialSell =>
                   RiskManager.quantity p *
                   RiskManager.sell_ratio_of (RiskManager.details ra)
               | _ => RiskManager.quantity p
               end) /\
     (Api.sell_market_order api tk volume = None ->
        RiskManager.success er = false /\
        RiskManager.exec_action er = RiskManager.Hold /\
        RiskManager.positions st' = RiskManager.positions st)).
Proof.
  unfold RiskManager._execute_risk_action.
  destruct (RiskManager.action ra) eqn:Ea.
  - destruct (Api.sell_market_order api tk (RiskManager.quantity p)) eqn:Eo;
      right; eexists; simpl; (split; [reflexivity|split; [reflexivity|]]);
      intros H; [congruence|auto].
  - destruct (Api.sell_market_order api tk _) eqn:Eo;
      right; eexists; simpl; (split; [reflexivity|split; [reflexivity|]]);
      intros H; [congruence|auto].
  - left. auto.
Qed.

Lemma risk_loop_submitted cfg api n items :
  forall actions st,
    NoDup (map fst items) ->
    exists calls,
      RiskManager.submitted (snd (RiskManager.risk_loop cfg api n items actions st))
        = RiskManager.submitted st ++ calls /\
      incl (map Api.call_ticker calls) (map fst items) /\
      NoDup (map Api.call_ticker calls).
Proof.
  induction items as [|[tk p] rest IH]; intros actions st Hnd; simpl.
  - exists []. rewrite app_nil_r.
    destruct (negb _); simpl; repeat split; auto using incl_nil_l; constructor.
  - inversion Hnd as [|? ? Hnotin Hrest]; subst.
    assert (Hstop : exists calls : list Api.call,
               RiskManager.submitted st = RiskManager.submitted st ++ calls /\
               incl (map Api.call_ticker calls) (tk :: map fst rest) /\
               NoDup (map Api.call_ticker calls)).
    { exists []. rewrite app_nil_r. repeat split; auto using incl_nil_l.
      constructor. }
    destruct (negb (Nat.eqb _ _)); simpl; auto.
    destruct (RiskManager._check_position_risk cfg tk p) as [ra|e]; simpl; auto.
    destruct (negb (RiskManager.action_eqb _ _)).
    + pose proof (execute_risk_action_once api tk p ra st) as Hx.
      destruct (RiskManager._execute_risk_action api tk p ra st) as [er st'].
      destruct (IH (PyDict.set tk (RiskManager.Execution er) actions) st' Hrest)
        as [calls [Hc [Hincl Hnd']]].
      destruct Hx as [[Hsame _]|[volume [Hsub _]]].
      * exists calls. rewrite Hc, Hsame. repeat split; auto.
        now apply incl_tl.
      * exists (Api.SellMarket tk volume :: calls).
        rewrite Hc, Hsub, <- app_assoc. simpl. repeat split; auto.
        -- apply incl_cons; [now left | now apply incl_tl].
        -- constructor; auto.
    + destruct (IH (PyDict.set tk (RiskManager.Verdict ra) actions) st Hrest)
        as [calls [Hc [Hincl Hnd']]].
      exists calls. repeat split; auto. now apply incl_tl.
Qed.

(** Within one risk cycle no ticker is sent more than one order. *)
Lemma check_risk_limits_one_order_per_ticker cfg api st :
  NoDup (PyDict.keys (RiskManager.positions st)) ->
  exists calls,
    RiskManager.submitted (snd (RiskManager.check_risk_limits cfg api st))
      = RiskManager.submitted st ++ calls /\
    NoDup (map Api.call_ticker calls).
Proof.
  intros Hnd. unfold RiskManager.check_risk_limits.
  apply (update_positions_nodup cfg api) in Hnd.
  match goal with
  | |- context [RiskManager.risk_loop ?c ?a ?n ?i ?ac ?s] =>
      destruct (risk_loop_submitted c a n i ac s Hnd) as [calls [Hc [_ Hn]]];
      destruct (RiskManager.risk_loop c a n i ac s) as [[acts|e] st'] eqn:E
  end; simpl in *; exists calls; auto.
Qed.

(** ** The Strategy Controller *)

Lemma min3_le_all (a b c : Q) :
  Py.min3 a b c <= a /\ Py.min3 a b c <= b /\ Py.min3 a b c <= c.
Proof.
  unfold Py.min3. repeat split.
  - eapply Qle_trans; [apply min2_le_l | apply min2_le_l].
  - apply min3_le_mid.
  - apply min2_le_r.
Qed.

Lemma min3_is_one (a b c : Q) :
  Py.min3 a b c = a \/ Py.min3 a b c = b \/ Py.min3 a b c = c.
Proof.
  unfold Py.min3, Py.min2.
  destruct (Py.Qltb b a); destruct (Py.Qltb c _); auto.
Qed.

(** One call of [execute_trade] hands at most one order to the exchange and
    never writes [self.positions]; it does so only behind the signal and
    confidence gate; an order that comes back absent gives a failed hold and
    leaves [self.orders] alone. *)
Lemma execute_trade_once cfg api tk si st :
  let '(r, st') := CombinedStrategy.execute_trade cfg api tk si st in
  CombinedStrategy.positions st' = CombinedStrategy.positions st /\
  ((st' = st /\ CombinedStrategy.action r = CombinedStrategy.Hold) \/
   (exists c,
      CombinedStrategy.submitted st' = CombinedStrategy.submitted st ++ [c] /\
      CombinedStrategy.signal si <> 0%Z /\
      6 # 10 <= CombinedStrategy.confidence si /\
      ((exists amount,
          c = Api.BuyMarket tk amount /\
          (0 < CombinedStrategy.signal si)%Z /\
          CombinedStrategy.min_order_amount <= amount) \/
       (exists volume,
          c = Api.SellMarket tk volume /\
          (CombinedStrategy.signal si < 0)%Z /\ 0 < volume)) /\
      (Api.answer api c = None ->
         CombinedStrategy.success r = false /\
         CombinedStrategy.action r = CombinedStrategy.Hold /\
         CombinedStrategy.orders st' = CombinedStrategy.orders st))).
Proof.
  unfold CombinedStrategy.execute_trade.
  destruct (Z.eqb (CombinedStrategy.signal si) 0) eqn:Ez; simpl.
  { split; auto. }
  destruct (Py.Qltb (CombinedStrategy.confidence si) (6 # 10)) eqn:Ec; simpl.
  { split; auto. }
  apply Z.eqb_neq in Ez. apply Qltb_ge in Ec.
  destruct (Api.get_current_price api tk) as [price|]; [|split; auto].
  destruct (CombinedStrategy.coin_of tk) as [coin|e]; [|split; auto].
  destruct (Api.get_balance api "KRW") as [krw|]; [|split; auto].
  destruct (Api.get_balance api coin) as [held_coin|]; [|split; auto].
  destruct (Z.ltb 0 (CombinedStrategy.signal si)) eqn:Epos.
  - apply Z.ltb_lt in Epos.
    destruct (Py.div _ _) as [ratio|e]; [|split; auto].
    destruct (Qle_bool _ ratio); [split; auto|].
    destruct (Py.Qltb _ CombinedStrategy.min_order_amount) eqn:Emin;
      [split; auto|].
    apply Qltb_ge in Emin.
    destruct (Api.buy_market_order api tk _) as [o|] eqn:Eo; simpl.
    + split; auto. right. eexists. split; [reflexivity|].
      repeat split; auto.
      all: try (exfalso; simpl in *; congruence).
      left. eexists. repeat split; auto.
    + split; auto. right. eexists. split; [reflexivity|].
      repeat split; auto.
      left. eexists. repeat split; auto.
  - destruct (Z.ltb (CombinedStrategy.signal si) 0) eqn:Eneg; [|split; auto].
    apply Z.ltb_lt in Eneg.
    destruct (Qle_bool held_coin 0) eqn:Eheld; [split; auto|].
    apply Qle_bool_false in Eheld.
    destruct (Api.sell_market_order api tk _) as [o|] eqn:Eo; simpl.
    + split; auto. right. eexists. split; [reflexivity|].
      repeat split; auto.
      all: try (exfalso; simpl in *; congruence).
      right. eexists. repeat split; auto.
    + split; auto. right. eexists. split; [reflexivity|].
      repeat split; auto.
      right. eexists. repeat split; auto.
Qed.


(** C5. An order that comes back absent gives a failed hold and changes
    nothing.  (1) [execute_trade], for the entry buy and the exit sell
    alike: the call submits at most one order; if the exchange answers it
    with nothing, the result has [success = false] and [action = hold], and
    the positions and orders of the strategy are those before the call.
    (2) [_execute_risk_action], for the full and the partial exit alike: at
    most one sell is submitted; if it is answered with nothing, the result
    has [success = false] and [action = hold] and the ledger is the one
    before the call, so the entry and its quantity are untouched.  (3) In one
    risk cycle no ticker is sent a second order. *)
Theorem failed_order_is_failed_hold :
  forall api : Api.t,
    (forall cfg tk si st,
       let r := fst (CombinedStrategy.execute_trade cfg api tk si st) in
       let st' := snd (CombinedStrategy.execute_trade cfg api tk si st) in
       CombinedStrategy.positions st' = CombinedStrategy.positions st /\
       (st' = st \/
        exists c,
          CombinedStrategy.submitted st' = CombinedStrategy.submitted st ++ [c] /\
          (Api.answer api c = None ->
             CombinedStrategy.success r = false /\
             CombinedStrategy.action r = CombinedStrategy.Hold /\
             CombinedStrategy.orders st' = CombinedStrategy.orders st))) /\
    (forall tk p ra st,
       let er := fst (RiskManager._execute_risk_action api tk p ra st) in
       let st' := snd (RiskManager._execute_risk_action api tk p ra st) in
       st' = st \/
       exists volume,
         RiskManager.submitted st' =
           RiskManager.submitted st ++ [Api.SellMarket tk volume] /\
         (Api.answer api (Api.SellMarket tk volume) = None ->
            RiskManager.success er = false /\
            RiskManager.exec_action er = RiskManager.Hold /\
            RiskManager.positions st' = RiskManager.positions st)) /\
    (forall cfg st,
       NoDup (PyDict.keys (RiskManager.positions st)) ->
       exists calls,
         RiskManager.submitted (snd (RiskManager.check_risk_limits cfg api st))
           = RiskManager.submitted st ++ calls /\
         NoDup (map Api.call_ticker calls)).
Proof.
  intros api. split; [|split].
  - intros cfg tk si st r st'. subst r st'.
    pose proof (execute_trade_once cfg api tk si st) as H.
    destruct (CombinedStrategy.execute_trade cfg api tk si st) as [r st'].
    simpl. destruct H as [Hpos [[Hsame _]|[c [Hsub [_ [_ [_ Hfail]]]]]]];
      split; auto.
    right. exists c. auto.
  - intros tk p ra st er st'. subst er st'.
    pose proof (execute_risk_action_once api tk p ra st) as H.
    unfold RiskManager._execute_risk_action in *.
    destruct (RiskManager.action ra).
    + destruct (Api.sell_market_order api tk (RiskManager.quantity p)) eqn:Eo;
        simpl in *; right; eexists; (split; [reflexivity|]); simpl;
        intros Hn; [congruence|auto].
    + destruct (Api.sell_market_order api tk _) eqn:Eo;
        simpl in *; right; eexists; (split; [reflexivity|]); simpl;
        intros Hn; [congruence|auto].
    + left. reflexivity.
  - intros cfg st Hnd. now apply check_risk_limits_one_order_per_ticker.
Qed.

(** ** A full exit inside the risk cycle *)

Definition sample_risk_config : RiskManager.config :=
  {| RiskManager.stop_loss := 3 # 100;
     RiskManager.take_profit := 5 # 100;
     RiskManager.trailing_stop := 2 # 100;
     RiskManager.use_trailing_stop := true |}.

Definition sample_position (cur : string) (qty price : Q) : RiskManager.position :=
  RiskManager.fresh_position sample_risk_config cur qty price 0.

(** An account holding one BTC bought at 100 and two ETH bought at 50. *)
Definition two_positions : RiskManager.state :=
  {| RiskManager.positions :=
       [("KRW-BTC"%string, sample_position "BTC" 1 100);
        ("KRW-ETH"%string, sample_position "ETH" 2 50)];
     RiskManager.submitted := [] |}.

(** Both prices have fallen through the stop-loss; the exchange accepts
    every order. *)
Definition crash_api : Api.t :=
  {| Api.get_current_price :=
       fun tk => if String.eqb tk "KRW-BTC" then Some 90
                 else if String.eqb tk "KRW-ETH" then Some 40 else None;
     Api.get_balances :=
       Some [ {| Api.currency := "KRW"; Api.balance := 1000 |};
              {| Api.currency := "BTC"; Api.balance := 1 |};
              {| Api.currency := "ETH"; Api.balance := 2 |} ];
     Api.get_balance := fun _ => Some 0;
     Api.buy_market_order := fun _ _ => Some {| Api.uuid := "order" |};
     Api.sell_market_order := fun _ _ => Some {| Api.uuid := "order" |};
     Api.now := 1 |}.

(** C6 does not hold of the code.  The full exit of the first position
    deletes its entry while the ledger is being iterated; asking for the next
    position raises [RuntimeError], which [check_risk_limits] catches: the
    cycle returns an empty [actions], although BTC was sold, and ETH, still
    in the ledger and due for a stop-loss exit, is neither evaluated nor
    given a record. *)
Theorem full_exit_aborts_risk_cycle :
  let result := RiskManager.check_risk_limits sample_risk_config crash_api
                  two_positions in
  fst result = [] /\
  RiskManager.submitted (snd result) = [Api.SellMarket "KRW-BTC" 1] /\
  PyDict.keys (RiskManager.positions (snd result)) = ["KRW-ETH"%string] /\
  exists eth ra,
    PyDict.get "KRW-ETH" (RiskManager.positions (snd result)) = Some eth /\
    RiskManager._check_position_risk sample_risk_config "KRW-ETH" eth =
      Py.Returned ra /\
    RiskManager.action ra = RiskManager.Sell /\
    RiskManager.reason ra = RiskManager.StopLoss.
Proof.
  vm_compute. repeat split; auto.
  eexists. eexists. repeat split.
Qed.

Lemma risk_loop_size_changed cfg api n items actions st :
  PyDict.len (RiskManager.positions st) <> n ->
  RiskManager.risk_loop cfg api n items actions st =
    (Py.Raised Py.RuntimeError, st).
Proof.
  intros H. apply Nat.eqb_neq in H.
  destruct items as [|[tk p] rest]; simpl; now rewrite H.
Qed.

Lemma mem_alter {V} (f : V -> V) k k' d :
  PyDict.mem k (PyDict.alter f k' d) = PyDict.mem k d.
Proof.
  unfold PyDict.mem. rewrite get_alter.
  destruct (String.eqb k k'); auto.
  now destruct (PyDict.get k d).
Qed.

(** A position whose verdict is a full exit that the exchange accepts. *)
Definition exits_fully (cfg : RiskManager.config) (api : Api.t)
  (item : string * RiskManager.position) : Prop :=
  exists ra o,
    RiskManager._check_position_risk cfg (fst item) (snd item) = Py.Returned ra /\
    RiskManager.action ra = RiskManager.Sell /\
    Api.sell_market_order api (fst item) (RiskManager.quantity (snd item)) = Some o.

Lemma risk_loop_raises cfg api n items :
  forall actions st,
    PyDict.len (RiskManager.positions st) = n ->
    (forall item, In item items ->
       PyDict.mem (fst item) (RiskManager.positions st) = true) ->
    Exists (exits_fully cfg api) items ->
    exists e, fst (RiskManager.risk_loop cfg api n items actions st) = Py.Raised e.
Proof.
  induction items as [|[tk p] rest IH]; intros actions st Hlen Hmem Hex.
  - inversion Hex.
  - simpl. rewrite Hlen, Nat.eqb_refl. simpl.
    destruct (RiskManager._check_position_risk cfg tk p) as [ra|e] eqn:Ec;
      [|simpl; eauto].
    assert (Hmem_tk : PyDict.mem tk (RiskManager.positions st) = true)
      by (apply (Hmem (tk, p)); now left).
    assert (Hrest : forall st',
               PyDict.len (RiskManager.positions st') = n ->
               (forall k, PyDict.mem k (RiskManager.positions st') =
                          PyDict.mem k (RiskManager.positions st)) ->
               ~ exits_fully cfg api (tk, p) ->
               forall acts,
               exists e, fst (RiskManager.risk_loop cfg api n rest acts st')
                         = Py.Raised e).
    { intros st' Hlen' Hsame Hnot acts. apply IH; auto.
      - intros item Hin. rewrite Hsame. apply Hmem. now right.
      - inversion Hex; subst; [contradiction|assumption]. }
    unfold RiskManager._execute_risk_action.
    destruct (RiskManager.action ra) eqn:Ea; simpl.
    + destruct (Api.sell_market_order api tk (RiskManager.quantity p)) eqn:Eo.
      * rewrite Hmem_tk. rewrite risk_loop_size_changed; [simpl; eauto|].
        simpl. pose proof (len_del_mem tk _ Hmem_tk). lia.
      * apply Hrest; auto.
        intros [ra' [o [Hc [_ Ho]]]]. simpl in *. congruence.
    + assert (Hnot : ~ exits_fully cfg api (tk, p)).
      { intros [ra' [o [Hc [Hs _]]]]. simpl in *. congruence. }
      destruct (Api.sell_market_order api tk _) eqn:Eo.
      * apply Hrest; auto; simpl.
        -- now rewrite len_alter.
        -- intros k. apply mem_alter.
      * apply Hrest; auto.
    + apply Hrest; auto.
      intros [ra' [o [Hc [Hs _]]]]. simpl in *. congruence.
Qed.

(** Whenever some position of the refreshed ledger is exited in full, the
    cycle reports no action at all. *)
Lemma successful_full_exit_empties_actions cfg api st :
  Exists (exits_fully cfg api)
    (RiskManager.update_positions cfg api (RiskManager.positions st)) ->
  fst (RiskManager.check_risk_limits cfg api st) = [].
Proof.
  intros Hex. unfold RiskManager.check_risk_limits.
  match goal with
  | |- context [RiskManager.risk_loop ?c ?a ?n ?i ?ac ?s] =>
      destruct (risk_loop_raises c a n i ac s) as [e He]; auto;
      [|destruct (RiskManager.risk_loop c a n i ac s) as [[acts|e'] st'];
        simpl in *; [discriminate|reflexivity]]
  end.
  simpl. intros [k v] Hin. simpl. unfold PyDict.mem.
  assert (Hget : forall (d : PyDict.t RiskManager.position),
             In (k, v) d -> exists v', PyDict.get k d = Some v').
  { induction d as [|[k2 v2] r IHd]; simpl; [contradiction|].
    intros [Heq|Hin']; destruct (String.eqb k k2) eqn:E; eauto.
    inversion Heq; subst. rewrite String.eqb_refl in E. discriminate. }
  destruct (Hget _ Hin) as [v' Hv']. now rewrite Hv'.
Qed.

(** ** Signal fusion *)

(** The weighted sum of one bar: over the signal columns that are present,
    weight times the signal of the bar. *)
Definition weighted_sum_at (df : Pd.frame) (i : nat) : Np.float :=
  fold_left
    (fun acc (nw : string * Q) =>
       match PyDict.get (fst nw) (Pd.added df) with
       | Some c => Np.add acc (Np.mul (nth i (Pd.floats c) Np.NaN) (Np.Fin (snd nw)))
       | None => acc
       end)
    TechnicalIndicators.signal_weights (Np.Fin 0).

(** Every added column has one cell per row. *)
Definition well_formed (df : Pd.frame) : Prop :=
  List.length (Pd.close df) = Pd.len df /\
  List.length (Pd.volume df) = Pd.len df /\
  forall name c, In (name, c) (Pd.added df) ->
                 List.length (Pd.floats c) = Pd.len df.

Lemma dict_get_in {V} k (v : V) d : PyDict.get k d = Some v -> In (k, v) d.
Proof.
  induction d as [|[k' v'] r IH]; simpl; [discriminate|].
  destruct (String.eqb k k') eqn:E.
  - apply String.eqb_eq in E. subst. intros H. inversion H. now left.
  - intros H. right. auto.
Qed.

Lemma map2_length {A B C} (f : A -> B -> C) xs ys :
  List.length (Pd.map2 f xs ys) = Nat.min (List.length xs) (List.length ys).
Proof.
  revert ys. induction xs as [|x xs IH]; intros [|y ys]; simpl; auto.
Qed.

Lemma map2_nth_error {A B C} (f : A -> B -> C) xs ys i x y :
  nth_error xs i = Some x -> nth_error ys i = Some y ->
  nth_error (Pd.map2 f xs ys) i = Some (f x y).
Proof.
  revert ys i. induction xs as [|x0 xs IH]; intros [|y0 ys] [|i]; simpl;
    try discriminate.
  - intros H1 H2. inversion H1; inversion H2; subst. reflexivity.
  - apply IH.
Qed.

Lemma nth_error_nth_default {A} (xs : list A) i d :
  (i < List.length xs)%nat -> nth_error xs i = Some (nth i xs d).
Proof.
  revert i. induction xs as [|x xs IH]; intros [|i]; simpl; intros H;
    try lia; auto.
  apply IH. lia.
Qed.

Lemma weighted_fold_rowwise df i ws :
  (forall name c, In (name, c) (Pd.added df) ->
                  List.length (Pd.floats c) = Pd.len df) ->
  (i < Pd.len df)%nat ->
  forall acc a,
    nth_error acc i = Some a ->
    nth_error
      (fold_left (fun acc sw =>
                    Pd.map2 Np.add acc
                      (map (fun s => Np.mul s (Np.Fin (snd sw))) (fst sw)))
         (flat_map (fun nw : string * Q =>
                      match PyDict.get (fst nw) (Pd.added df) with
                      | Some c => [(Pd.floats c, snd nw)]
                      | None => []
                      end) ws)
         acc) i =
    Some (fold_left
            (fun acc (nw : string * Q) =>
               match PyDict.get (fst nw) (Pd.added df) with
               | Some c =>
                   Np.add acc
                     (Np.mul (nth i (Pd.floats c) Np.NaN) (Np.Fin (snd nw)))
               | None => acc
               end) ws a).
Proof.
  intros Hwf Hi. induction ws as [|[name w] ws IH]; intros acc a Hacc;
    simpl; auto.
  destruct (PyDict.get name (Pd.added df)) as [c|] eqn:Ec; simpl.
  - apply IH. apply map2_nth_error; auto.
    apply dict_get_in in Ec. apply Hwf in Ec.
    rewrite nth_error_map.
    rewrite (nth_error_nth_default _ _ Np.NaN) by lia. reflexivity.
  - now apply IH.
Qed.

(** The column-wise sum of the source is, row by row, the weighted sum of
    the bar. *)
Lemma weighted_signal_rowwise df i :
  well_formed df -> (i < Pd.len df)%nat ->
  nth_error (TechnicalIndicators.weighted_signal df) i =
    Some (weighted_sum_at df i).
Proof.
  intros [_ [_ Hwf]] Hi.
  unfold TechnicalIndicators.weighted_signal, weighted_sum_at,
    TechnicalIndicators.available_signals.
  apply weighted_fold_rowwise; auto.
  rewrite (nth_error_nth_default _ _ (Np.Fin 0)) by now rewrite repeat_length.
  now rewrite nth_repeat.
Qed.

Lemma discretize_range w :
  In (TechnicalIndicators.discretize w) [(-1)%Z; 0%Z; 1%Z].
Proof.
  unfold TechnicalIndicators.discretize.
  destruct (Np.ltb _ _); [simpl; auto|].
  destruct (Np.gtb _ _); simpl; auto.
Qed.

Lemma np_lt_gt_exclusive w (a b : Q) :
  a <= b -> Np.ltb w (Np.Fin a) = true -> Np.gtb w (Np.Fin b) = true -> False.
Proof.
  unfold Np.gtb. destruct w as [q| | |]; simpl; try discriminate.
  intros Hab H1 H2. apply Qltb_lt in H1, H2. lra.
Qed.

Lemma discretize_cases w :
  (TechnicalIndicators.discretize w = 1%Z <->
     Np.gtb w (Np.Fin (3 # 10)) = true) /\
  (TechnicalIndicators.discretize w = (-1)%Z <->
     Np.ltb w (Np.Fin (- (3 # 10))) = true) /\
  (TechnicalIndicators.discretize w = 0%Z <->
     Np.gtb w (Np.Fin (3 # 10)) = false /\
     Np.ltb w (Np.Fin (- (3 # 10))) = false).
Proof.
  unfold TechnicalIndicators.discretize.
  destruct (Np.ltb w (Np.Fin (- (3 # 10)))) eqn:El;
    destruct (Np.gtb w (Np.Fin (3 # 10))) eqn:Eg;
    repeat split; intros; try discriminate; try tauto; auto.
  all: try (exfalso; eapply (np_lt_gt_exclusive w (- (3 # 10)) (3 # 10));
            eauto; lra).
  all: destruct H; discriminate.
Qed.

Lemma get_combined_signal_range df :
  Forall (fun s => In s [(-1)%Z; 0%Z; 1%Z])
    (TechnicalIndicators.get_combined_signal df).
Proof.
  unfold TechnicalIndicators.get_combined_signal.
  destruct (TechnicalIndicators.available_signals df).
  - apply Forall_forall. intros s Hs. apply repeat_spec in Hs. subst.
    simpl; auto.
  - apply Forall_forall. intros s Hs. apply in_map_iff in Hs.
    destruct Hs as [w [<- _]]. apply discretize_range.
Qed.

(** With no signal column the weighted sum is zero. *)
Lemma weighted_sum_at_none df i :
  TechnicalIndicators.available_signals df = [] ->
  weighted_sum_at df i = Np.Fin 0.
Proof.
  unfold TechnicalIndicators.available_signals, weighted_sum_at.
  generalize (Np.Fin 0) as a.
  induction TechnicalIndicators.signal_weights as [|[name w] ws IH];
    intros a; simpl; auto.
  destruct (PyDict.get name (Pd.added df)); simpl; [discriminate|].
  apply IH.
Qed.

Lemma get_combined_signal_rowwise df i :
  well_formed df -> (i < Pd.len df)%nat ->
  nth_error (TechnicalIndicators.get_combined_signal df) i =
    Some (TechnicalIndicators.discretize (weighted_sum_at df i)).
Proof.
  intros Hwf Hi. unfold TechnicalIndicators.get_combined_signal.
  destruct (TechnicalIndicators.available_signals df) eqn:Ea.
  - rewrite (weighted_sum_at_none df i Ea).
    rewrite (nth_error_nth_default _ _ 0%Z) by now rewrite repeat_length.
    now rewrite nth_repeat.
  - rewrite nth_error_map, weighted_signal_rowwise by auto. reflexivity.
Qed.

(** ** Confidence *)

Lemma clamp01_bounds x : 0 <= CombinedStrategy.clamp01 x <= 1.
Proof.
  destruct x as [q| | |]; simpl; try lra.
  unfold Py.min2, Py.max2.
  destruct (Py.Qltb 0 q) eqn:E0.
  - apply Qltb_lt in E0. destruct (Py.Qltb q 1) eqn:E1.
    + apply Qltb_lt in E1. lra.
    + lra.
  - destruct (Py.Qltb 0 1) eqn:E1; lra.
Qed.

Definition unit_interval (q : Q) : Prop := 0 <= q <= 1.

Lemma sum_unit_interval (l : list Q) :
  Forall unit_interval l ->
  0 <= Pd.sum l <= inject_Z (Z.of_nat (List.length l)).
Proof.
  induction 1 as [|x l [Hx0 Hx1] Hl IH].
  - simpl. unfold inject_Z. lra.
  - cbn [Pd.sum fold_right List.length]. fold (Pd.sum l).
    rewrite Nat2Z.inj_succ. unfold Z.succ. rewrite inject_Z_plus.
    change (inject_Z 1) with 1. lra.
Qed.

Lemma mean_unit_interval (l : list Q) :
  l <> [] -> Forall unit_interval l ->
  unit_interval (Pd.sum l / inject_Z (Z.of_nat (List.length l))).
Proof.
  intros Hne Hl. pose proof (sum_unit_interval l Hl) as [H0 H1].
  assert (Hpos : 0 < inject_Z (Z.of_nat (List.length l))).
  { destruct l; [contradiction|]. simpl List.length.
    change 0 with (inject_Z 0). rewrite <- Zlt_Qlt. lia. }
  unfold unit_interval. split.
  - apply Qle_shift_div_l; auto; lra.
  - apply Qle_shift_div_r; auto; lra.
Qed.

Lemma signal_consistency_unit df s :
  unit_interval (CombinedStrategy.signal_consistency df s).
Proof.
  unfold CombinedStrategy.signal_consistency.
  match goal with
  | |- context [List.length (filter ?f ?l)] =>
      assert (Hn : (List.length (filter f l) <= 4)%nat)
        by apply (filter_length_le f l);
      set (n := List.length (filter f l)) in *; clearbody n
  end.
  unfold unit_interval.
  assert (H0 : 0 <= inject_Z (Z.of_nat n)).
  { change 0 with (inject_Z 0). rewrite <- Zle_Qle. lia. }
  assert (H4 : inject_Z (Z.of_nat n) <= 4).
  { change 4 with (inject_Z 4). rewrite <- Zle_Qle. lia. }
  split.
  - apply Qle_shift_div_l; lra.
  - apply Qle_shift_div_r; lra.
Qed.

Lemma factor_list_unit f :
  (forall q, f = Some q -> unit_interval q) ->
  Forall unit_interval (CombinedStrategy.factor_list f).
Proof.
  destruct f as [q|]; simpl; intros H; constructor; auto.
Qed.

Lemma one_minus_clamp_unit x : unit_interval (1 - CombinedStrategy.clamp01 x).
Proof.
  pose proof (clamp01_bounds x). unfold unit_interval. lra.
Qed.

Lemma clamp_unit x : unit_interval (CombinedStrategy.clamp01 x).
Proof. apply clamp01_bounds. Qed.

(** Whatever the frame, a confidence that is returned lies in [0, 1]. *)
Lemma calculate_confidence_bounds df c :
  CombinedStrategy._calculate_confidence df = Py.Returned c ->
  0 <= c <= 1.
Proof.
  unfold CombinedStrategy._calculate_confidence, CombinedStrategy.bind.
  destruct (CombinedStrategy.cell_back 1 "signal" df) as [signal|]; [|discriminate].
  destruct (CombinedStrategy.ma_cross_strength df) as [ma|] eqn:Ema; [|discriminate].
  destruct (CombinedStrategy.bb_confidence df) as [bb|] eqn:Ebb; [|discriminate].
  destruct (CombinedStrategy.rsi_confidence df signal) as [rsi|] eqn:Ersi;
    [|discriminate].
  destruct (CombinedStrategy.volume_confidence df) as [vol|] eqn:Evol;
    [|discriminate].
  intros H.
  match type of H with
  | Py.Returned (Pd.sum ?l / _) = _ => set (factors := l) in *
  end.
  assert (Hc : c = Pd.sum factors / inject_Z (Z.of_nat (List.length factors)))
    by congruence.
  rewrite Hc. apply mean_unit_interval; [discriminate|]. subst factors.
  apply Forall_app; split;
    [|apply Forall_app; split;
      [|apply Forall_app; split; [|apply Forall_app; split]]].
  - constructor; [apply signal_consistency_unit|constructor].
  - apply factor_list_unit. intros q ->.
    unfold CombinedStrategy.ma_cross_strength, CombinedStrategy.bind in Ema.
    destruct (Pd.has_column _ df); [|discriminate].
    destruct (CombinedStrategy.cell_back 1 "ma_cross_signal" df); [|discriminate].
    destruct (Np.neb _ _); [|discriminate].
    destruct (CombinedStrategy.least _); [|discriminate].
    destruct (CombinedStrategy.greatest _); [|discriminate].
    destruct (CombinedStrategy.cell_back 1 _ df); [|discriminate].
    destruct (CombinedStrategy.cell_back 1 _ df); [|discriminate].
    destruct (Pd.iloc_back _ _); [|discriminate].
    inversion Ema. apply clamp_unit.
  - apply factor_list_unit. intros q ->.
    unfold CombinedStrategy.bb_confidence, CombinedStrategy.bind in Ebb.
    destruct (Pd.has_column _ df); [|discriminate].
    destruct (CombinedStrategy.cell_back 1 _ df); [|discriminate].
    inversion Ebb. apply one_minus_clamp_unit.
  - apply factor_list_unit. intros q ->.
    unfold CombinedStrategy.rsi_confidence, CombinedStrategy.bind in Ersi.
    destruct (Pd.has_column _ df); [|discriminate].
    destruct (CombinedStrategy.cell_back 1 _ df); [|discriminate].
    destruct (Np.gtb signal (Np.Fin 0));
      [|destruct (Np.ltb signal (Np.Fin 0))]; inversion Ersi.
    + apply one_minus_clamp_unit.
    + apply clamp_unit.
    + unfold unit_interval; lra.
  - apply factor_list_unit. intros q ->.
    unfold CombinedStrategy.volume_confidence, CombinedStrategy.bind in Evol.
    destruct (Pd.has_column _ df); [|discriminate].
    destruct (CombinedStrategy.cell_back 1 _ df); [|discriminate].
    inversion Evol. apply clamp_unit.
Qed.

Lemma iloc_back_in {A} i (xs : list A) x :
  Pd.iloc_back i xs = Py.Returned x -> In x xs.
Proof.
  unfold Pd.iloc_back. destruct (Nat.ltb _ _); [discriminate|].
  destruct (nth_error xs _) eqn:E; [|discriminate].
  intros H. inversion H; subst. eapply nth_error_In; eauto.
Qed.

Lemma get_signal_range lib cfg ohlcv :
  In (CombinedStrategy.signal (CombinedStrategy.get_signal lib cfg ohlcv))
     [(-1)%Z; 0%Z; 1%Z] /\
  0 <= CombinedStrategy.confidence (CombinedStrategy.get_signal lib cfg ohlcv)
    <= 1.
Proof.
  assert (Hnone : In (CombinedStrategy.signal CombinedStrategy.no_signal)
                     [(-1)%Z; 0%Z; 1%Z] /\
                  0 <= CombinedStrategy.confidence CombinedStrategy.no_signal <= 1).
  { simpl. split; [auto|lra]. }
  unfold CombinedStrategy.get_signal, CombinedStrategy.update_market_data.
  destruct ohlcv as [raw|]; auto.
  destruct (Pd.empty raw); auto.
  destruct (Pd.empty _); auto.
  destruct (Pd.iloc_back 1 _) as [s|] eqn:Es; auto.
  destruct (CombinedStrategy._calculate_confidence _) as [c|] eqn:Ec; auto.
  simpl. split.
  - apply iloc_back_in in Es.
    unfold CombinedStrategy.signal_column, Pd.with_column in Es. simpl in Es.
    rewrite get_set_same in Es.
    pose proof (get_combined_signal_range
                  (TechnicalIndicators.add_indicators lib cfg raw)) as Hr.
    rewrite Forall_forall in Hr. now apply Hr.
  - now apply calculate_confidence_bounds in Ec.
Qed.


(** ** Crossover strength *)

(** The crossover strength as the specification words it:
    [|shortMA - longMA| / close], mapped linearly from [[0.001, 0.05]] to
    [[0, 1]] and clamped. *)
Definition spec_cross_strength (short_ma long_ma close : Np.float) : Q :=
  CombinedStrategy.clamp01
    (Np.div (Np.sub (Np.div (Np.abs (Np.sub short_ma long_ma)) close)
                    (Np.Fin (1 # 1000)))
            (Np.Fin (49 # 1000))).

(** A numerical library for the examples.  The series they use have no
    loss in their first fifteen bars, so that the RSI of length 14, undefined
    for the fourteen first bars, is 100 after them. *)
Definition sample_library : TechnicalIndicators.library :=
  {| TechnicalIndicators.ta_rsi :=
       fun close _ =>
         repeat Np.NaN 14 ++ repeat (Np.Fin 100) (List.length close - 14);
     TechnicalIndicators.sqrt := fun q => q |}.

(** The periods that [add_moving_average] has as defaults; only the
    moving averages are enabled. *)
Definition ma_only : TechnicalIndicators.config :=
  {| TechnicalIndicators.ma_enabled := true;
     TechnicalIndicators.short_period := 9;
     TechnicalIndicators.long_period := 21;
     TechnicalIndicators.trend_period := 50;
     TechnicalIndicators.rsi_enabled := false;
     TechnicalIndicators.rsi_period := 14;
     TechnicalIndicators.use_divergence := false;
     TechnicalIndicators.bollinger_enabled := false;
     TechnicalIndicators.bollinger_period := 20;
     TechnicalIndicators.std_dev := 2;
     TechnicalIndicators.volume_enabled := false;
     TechnicalIndicators.volume_period := 20;
     TechnicalIndicators.surge_threshold := 2 |}.

(** Only the RSI and its divergence are enabled. *)
Definition rsi_only : TechnicalIndicators.config :=
  {| TechnicalIndicators.ma_enabled := false;
     TechnicalIndicators.short_period := 9;
     TechnicalIndicators.long_period := 21;
     TechnicalIndicators.trend_period := 50;
     TechnicalIndicators.rsi_enabled := true;
     TechnicalIndicators.rsi_period := 14;
     TechnicalIndicators.use_divergence := true;
     TechnicalIndicators.bollinger_enabled := false;
     TechnicalIndicators.bollinger_period := 20;
     TechnicalIndicators.std_dev := 2;
     TechnicalIndicators.volume_enabled := false;
     TechnicalIndicators.volume_period := 20;
     TechnicalIndicators.surge_threshold := 2 |}.

(** Candles with the given closes, a volume of one each, numbered from 0. *)
Definition candles (closes : list Q) : Pd.frame :=
  {| Pd.index := map Z.of_nat (seq 0 (List.length closes));
     Pd.close := closes;
     Pd.volume := map (fun _ => 1) closes;
     Pd.added := [] |}.

(** Forty-nine closes at 100, then one at 110: the 9-bar average crosses
    above the 21-bar average at the last bar. *)
Definition golden_cross_candles : Pd.frame := candles (repeat 100 49 ++ [110]).

(** Fifteen rising closes, 1 to 15. *)
Definition rising_candles : Pd.frame :=
  candles (map (fun n => inject_Z (Z.of_nat n)) (seq 1 15)).

(** C9 does not hold of the code.  With the periods 9, 21 and 50 the
    columns whose name starts with [ma] are [ma9], [ma21], [ma50] and
    [ma_cross_signal]; their least name is [ma21] and their greatest is
    [ma_cross_signal], so the factor is computed from the 21-bar average and
    the crossing signal.  On the sample candles it is 1, whereas the short
    and long averages (910/9 and 2110/21, close 110) give less than 0.1. *)
Theorem cross_strength_reads_wrong_columns :
  exists df,
    CombinedStrategy.update_market_data sample_library ma_only
      (Some golden_cross_candles) = Some df /\
    PyDict.get "ma_cross_signal" (Pd.added df) = Some (Pd.IntCol [1%Z]) /\
    PyDict.get "ma9" (Pd.added df) = Some (Pd.FloatCol [Np.Fin (910 # 9)]) /\
    PyDict.get "ma21" (Pd.added df) = Some (Pd.FloatCol [Np.Fin (2110 # 21)]) /\
    Pd.close df = [110] /\
    CombinedStrategy.least (CombinedStrategy.ma_columns df) = Some "ma21"%string /\
    CombinedStrategy.greatest (CombinedStrategy.ma_columns df)
      = Some "ma_cross_signal"%string /\
    CombinedStrategy.ma_cross_strength df = Py.Returned (Some 1) /\
    spec_cross_strength (Np.Fin (910 # 9)) (Np.Fin (2110 # 21)) (Np.Fin 110)
      < 1 # 10.
Proof.
  eexists. split; [vm_compute; reflexivity|].
  vm_compute. repeat split; reflexivity.
Qed.

(** ** Warm-up rows *)

(** The RSI of the bar that the divergence of bar [i] is compared with,
    ten bars back, is undefined: bar [i] is inside the trailing window of the
    divergence signal. *)
Definition divergence_lookback_undefined (lib : TechnicalIndicators.library)
  (raw : Pd.frame) (i : nat) : Prop :=
  Np.isnan (nth (i - 10) (TechnicalIndicators.rsi_column lib raw 14) Np.NaN)
    = true.

(** C8 as stated, for the divergence signal: the bars inside its trailing
    window are not handed to fusion. *)
Definition divergence_warmup_excluded (lib : TechnicalIndicators.library)
  (cfg : TechnicalIndicators.config) (raw : Pd.frame) : Prop :=
  forall i t,
    nth_error (Pd.index raw) i = Some t ->
    divergence_lookback_undefined lib raw i ->
    ~ In t (Pd.index (TechnicalIndicators.add_indicators lib cfg raw)).


(** ** Rows dropped by [dropna] *)

(** The column has a cell at row [i] and it is not missing. *)
Definition defined_at (c : Pd.column) (i : nat) : Prop :=
  nth_error (Pd.notna c) i = Some true.

(** Row [i] of the frame survives [dropna]. *)
Definition kept (df : Pd.frame) (i : nat) : Prop :=
  nth_error (Pd.complete_rows df) i = Some true.

Lemma map2_nth_error_inv {A B C} (f : A -> B -> C) xs ys i z :
  nth_error (Pd.map2 f xs ys) i = Some z ->
  exists x y, nth_error xs i = Some x /\ nth_error ys i = Some y /\ z = f x y.
Proof.
  revert ys i. induction xs as [|x0 xs IH]; intros [|y0 ys] [|i]; simpl;
    try discriminate.
  - intros [= <-]. eauto.
  - apply IH.
Qed.

Lemma fold_masks_spec (cols : list (string * Pd.column)) :
  forall mask i,
    nth_error
      (fold_left (fun m kc => Pd.map2 andb m (Pd.notna (snd kc))) cols mask) i
      = Some true <->
    nth_error mask i = Some true /\
    forall kc, In kc cols -> defined_at (snd kc) i.
Proof.
  induction cols as [|kc0 cols IH]; intros mask i; simpl.
  - intuition.
  - rewrite IH. split.
    + intros [H1 H2]. apply map2_nth_error_inv in H1.
      destruct H1 as [a [b [Ha [Hb Hab]]]].
      symmetry in Hab. apply andb_true_iff in Hab. destruct Hab; subst.
      split; auto. intros kc [<-|Hin]; auto.
    + intros [H1 H2]. split.
      * rewrite (map2_nth_error andb mask (Pd.notna (snd kc0)) i true true);
          auto.
        apply H2. now left.
      * intros kc Hin. apply H2. now right.
Qed.

(** A row survives exactly when it exists and no added column has a missing
    cell in it. *)
Lemma kept_iff df i :
  kept df i <->
  (i < Pd.len df)%nat /\
  forall name c, In (name, c) (Pd.added df) -> defined_at c i.
Proof.
  unfold kept, Pd.complete_rows. rewrite fold_masks_spec. split.
  - intros [H1 H2]. split.
    + assert (Hlt : (i < List.length (repeat true (Pd.len df)))%nat).
      { apply nth_error_Some. congruence. }
      now rewrite repeat_length in Hlt.
    + intros name c Hin. apply (H2 (name, c) Hin).
  - intros [H1 H2]. split.
    + rewrite (nth_error_nth_default _ _ true) by now rewrite repeat_length.
      now rewrite nth_repeat.
    + intros [name c] Hin. apply (H2 name c Hin).
Qed.

Lemma select_spec {A} (mask : list bool) (xs : list A) x :
  In x (Pd.select mask xs) <->
  exists i, nth_error mask i = Some true /\ nth_error xs i = Some x.
Proof.
  revert xs. induction mask as [|b mask IH]; intros [|x0 xs]; simpl.
  - split; [intros []|intros [[|i] [H _]]; discriminate].
  - split; [intros []|intros [[|i] [H _]]; discriminate].
  - split; [intros []|intros [[|i] [_ H]]; discriminate].
  - destruct b; simpl.
    + rewrite IH. split.
      * intros [->|[i [H1 H2]]]; [exists 0%nat; auto|exists (S i); auto].
      * intros [[|i] [H1 H2]]; simpl in *.
        -- left. congruence.
        -- right. eauto.
    + rewrite IH. split.
      * intros [i [H1 H2]]. exists (S i); auto.
      * intros [[|i] [H1 H2]]; simpl in *; [discriminate|eauto].
Qed.

(** With distinct timestamps, a bar is handed on by [dropna] exactly when
    its row survives. *)
Lemma dropna_index df i t :
  NoDup (Pd.index df) ->
  nth_error (Pd.index df) i = Some t ->
  (In t (Pd.index (Pd.dropna df)) <-> kept df i).
Proof.
  intros Hnd Hi. unfold Pd.dropna, kept. simpl. rewrite select_spec. split.
  - intros [j [Hj1 Hj2]].
    assert (j = i).
    { pose proof (proj1 (NoDup_nth_error (Pd.index df)) Hnd) as Hinj.
      apply Hinj; [apply nth_error_Some; congruence | congruence]. }
    now subst.
  - intros H. exists i. auto.
Qed.

(** No missing value is left in a frame after [dropna]. *)
Lemma dropna_complete df name xs :
  In (name, Pd.FloatCol xs) (Pd.added (Pd.dropna df)) ->
  Forall (fun x => Np.isnan x = false) xs.
Proof.
  unfold Pd.dropna. simpl. intros Hin. apply in_map_iff in Hin.
  destruct Hin as [[k c] [Heq Hin]]. simpl in Heq.
  destruct c as [ys|ys|ys]; simpl in Heq; try discriminate.
  inversion Heq; subst. apply Forall_forall. intros x Hx.
  apply select_spec in Hx. destruct Hx as [i [Hm Hy]].
  change (kept df i) in Hm. apply kept_iff in Hm. destruct Hm as [_ Hm].
  specialize (Hm _ _ Hin). unfold defined_at in Hm. simpl in Hm.
  rewrite nth_error_map, Hy in Hm. simpl in Hm.
  destruct (Np.isnan x); [discriminate|reflexivity].
Qed.

(** ** Warm-up of the rolling windows *)

Lemma rolling_length w f xs :
  List.length (Pd.rolling w f xs) = List.length xs.
Proof. unfold Pd.rolling. now rewrite length_map, length_seq. Qed.

Lemma rolling_nth_error w f xs i :
  (i < List.length xs)%nat ->
  nth_error (Pd.rolling w f xs) i =
    Some (match Pd.window_at w i xs with
          | Some ws => f ws
          | None => Np.NaN
          end).
Proof.
  intros Hi. unfold Pd.rolling. rewrite nth_error_map.
  rewrite (nth_error_nth_default _ _ 0%nat) by now rewrite length_seq.
  now rewrite seq_nth.
Qed.

(** A rolling aggregate is undefined until its window is full. *)
Lemma rolling_warmup w f xs i :
  (i < List.length xs)%nat -> (i + 1 < w)%nat ->
  nth_error (Pd.rolling w f xs) i = Some Np.NaN.
Proof.
  intros Hi Hw. rewrite rolling_nth_error by auto.
  unfold Pd.window_at.
  assert (E : Nat.ltb (i + 1) w = true) by now apply Nat.ltb_lt.
  rewrite E, orb_true_r. reflexivity.
Qed.

(** From the bar on that fills the window, a rolling mean is defined. *)
Lemma rolling_mean_defined w xs i :
  (i < List.length xs)%nat -> (0 < w)%nat -> (w <= i + 1)%nat ->
  exists q, nth_error (Pd.rolling_mean w xs) i = Some (Np.Fin q).
Proof.
  intros Hi H0 Hw. unfold Pd.rolling_mean. rewrite rolling_nth_error by auto.
  unfold Pd.window_at.
  assert (E0 : Nat.eqb w 0 = false) by (apply Nat.eqb_neq; lia).
  assert (E1 : Nat.ltb (i + 1) w = false) by (apply Nat.ltb_ge; lia).
  rewrite E0, E1. simpl. eauto.
Qed.

Lemma nan_not_defined xs i name df :
  In (name, Pd.FloatCol xs) (Pd.added df) ->
  nth_error xs i = Some Np.NaN ->
  ~ kept df i.
Proof.
  intros Hin Hnan Hk. apply kept_iff in Hk. destruct Hk as [_ Hk].
  specialize (Hk _ _ Hin). unfold defined_at in Hk. simpl in Hk.
  rewrite nth_error_map, Hnan in Hk. discriminate.
Qed.

(** ** Column names *)

Lemma str_digits n s :
  TechnicalIndicators.str n = s -> NilEmpty.uint_of_string s <> None.
Proof.
  intros <-. unfold TechnicalIndicators.str. rewrite NilEmpty.usu. discriminate.
Qed.

Lemma str_inj n m :
  TechnicalIndicators.str n = TechnicalIndicators.str m -> n = m.
Proof.
  unfold TechnicalIndicators.str. intros H.
  apply Unsigned.to_uint_inj.
  apply (f_equal NilEmpty.uint_of_string) in H.
  rewrite !NilEmpty.usu in H. congruence.
Qed.

Lemma ma_name_inj n m :
  TechnicalIndicators.ma_name n = TechnicalIndicators.ma_name m -> n = m.
Proof.
  unfold TechnicalIndicators.ma_name. simpl. intros [= H]. now apply str_inj.
Qed.

(** A name made of a prefix and a number differs from a name whose rest is
    not a number. *)
Ltac name_neq :=
  let H := fresh in
  intros H;
  unfold TechnicalIndicators.ma_name, TechnicalIndicators.rsi_name in H;
  simpl in H;
  first
    [ discriminate H
    | injection H as H; first [apply str_digits in H | symmetry in H; apply str_digits in H];
      apply H; reflexivity ].

Lemma ma_name_not_cross n : TechnicalIndicators.ma_name n <> "ma_cross_signal"%string.
Proof. name_neq. Qed.

Lemma rsi_name_not_signal n : TechnicalIndicators.rsi_name n <> "rsi_signal"%string.
Proof. name_neq. Qed.

Lemma rsi_name_not_divergence n :
  TechnicalIndicators.rsi_name n <> "rsi_divergence"%string.
Proof. name_neq. Qed.

Lemma get_with_column_same k c df :
  PyDict.get k (Pd.added (Pd.with_column k c df)) = Some c.
Proof. unfold Pd.with_column. simpl. apply get_set_same. Qed.

Lemma get_with_column_other k k' c df :
  k <> k' ->
  PyDict.get k (Pd.added (Pd.with_column k' c df)) = PyDict.get k (Pd.added df).
Proof. intros H. unfold Pd.with_column. simpl. now apply get_set_other. Qed.

Ltac get_other := rewrite get_with_column_other by name_neq.

(** ** The columns of [with_indicators] *)

(** The indicators only add columns: the candles stay as they are. *)
Lemma with_indicators_candles lib cfg raw :
  Pd.index (TechnicalIndicators.with_indicators lib cfg raw) = Pd.index raw /\
  Pd.close (TechnicalIndicators.with_indicators lib cfg raw) = Pd.close raw /\
  Pd.volume (TechnicalIndicators.with_indicators lib cfg raw) = Pd.volume raw.
Proof.
  unfold TechnicalIndicators.with_indicators,
    TechnicalIndicators.add_rsi_divergence.
  destruct (TechnicalIndicators.ma_enabled cfg),
    (TechnicalIndicators.rsi_enabled cfg),
    (TechnicalIndicators.use_divergence cfg),
    (TechnicalIndicators.bollinger_enabled cfg),
    (TechnicalIndicators.volume_enabled cfg); simpl;
    try destruct (PyDict.get _ _); simpl; auto.
Qed.

Lemma add_moving_average_get df s l t p :
  p = s \/ p = l \/ p = t ->
  PyDict.get (TechnicalIndicators.ma_name p)
    (Pd.added (TechnicalIndicators.add_moving_average df s l t)) =
  Some (Pd.FloatCol (Pd.rolling_mean p (Pd.close df))).
Proof.
  intros Hp. unfold TechnicalIndicators.add_moving_average.
  do 2 get_other.
  destruct (Nat.eq_dec p t) as [->|Hpt].
  { apply get_with_column_same. }
  rewrite get_with_column_other
    by (intros H; apply ma_name_inj in H; contradiction).
  destruct (Nat.eq_dec p l) as [->|Hpl].
  { apply get_with_column_same. }
  rewrite get_with_column_other
    by (intros H; apply ma_name_inj in H; contradiction).
  destruct Hp as [ Hp | [ Hp | Hp ] ]; subst p; try contradiction.
  apply get_with_column_same.
Qed.

(** A column name that none of the later indicators writes. *)
Definition untouched_by_rsi (k : string) (p : nat) : Prop :=
  k <> TechnicalIndicators.rsi_name p /\ k <> "rsi_signal"%string /\
  k <> "rsi_divergence"%string.

Definition untouched_by_bollinger (k : string) : Prop :=
  ~ In k ["bb_middle"; "bb_std"; "bb_upper"; "bb_lower"; "bb_bandwidth";
          "bb_signal"]%string.

Definition untouched_by_volume (k : string) : Prop :=
  ~ In k ["volume_ma"; "volume_ratio"; "volume_surge"; "volume_signal"]%string.

Lemma add_rsi_get_other lib df p k :
  untouched_by_rsi k p ->
  PyDict.get k (Pd.added (TechnicalIndicators.add_rsi lib df p)) =
  PyDict.get k (Pd.added df).
Proof.
  intros [H1 [H2 _]]. unfold TechnicalIndicators.add_rsi.
  now rewrite !get_with_column_other.
Qed.

Lemma add_rsi_divergence_get_other df p w k :
  k <> "rsi_divergence"%string ->
  PyDict.get k (Pd.added (TechnicalIndicators.add_rsi_divergence df p w)) =
  PyDict.get k (Pd.added df).
Proof.
  intros H. unfold TechnicalIndicators.add_rsi_divergence.
  destruct (PyDict.get _ (Pd.added df)); auto.
  now rewrite get_with_column_other.
Qed.

Lemma add_bollinger_get_other lib df p sd k :
  untouched_by_bollinger k ->
  PyDict.get k (Pd.added (TechnicalIndicators.add_bollinger_bands lib df p sd)) =
  PyDict.get k (Pd.added df).
Proof.
  intros H. unfold TechnicalIndicators.add_bollinger_bands.
  rewrite !get_with_column_other; auto;
    intros ->; apply H; simpl; tauto.
Qed.

Lemma add_volume_get_other df p th k :
  untouched_by_volume k ->
  PyDict.get k (Pd.added (TechnicalIndicators.add_volume_indicators df p th)) =
  PyDict.get k (Pd.added df).
Proof.
  intros H. unfold TechnicalIndicators.add_volume_indicators.
  rewrite !get_with_column_other; auto;
    intros ->; apply H; simpl; tauto.
Qed.

Ltac names_differ :=
  unfold untouched_by_rsi, untouched_by_bollinger, untouched_by_volume;
  simpl;
  repeat match goal with
         | |- _ /\ _ => split
         | |- ~ (_ \/ _) => let H := fresh in intros [H|H]; revert H
         | |- ~ False => let H := fresh in intros H; exact H
         | |- (_ \/ _) -> False => let H := fresh in intros [H|H]; revert H
         | |- False -> False => let H := fresh in intros H; exact H
         | |- _ = _ -> False => name_neq
         | |- _ <> _ => name_neq
         end.

Ltac through_stages :=
  repeat first
    [ rewrite add_volume_get_other by names_differ
    | rewrite add_bollinger_get_other by names_differ
    | rewrite add_rsi_divergence_get_other by names_differ
    | rewrite add_rsi_get_other by names_differ ].

Lemma with_indicators_ma lib cfg raw p :
  TechnicalIndicators.ma_enabled cfg = true ->
  p = TechnicalIndicators.short_period cfg \/
  p = TechnicalIndicators.long_period cfg \/
  p = TechnicalIndicators.trend_period cfg ->
  PyDict.get (TechnicalIndicators.ma_name p)
    (Pd.added (TechnicalIndicators.with_indicators lib cfg raw)) =
  Some (Pd.FloatCol (Pd.rolling_mean p (Pd.close raw))).
Proof.
  intros Hen Hp. unfold TechnicalIndicators.with_indicators. rewrite Hen.
  destruct (TechnicalIndicators.rsi_enabled cfg),
    (TechnicalIndicators.use_divergence cfg),
    (TechnicalIndicators.bollinger_enabled cfg),
    (TechnicalIndicators.volume_enabled cfg);
    through_stages; now apply add_moving_average_get.
Qed.

Lemma with_indicators_bollinger lib cfg raw :
  TechnicalIndicators.bollinger_enabled cfg = true ->
  PyDict.get "bb_middle"
    (Pd.added (TechnicalIndicators.with_indicators lib cfg raw)) =
  Some (Pd.FloatCol
          (Pd.rolling_mean (TechnicalIndicators.bollinger_period cfg)
             (Pd.close raw))).
Proof.
  intros Hen.
  pose proof (with_indicators_candles lib
                {| TechnicalIndicators.ma_enabled := TechnicalIndicators.ma_enabled cfg;
                   TechnicalIndicators.short_period := TechnicalIndicators.short_period cfg;
                   TechnicalIndicators.long_period := TechnicalIndicators.long_period cfg;
                   TechnicalIndicators.trend_period := TechnicalIndicators.trend_period cfg;
                   TechnicalIndicators.rsi_enabled := TechnicalIndicators.rsi_enabled cfg;
                   TechnicalIndicators.rsi_period := TechnicalIndicators.rsi_period cfg;
                   TechnicalIndicators.use_divergence := TechnicalIndicators.use_divergence cfg;
                   TechnicalIndicators.bollinger_enabled := false;
                   TechnicalIndicators.bollinger_period := TechnicalIndicators.bollinger_period cfg;
                   TechnicalIndicators.std_dev := TechnicalIndicators.std_dev cfg;
                   TechnicalIndicators.volume_enabled := false;
                   TechnicalIndicators.volume_period := TechnicalIndicators.volume_period cfg;
                   TechnicalIndicators.surge_threshold := TechnicalIndicators.surge_threshold cfg |}
                raw) as [_ [Hc _]].
  unfold TechnicalIndicators.with_indicators in *. simpl in Hc. rewrite Hen.
  destruct (TechnicalIndicators.volume_enabled cfg); through_stages;
    unfold TechnicalIndicators.add_bollinger_bands at 1;
    do 5 get_other; rewrite get_with_column_same, Hc; reflexivity.
Qed.

Lemma with_indicators_volume lib cfg raw :
  TechnicalIndicators.volume_enabled cfg = true ->
  PyDict.get "volume_ma"
    (Pd.added (TechnicalIndicators.with_indicators lib cfg raw)) =
  Some (Pd.FloatCol
          (Pd.rolling_mean (TechnicalIndicators.volume_period cfg)
             (Pd.volume raw))).
Proof.
  intros Hen.
  pose proof (with_indicators_candles lib
                {| TechnicalIndicators.ma_enabled := TechnicalIndicators.ma_enabled cfg;
                   TechnicalIndicators.short_period := TechnicalIndicators.short_period cfg;
                   TechnicalIndicators.long_period := TechnicalIndicators.long_period cfg;
                   TechnicalIndicators.trend_period := TechnicalIndicators.trend_period cfg;
                   TechnicalIndicators.rsi_enabled := TechnicalIndicators.rsi_enabled cfg;
                   TechnicalIndicators.rsi_period := TechnicalIndicators.rsi_period cfg;
                   TechnicalIndicators.use_divergence := TechnicalIndicators.use_divergence cfg;
                   TechnicalIndicators.bollinger_enabled := TechnicalIndicators.bollinger_enabled cfg;
                   TechnicalIndicators.bollinger_period := TechnicalIndicators.bollinger_period cfg;
                   TechnicalIndicators.std_dev := TechnicalIndicators.std_dev cfg;
                   TechnicalIndicators.volume_enabled := false;
                   TechnicalIndicators.volume_period := TechnicalIndicators.volume_period cfg;
                   TechnicalIndicators.surge_threshold := TechnicalIndicators.surge_threshold cfg |}
                raw) as [_ [_ Hv]].
  unfold TechnicalIndicators.with_indicators in *. simpl in Hv. rewrite Hen.
  unfold TechnicalIndicators.add_volume_indicators at 1.
  do 3 get_other. rewrite get_with_column_same, Hv. reflexivity.
Qed.

Lemma with_indicators_rsi lib cfg raw :
  TechnicalIndicators.rsi_enabled cfg = true ->
  PyDict.get (TechnicalIndicators.rsi_name (TechnicalIndicators.rsi_period cfg))
    (Pd.added (TechnicalIndicators.with_indicators lib cfg raw)) =
  Some (Pd.FloatCol
          (TechnicalIndicators.rsi_column lib raw
             (TechnicalIndicators.rsi_period cfg))).
Proof.
  intros Hen. unfold TechnicalIndicators.with_indicators. rewrite Hen.
  destruct (TechnicalIndicators.ma_enabled cfg),
    (TechnicalIndicators.use_divergence cfg),
    (TechnicalIndicators.bollinger_enabled cfg),
    (TechnicalIndicators.volume_enabled cfg);
    through_stages; unfold TechnicalIndicators.add_rsi;
    get_other; rewrite get_with_column_same; reflexivity.
Qed.

Lemma np_ltb_nan_r a : Np.ltb a Np.NaN = false.
Proof. now destruct a. Qed.

Lemma np_ltb_nan_l a : Np.ltb Np.NaN a = false.
Proof. reflexivity. Qed.

(** Where the RSI ten bars back is undefined the divergence is [0]. *)
Lemma divergence_at_undefined close rsi i :
  Np.isnan (nth (i - 10) rsi Np.NaN) = true ->
  TechnicalIndicators.divergence_at 10 close rsi i = 0%Z.
Proof.
  intros H. unfold TechnicalIndicators.divergence_at.
  destruct (Nat.ltb i 10); auto.
  destruct (nth (i - 10) rsi Np.NaN); try discriminate.
  unfold Np.gtb. rewrite np_ltb_nan_r, np_ltb_nan_l, !andb_false_r.
  reflexivity.
Qed.

Lemma with_indicators_divergence lib cfg raw :
  TechnicalIndicators.rsi_enabled cfg = true ->
  TechnicalIndicators.use_divergence cfg = true ->
  TechnicalIndicators.rsi_period cfg = 14%nat ->
  PyDict.get "rsi_divergence"
    (Pd.added (TechnicalIndicators.with_indicators lib cfg raw)) =
  Some (Pd.IntCol
          (map (TechnicalIndicators.divergence_at 10
                  (TechnicalIndicators.closes raw)
                  (TechnicalIndicators.rsi_column lib raw 14))
               (seq 0 (Pd.len raw)))).
Proof.
  intros Hen Hdiv Hp. unfold TechnicalIndicators.with_indicators.
  rewrite Hen, Hdiv, Hp.
  destruct (TechnicalIndicators.ma_enabled cfg),
    (TechnicalIndicators.bollinger_enabled cfg),
    (TechnicalIndicators.volume_enabled cfg);
    through_stages; unfold TechnicalIndicators.add_rsi_divergence;
    unfold TechnicalIndicators.add_rsi at 1;
    get_other; rewrite get_with_column_same;
    rewrite get_with_column_same; reflexivity.
Qed.

Lemma undefined_feature_drops_row df name xs i :
  PyDict.get name (Pd.added df) = Some (Pd.FloatCol xs) ->
  nth_error xs i = Some Np.NaN ->
  ~ kept df i.
Proof.
  intros Hget Hnan. apply dict_get_in in Hget.
  eapply nan_not_defined; eauto.
Qed.


(** ** Instances *)

(** A configuration whose stop-loss threshold lies above its take-profit
    threshold, so that the three triggers can hold at once. *)
Definition overlapping_config : RiskManager.config :=
  {| RiskManager.stop_loss := - (1 # 10);
     RiskManager.take_profit := 5 # 100;
     RiskManager.trailing_stop := 2 # 100;
     RiskManager.use_trailing_stop := true |}.

(** Bought at 100, now at 107, with a stop stored at 108. *)
Definition all_triggers_position : RiskManager.position :=
  {| RiskManager.currency := "BTC"; RiskManager.quantity := 1;
     RiskManager.entry_price := 100; RiskManager.entry_time := 0;
     RiskManager.current_price := 107; RiskManager.highest_price := 110;
     RiskManager.lowest_price := 100;
     RiskManager.trailing_stop_price := Some 108 |}.


(** An exchange that quotes BTC at the given price, reports one BTC held
    and rejects every order. *)
Definition rejecting_api (price : Q) : Api.t :=
  {| Api.get_current_price :=
       fun tk => if String.eqb tk "KRW-BTC" then Some price else None;
     Api.get_balances :=
       Some [ {| Api.currency := "KRW"; Api.balance := 1000 |};
              {| Api.currency := "BTC"; Api.balance := 1 |} ];
     Api.get_balance := fun _ => Some 0;
     Api.buy_market_order := fun _ _ => None;
     Api.sell_market_order := fun _ _ => None;
     Api.now := 1 |}.

(** One BTC bought at 100. *)
Definition one_position : RiskManager.state :=
  {| RiskManager.positions :=
       [("KRW-BTC"%string, sample_position "BTC" 1 100)];
     RiskManager.submitted := [] |}.


Definition sample_trading_config : CombinedStrategy.config :=
  {| CombinedStrategy.trade_amount := 100000;
     CombinedStrategy.max_invest_ratio := 1 # 2 |}.

(** An account with 4999 of cash and no coin. *)
Definition small_cash_api : Api.t :=
  {| Api.get_current_price := fun _ => Some 100;
     Api.get_balances := Some [];
     Api.get_balance :=
       fun c => if String.eqb c "KRW" then Some 4999 else Some 0;
     Api.buy_market_order := fun _ _ => Some {| Api.uuid := "order" |};
     Api.sell_market_order := fun _ _ => Some {| Api.uuid := "order" |};
     Api.now := 1 |}.

Definition idle_strategy : CombinedStrategy.state :=
  {| CombinedStrategy.positions := [];
     CombinedStrategy.orders := [];
     CombinedStrategy.submitted := [] |}.

Definition strong_buy : CombinedStrategy.signal_info :=
  {| CombinedStrategy.signal := 1; CombinedStrategy.confidence := 7 # 10 |}.


(** The frame handed to fusion for the rising candles: one row. *)
Definition rising_frame : Pd.frame :=
  TechnicalIndicators.add_indicators sample_library rsi_only rising_candles.


(** A take-profit verdict for the position of [one_position]. *)
Definition take_profit_verdict : RiskManager.risk_action :=
  {| RiskManager.action := RiskManager.PartialSell;
     RiskManager.reason := RiskManager.TakeProfit;
     RiskManager.details :=
       RiskManager.TakeProfitDetails (1 # 10) (5 # 100) 100 110 (1 # 2) |}.

Lemma failed_order_is_failed_hold_witness :
  let api := rejecting_api 110 in
  let p := sample_position "BTC" 1 100 in
  let run := RiskManager._execute_risk_action api "KRW-BTC" p
               take_profit_verdict one_position in
  Api.answer api (Api.SellMarket "KRW-BTC" (1 * (1 # 2))) = None /\
  RiskManager.success (fst run) = false /\
  RiskManager.exec_action (fst run) = RiskManager.Hold /\
  RiskManager.positions (snd run) = RiskManager.positions one_position /\
  NoDup (PyDict.keys (RiskManager.positions one_position)) /\
  exists calls,
    RiskManager.submitted
      (snd (RiskManager.check_risk_limits sample_risk_config api one_position))
      = RiskManager.submitted one_position ++ calls /\
    NoDup (map Api.call_ticker calls).
Proof.
  intros api p run.
  destruct (failed_order_is_failed_hold api) as [_ [Hrisk Hcycle]].
  split; [reflexivity|].
  assert (Hnd : NoDup (PyDict.keys (RiskManager.positions one_position))).
  { repeat constructor. intros []. }
  destruct (Hrisk "KRW-BTC"%string p take_profit_verdict one_position)
    as [Hsame|[volume [Hsub Hfail]]].
  - apply (f_equal RiskManager.submitted) in Hsame. vm_compute in Hsame.
    discriminate Hsame.
  - destruct (Hfail eq_refl) as [H1 [H2 H3]].
    repeat (split; [assumption|]).
    apply Hcycle. exact Hnd.
Defined.

(** A stop-loss verdict for the first position of [two_positions]. *)
Definition stop_loss_verdict : RiskManager.risk_action :=
  {| RiskManager.action := RiskManager.Sell;
     RiskManager.reason := RiskManager.StopLoss;
     RiskManager.details :=
       RiskManager.StopLossDetails (- (1 # 10)) (- (3 # 100)) 100 90 |}.

Lemma full_exit_then_fresh_entry_witness :
  let p := sample_position "BTC" 1 100 in
  let st' := snd (RiskManager._execute_risk_action crash_api "KRW-BTC" p
                    stop_loss_verdict two_positions) in
  RiskManager.action stop_loss_verdict = RiskManager.Sell /\
  Api.sell_market_order crash_api "KRW-BTC" (RiskManager.quantity p)
    = Some {| Api.uuid := "order" |} /\
  PyDict.get "KRW-BTC" (RiskManager.positions st') = None /\
  PyDict.mem "KRW-BTC"
    (RiskManager.update_positions sample_risk_config crash_api
       (RiskManager.positions st')) = true.
Proof.
  intros p st'.
  destruct (full_exit_then_fresh_entry sample_risk_config crash_api "KRW-BTC"
              p stop_loss_verdict two_positions {| Api.uuid := "order" |}
              eq_refl eq_refl) as [Hgone [_ Hback]].
  split; [reflexivity|split; [reflexivity|split; [exact Hgone|]]].
  apply (Hback crash_api
           [ {| Api.currency := "KRW"; Api.balance := 1000 |};
             {| Api.currency := "BTC"; Api.balance := 1 |};
             {| Api.currency := "ETH"; Api.balance := 2 |} ]
           {| Api.currency := "BTC"; Api.balance := 1 |}).
  - reflexivity.
  - right. left. reflexivity.
  - split; [discriminate|split; [reflexivity|]].
    exists 90. split; [reflexivity|vm_compute; discriminate].
  - reflexivity.
Defined.


Lemma update_positions_preserves_entry_witness :
  exists p',
    PyDict.get "KRW-BTC"
      (RiskManager.update_positions sample_risk_config crash_api
         (RiskManager.positions two_positions)) = Some p' /\
    RiskManager.current_price p' = 90 /\
    RiskManager.entry_price p' = 100 /\
    RiskManager.entry_time p' = 0%Z.
Proof.
  eexists. split; [vm_compute; reflexivity|].
  split; [reflexivity|].
  match goal with
  | |- RiskManager.entry_price ?q = _ /\ _ =>
      pose proof (update_positions_preserves_entry sample_risk_config crash_api
                    (RiskManager.positions two_positions) "KRW-BTC" q eq_refl)
        as H
  end.
  simpl in H. destruct H as [He [Ht _]]. split; assumption.
Defined.

(** * Further properties *)

(** ** Portfolio risk *)

Lemma fold_max2_spec (rest : list Q) :
  forall v,
    In (fold_left Py.max2 rest v) (v :: rest) /\
    Forall (fun x => x <= fold_left Py.max2 rest v) (v :: rest).
Proof.
  induction rest as [|x rest IH]; intros v; simpl.
  - split; [auto|]. constructor; [lra|constructor].
  - destruct (IH (Py.max2 v x)) as [Hin Hall].
    inversion Hall as [|? ? Hhd Htl]; subst.
    split.
    + destruct Hin as [Hin|Hin]; [|auto].
      rewrite <- Hin. unfold Py.max2. destruct (Py.Qltb v x); auto.
    + constructor.
      * eapply Qle_trans; [apply max2_ge_l|exact Hhd].
      * constructor; [|exact Htl].
        eapply Qle_trans; [apply max2_ge_r|exact Hhd].
Qed.

Lemma max_default_spec (l : list Q) :
  l <> [] ->
  In (RiskManager.max_default l) l /\
  Forall (fun x => x <= RiskManager.max_default l) l.
Proof.
  destruct l as [|v rest]; [contradiction|]. intros _. apply fold_max2_spec.
Qed.

(** The ratios of a portfolio. *)
Definition ratios (p : RiskManager.portfolio) : list Q :=
  map (fun kv => RiskManager.ratio (snd kv)) (RiskManager.portfolio_exposure p).

Lemma check_portfolio_risk_level api :
  RiskManager.risk (RiskManager.check_portfolio_risk api) =
  RiskManager.level_of
    (RiskManager.max_default (ratios (RiskManager.check_portfolio_risk api))).
Proof.
  unfold RiskManager.check_portfolio_risk, ratios.
  destruct (fold_left _ _ _) as [total exposures]. reflexivity.
Qed.

(** X1. The risk level of [check_portfolio_risk] is decided by the largest
    exposure ratio: high exactly when some instrument holds more than half of
    the total, low exactly when none holds more than three tenths, medium
    otherwise; an account without coins is low. *)
Theorem portfolio_risk_level :
  forall api : Api.t,
    let p := RiskManager.check_portfolio_risk api in
    (RiskManager.risk p = RiskManager.High <->
       exists r, In r (ratios p) /\ 1 # 2 < r) /\
    (RiskManager.risk p = RiskManager.Low <->
       forall r, In r (ratios p) -> r <= 3 # 10) /\
    (RiskManager.risk p = RiskManager.Medium <->
       (forall r, In r (ratios p) -> r <= 1 # 2) /\
       exists r, In r (ratios p) /\ 3 # 10 < r).
Proof.
  intros api p. subst p. rewrite check_portfolio_risk_level.
  set (l := ratios (RiskManager.check_portfolio_risk api)).
  unfold RiskManager.level_of.
  destruct l as [|v rest] eqn:El.
  - simpl. repeat split; intros; try discriminate; try contradiction.
    + destruct H as [r [[] _]].
    + destruct H as [_ [r [[] _]]].
  - destruct (max_default_spec (v :: rest)) as [Hin Hall]; [discriminate|].
    rewrite Forall_forall in Hall.
    set (m := RiskManager.max_default (v :: rest)) in *.
    destruct (Py.Qltb (1 # 2) m) eqn:E1.
    + apply Qltb_lt in E1. repeat split; intros; try discriminate; eauto.
      * specialize (H m Hin). lra.
      * destruct H as [H _]. specialize (H m Hin). lra.
    + apply Qltb_ge in E1. destruct (Py.Qltb (3 # 10) m) eqn:E2.
      * apply Qltb_lt in E2. repeat split; intros; try discriminate; eauto.
        -- destruct H as [r [Hr Hlt]]. specialize (Hall r Hr). lra.
        -- specialize (H m Hin). lra.
        -- specialize (Hall r H0). lra.
      * apply Qltb_ge in E2. repeat split; intros; try discriminate; eauto.
        -- destruct H as [r [Hr Hlt]]. specialize (Hall r Hr). lra.
        -- specialize (Hall r H0). lra.
        -- destruct H as [_ [r [Hr Hlt]]]. specialize (Hall r Hr). lra.
Qed.

Definition sum_values (d : PyDict.t RiskManager.exposure) : Q :=
  Pd.sum (map (fun kv => RiskManager.value (snd kv)) d).

Definition values_nonneg (d : PyDict.t RiskManager.exposure) : Prop :=
  Forall (fun kv => 0 <= RiskManager.value (snd kv)) d.

Lemma set_exposure_values k e d :
  values_nonneg d -> 0 <= RiskManager.value e ->
  values_nonneg (PyDict.set k e d) /\
  sum_values (PyDict.set k e d) <= sum_values d + RiskManager.value e.
Proof.
  intros Hd He. induction d as [|[k' e'] r IH]; simpl.
  - split; [constructor; auto|]. unfold sum_values. simpl. lra.
  - inversion Hd as [|? ? Hhd Htl]; subst. simpl in Hhd.
    destruct (String.eqb k k').
    + split; [constructor; auto|]. unfold sum_values in *. simpl. lra.
    + destruct (IH Htl) as [IH1 IH2].
      split; [constructor; auto|]. unfold sum_values in *. simpl. lra.
Qed.

Lemma add_exposure_invariant api krw acc b :
  (forall tk cp, Api.get_current_price api tk = Some cp -> 0 <= cp) ->
  values_nonneg (snd acc) /\ sum_values (snd acc) + krw <= fst acc ->
  values_nonneg (snd (RiskManager.add_exposure api acc b)) /\
  sum_values (snd (RiskManager.add_exposure api acc b)) + krw
    <= fst (RiskManager.add_exposure api acc b).
Proof.
  intros Hprice [Hnn Hsum]. unfold RiskManager.add_exposure.
  destruct (String.eqb _ _); auto.
  destruct (Qle_bool (Api.balance b) 0) eqn:Eb; auto.
  apply Qle_bool_false in Eb.
  destruct (Api.get_current_price api _) as [cp|] eqn:Ep; auto.
  destruct (Qeq_bool cp 0); auto.
  apply Hprice in Ep. simpl.
  assert (Hv : 0 <= Api.balance b * cp) by (apply Qmult_le_0_compat; lra).
  match goal with
  | |- context [PyDict.set ?k ?e ?d] =>
      destruct (set_exposure_values k e d Hnn) as [H1 H2]; [exact Hv|]
  end.
  simpl in H2. split; [exact H1|]. lra.
Qed.

Lemma fold_add_exposure_invariant api krw bs :
  (forall tk cp, Api.get_current_price api tk = Some cp -> 0 <= cp) ->
  forall acc,
    values_nonneg (snd acc) /\ sum_values (snd acc) + krw <= fst acc ->
    values_nonneg (snd (fold_left (RiskManager.add_exposure api) bs acc)) /\
    sum_values (snd (fold_left (RiskManager.add_exposure api) bs acc)) + krw
      <= fst (fold_left (RiskManager.add_exposure api) bs acc).
Proof.
  intros Hprice. induction bs as [|b bs IH]; intros acc Hacc; simpl; auto.
  apply IH. now apply add_exposure_invariant.
Qed.

Lemma sum_scaled (t : Q) (d : PyDict.t RiskManager.exposure) :
  Pd.sum (map (fun kv => RiskManager.value (snd kv) / t) d)
  == sum_values d / t.
Proof.
  unfold sum_values. induction d as [|kv r IH]; simpl.
  - unfold Qdiv. lra.
  - rewrite IH. unfold Qdiv. lra.
Qed.

Lemma sum_nonneg (l : list Q) : Forall (fun x => 0 <= x) l -> 0 <= Pd.sum l.
Proof. induction 1; simpl; lra. Qed.

Lemma sum_member_le (l : list Q) x :
  Forall (fun y => 0 <= y) l -> In x l -> x <= Pd.sum l.
Proof.
  induction 1 as [|y l Hy Hl IH]; simpl; [contradiction|].
  pose proof (sum_nonneg l Hl).
  intros [->|Hin]; [lra|]. specialize (IH Hin). lra.
Qed.


(** ** Rebalancing *)

Definition target_of (targets : PyDict.t Q) (tk : string) : Q :=
  match PyDict.get tk targets with Some r => r | None => 0 end.

(** A sell of the first phase: part of the holding of an instrument whose
    ratio is above its target. *)
Definition is_excess_sell (targets : PyDict.t Q)
  (items : list (string * RiskManager.exposure)) (c : Api.call) : Prop :=
  exists tk q e,
    c = Api.SellMarket tk q /\ In (tk, e) items /\
    target_of targets tk < RiskManager.ratio e /\
    0 < q /\ q <= RiskManager.held e.

(** A buy of the second phase: at least the minimum order, for a target
    other than the cash itself. *)
Definition is_deficit_buy (targets : PyDict.t Q) (c : Api.call) : Prop :=
  exists tk v,
    c = Api.BuyMarket tk v /\ tk <> "KRW"%string /\
    In tk (PyDict.keys targets) /\ 5000 <= v.

Definition call_amount (c : Api.call) : Q :=
  match c with
  | Api.BuyMarket _ v => v
  | Api.SellMarket _ q => q
  end.

Definition accepted (api : Api.t) (c : Api.call) : Prop :=
  Api.answer api c <> None.

Lemma is_excess_sell_tail targets item items c :
  is_excess_sell targets items c -> is_excess_sell targets (item :: items) c.
Proof.
  intros [tk [q [e [H1 [H2 H3]]]]]. exists tk, q, e.
  split; [auto|split; [now right|auto]].
Qed.

Lemma sell_excess_spec api targets total items :
  forall done st done' why st',
    RiskManager.sell_excess api targets total items done st = (done', why, st') ->
    RiskManager.positions st' = RiskManager.positions st /\
    exists calls,
      RiskManager.submitted st' = RiskManager.submitted st ++ calls /\
      Forall (is_excess_sell targets items) calls /\
      (why = None ->
         Forall (accepted api) calls /\
         List.length done' = (List.length done + List.length calls)%nat).
Proof.
  induction items as [|[tk e] rest IH]; intros done st done' why st' Hrun;
    simpl in Hrun.
  - inversion Hrun; subst. split; auto. exists []. rewrite app_nil_r.
    repeat split; auto.
  - assert (Hskip :
        RiskManager.sell_excess api targets total rest done st
          = (done', why, st') ->
        RiskManager.positions st' = RiskManager.positions st /\
        exists calls,
          RiskManager.submitted st' = RiskManager.submitted st ++ calls /\
          Forall (is_excess_sell targets ((tk, e) :: rest)) calls /\
          (why = None ->
             Forall (accepted api) calls /\
             List.length done' = (List.length done + List.length calls)%nat)).
    { intros H. destruct (IH _ _ _ _ _ H) as [Hp [calls [Hs [Hf Hn]]]].
      split; auto. exists calls. repeat split; auto.
      - eapply Forall_impl; [|exact Hf]. intros c. apply is_excess_sell_tail.
      - now apply Hn.
      - now apply Hn. }
    fold (target_of targets tk) in Hrun.
    destruct (Py.Qltb (target_of targets tk) (RiskManager.ratio e)) eqn:Er;
      [|auto].
    apply Qltb_lt in Er.
    destruct (Py.div _ (RiskManager.price e)) as [q0|err].
    2:{ inversion Hrun; subst. split; auto. exists []. rewrite app_nil_r.
        repeat split; auto; discriminate. }
    set (q := Py.min2 q0 (RiskManager.held e)) in *.
    destruct (Py.Qltb 0 q) eqn:Eq; [|auto].
    apply Qltb_lt in Eq.
    assert (Hsell : is_excess_sell targets ((tk, e) :: rest)
                      (Api.SellMarket tk q)).
    { exists tk, q, e. repeat split; auto; [now left|apply min2_le_r]. }
    destruct (Api.sell_market_order api tk q) as [o|] eqn:Eo.
    + destruct (IH _ _ _ _ _ Hrun) as [Hp [calls [Hs [Hf Hn]]]].
      simpl in Hp, Hs. split; auto.
      exists (Api.SellMarket tk q :: calls).
      rewrite Hs, <- app_assoc. split; [reflexivity|split].
      * constructor; auto.
        eapply Forall_impl; [|exact Hf]. intros c. apply is_excess_sell_tail.
      * intros Hw. destruct (Hn Hw) as [Ha Hl]. split.
        -- constructor; auto. unfold accepted. simpl. rewrite Eo. discriminate.
        -- rewrite Hl, length_app. simpl. lia.
    + inversion Hrun; subst. simpl. split; auto.
      exists [Api.SellMarket tk q]. repeat split; auto; discriminate.
Qed.

Lemma buy_deficit_spec api exposures total targets :
  forall krw done st done' why st',
    RiskManager.buy_deficit api exposures total targets krw done st
      = (done', why, st') ->
    RiskManager.positions st' = RiskManager.positions st /\
    exists calls,
      RiskManager.submitted st' = RiskManager.submitted st ++ calls /\
      Forall (is_deficit_buy targets) calls /\
      (calls <> [] -> Pd.sum (map call_amount calls) <= krw) /\
      (why = None ->
         Forall (accepted api) calls /\
         List.length done' = (List.length done + List.length calls)%nat).
Proof.
  induction targets as [|[tk target] rest IH];
    intros krw done st done' why st' Hrun; simpl in Hrun.
  - inversion Hrun; subst. split; auto. exists []. rewrite app_nil_r.
    repeat split; auto. intros H. contradiction.
  - assert (Hskip :
        RiskManager.buy_deficit api exposures total rest krw done st
          = (done', why, st') ->
        RiskManager.positions st' = RiskManager.positions st /\
        exists calls,
          RiskManager.submitted st' = RiskManager.submitted st ++ calls /\
          Forall (is_deficit_buy ((tk, target) :: rest)) calls /\
          (calls <> [] -> Pd.sum (map call_amount calls) <= krw) /\
          (why = None ->
             Forall (accepted api) calls /\
             List.length done' = (List.length done + List.length calls)%nat)).
    { intros H. destruct (IH _ _ _ _ _ _ H) as [Hp [calls [Hs [Hf [Hk Hn]]]]].
      split; auto. exists calls. repeat split; auto; try (now apply Hn).
      eapply Forall_impl; [|exact Hf].
      intros c [t [v [H1 [H2 [H3 H4]]]]]. exists t, v.
      repeat split; auto. now right. }
    destruct (String.eqb tk "KRW") eqn:Ek; [auto|].
    apply String.eqb_neq in Ek.
    destruct (Py.Qltb _ target); [|auto].
    match type of Hrun with
    | context [Qle_bool 5000 ?d] => set (v := d) in *
    end.
    assert (Hv : v <= krw).
    { subst v. destruct (Py.Qltb krw _) eqn:E; [lra|].
      now apply Qltb_ge in E. }
    destruct (Qle_bool 5000 v) eqn:Emin; [|auto].
    apply Qle_bool_iff in Emin.
    assert (Hbuy : is_deficit_buy ((tk, target) :: rest) (Api.BuyMarket tk v)).
    { exists tk, v. repeat split; auto. now left. }
    destruct (Api.buy_market_order api tk v) as [o|] eqn:Eo.
    + destruct (IH _ _ _ _ _ _ Hrun) as [Hp [calls [Hs [Hf [Hk Hn]]]]].
      simpl in Hp, Hs. split; auto.
      exists (Api.BuyMarket tk v :: calls).
      rewrite Hs, <- app_assoc. split; [reflexivity|split; [|split]].
      * constructor; auto. eapply Forall_impl; [|exact Hf].
        intros c [t [w [H1 [H2 [H3 H4]]]]]. exists t, w.
        repeat split; auto. now right.
      * intros _. simpl. destruct calls as [|c calls].
        -- simpl. lra.
        -- assert (Hne : c :: calls <> []) by discriminate.
           specialize (Hk Hne). simpl in Hk. simpl. lra.
      * intros Hw. destruct (Hn Hw) as [Ha Hl]. split.
        -- constructor; auto. unfold accepted. simpl. rewrite Eo. discriminate.
        -- rewrite Hl, length_app. simpl. lia.
    + inversion Hrun; subst. simpl. split; auto.
      exists [Api.BuyMarket tk v]. repeat split; auto; try discriminate.
      intros _. simpl. lra.
Qed.

(** The orders of one call of [rebalance_portfolio]: the sells of the first
    phase, then the buys of the second. *)
Lemma rebalance_log api api_after targets st :
  let run := RiskManager.rebalance_portfolio api api_after targets st in
  let portfolio := RiskManager.check_portfolio_risk api in
  RiskManager.positions (snd run) = RiskManager.positions st /\
  exists sells buys,
    RiskManager.submitted (snd run) = RiskManager.submitted st ++ sells ++ buys /\
    Forall (is_excess_sell targets (RiskManager.portfolio_exposure portfolio))
      sells /\
    Forall (is_deficit_buy targets) buys /\
    (buys <> [] ->
       Forall (accepted api) sells /\
       Pd.sum (map call_amount buys)
         <= RiskManager.or_zero (Api.get_balance api_after "KRW")) /\
    (RiskManager.rebalanced (fst run) = true ->
       Forall (accepted api) sells /\ Forall (accepted api_after) buys /\
       List.length (RiskManager.actions (fst run))
         = (List.length sells + List.length buys)%nat) /\
    (RiskManager.total_balance portfolio <= 0 ->
       sells = [] /\ buys = [] /\ RiskManager.rebalanced (fst run) = false).
Proof.
  intros run portfolio. subst run. unfold RiskManager.rebalance_portfolio.
  fold portfolio.
  destruct (Qle_bool (RiskManager.total_balance portfolio) 0) eqn:Et.
  { simpl. split; [reflexivity|]. exists [], []. rewrite !app_nil_r.
    split; [reflexivity|split; [constructor|split; [constructor|]]].
    split; [intros H; contradiction|].
    split; [discriminate|]. auto. }
  apply Qle_bool_false in Et.
  destruct (RiskManager.sell_excess api targets
              (RiskManager.total_balance portfolio)
              (RiskManager.portfolio_exposure portfolio) [] st)
    as [[done1 why1] st1] eqn:E1.
  destruct (sell_excess_spec _ _ _ _ _ _ _ _ _ E1)
    as [Hp1 [sells [Hs1 [Hf1 Hn1]]]].
  destruct why1 as [why|].
  { simpl. split; [exact Hp1|]. exists sells, []. rewrite app_nil_r.
    split; [exact Hs1|split; [exact Hf1|split; [constructor|]]].
    split; [intros H; contradiction|].
    split; [discriminate|]. intros H. exfalso. lra. }
  destruct (Hn1 eq_refl) as [Ha1 Hl1].
  destruct (RiskManager.buy_deficit api_after
              (RiskManager.portfolio_exposure portfolio)
              (RiskManager.total_balance portfolio) targets
              (RiskManager.or_zero (Api.get_balance api_after "KRW")) done1 st1)
    as [[done2 why2] st2] eqn:E2.
  destruct (buy_deficit_spec _ _ _ _ _ _ _ _ _ _ E2)
    as [Hp2 [buys [Hs2 [Hf2 [Hk2 Hn2]]]]].
  assert (Hlog : RiskManager.submitted st2 =
                 RiskManager.submitted st ++ sells ++ buys).
  { rewrite Hs2, Hs1, app_assoc. reflexivity. }
  assert (Hpos : RiskManager.positions st2 = RiskManager.positions st)
    by congruence.
  destruct why2 as [why|]; simpl.
  - split; [exact Hpos|]. exists sells, buys.
    split; [exact Hlog|split; [exact Hf1|split; [exact Hf2|]]].
    split; [intros H; split; [exact Ha1|now apply Hk2]|].
    split; [discriminate|]. intros H. exfalso. lra.
  - destruct (Hn2 eq_refl) as [Ha2 Hl2].
    split; [exact Hpos|]. exists sells, buys.
    split; [exact Hlog|split; [exact Hf1|split; [exact Hf2|]]].
    split; [intros H; split; [exact Ha1|now apply Hk2]|].
    split.
    + intros _. split; [exact Ha1|split; [exact Ha2|]].
      rewrite Hl2, Hl1. reflexivity.
    + intros H. exfalso. lra.
Qed.

(** The orders that a call has added to the log. *)
Definition new_orders (before after : list Api.call) : list Api.call :=
  skipn (List.length before) after.

Definition is_sell (c : Api.call) : bool :=
  match c with Api.SellMarket _ _ => true | Api.BuyMarket _ _ => false end.

Definition sells_of (log : list Api.call) : list Api.call := filter is_sell log.

Definition buys_of (log : list Api.call) : list Api.call :=
  filter (fun c => negb (is_sell c)) log.

(** The orders of a rebalance. *)
Definition rebalance_orders (api api_after : Api.t) (targets : PyDict.t Q)
  (st : RiskManager.state) : list Api.call :=
  new_orders (RiskManager.submitted st)
    (RiskManager.submitted
       (snd (RiskManager.rebalance_portfolio api api_after targets st))).

Lemma new_orders_app (before added : list Api.call) :
  new_orders before (before ++ added) = added.
Proof.
  unfold new_orders. induction before as [|c before IH]; simpl; auto.
Qed.

Lemma filter_all {A} (f : A -> bool) l :
  Forall (fun x => f x = true) l -> filter f l = l.
Proof.
  induction 1 as [|x l Hx Hl IH]; simpl; auto. now rewrite Hx, IH.
Qed.

Lemma filter_none {A} (f : A -> bool) l :
  Forall (fun x => f x = false) l -> filter f l = [].
Proof.
  induction 1 as [|x l Hx Hl IH]; simpl; auto. now rewrite Hx.
Qed.

(** What [rebalance_log] says, about the orders themselves. *)
Lemma rebalance_orders_spec api api_after targets st :
  let run := RiskManager.rebalance_portfolio api api_after targets st in
  let portfolio := RiskManager.check_portfolio_risk api in
  let log := rebalance_orders api api_after targets st in
  RiskManager.positions (snd run) = RiskManager.positions st /\
  RiskManager.submitted (snd run) = RiskManager.submitted st ++ log /\
  log = sells_of log ++ buys_of log /\
  Forall (is_excess_sell targets (RiskManager.portfolio_exposure portfolio))
    (sells_of log) /\
  Forall (is_deficit_buy targets) (buys_of log) /\
  (buys_of log <> [] ->
     Forall (accepted api) (sells_of log) /\
     Pd.sum (map call_amount (buys_of log))
       <= RiskManager.or_zero (Api.get_balance api_after "KRW")) /\
  (RiskManager.rebalanced (fst run) = true ->
     Forall (accepted api) (sells_of log) /\
     Forall (accepted api_after) (buys_of log) /\
     List.length (RiskManager.actions (fst run)) = List.length log) /\
  (RiskManager.total_balance portfolio <= 0 ->
     log = [] /\ RiskManager.rebalanced (fst run) = false).
Proof.
  intros run portfolio log.
  destruct (rebalance_log api api_after targets st)
    as [Hp [sells [buys [Hs [Hf [Hb [Hk [Hok Hnone]]]]]]]].
  assert (Hlog : log = sells ++ buys).
  { subst log. unfold rebalance_orders. rewrite Hs. apply new_orders_app. }
  assert (Hsells : sells_of log = sells).
  { rewrite Hlog. unfold sells_of. rewrite filter_app.
    rewrite (filter_all is_sell sells), (filter_none is_sell buys).
    - apply app_nil_r.
    - eapply Forall_impl; [|exact Hb]. intros c [tk [v [-> _]]]. reflexivity.
    - eapply Forall_impl; [|exact Hf].
      intros c [tk [q [e [-> _]]]]. reflexivity. }
  assert (Hbuys : buys_of log = buys).
  { rewrite Hlog. unfold buys_of. rewrite filter_app.
    rewrite (filter_none _ sells), (filter_all _ buys).
    - reflexivity.
    - eapply Forall_impl; [|exact Hb]. intros c [tk [v [-> _]]]. reflexivity.
    - eapply Forall_impl; [|exact Hf].
      intros c [tk [q [e [-> _]]]]. reflexivity. }
  rewrite Hsells, Hbuys.
  split; [exact Hp|split; [rewrite Hlog; exact Hs|split; [exact Hlog|]]].
  split; [exact Hf|split; [exact Hb|split; [exact Hk|split]]].
  - intros H. destruct (Hok H) as [Ha [Hb' Hl]].
    split; [exact Ha|split; [exact Hb'|]]. unfold run.
    rewrite Hl, Hlog, length_app.
    reflexivity.
  - intros H. destruct (Hnone H) as [-> [-> Hr]].
    split; [exact Hlog|exact Hr].
Qed.

(** X3. [rebalance_portfolio] works in two phases that never interleave:
    its orders are sells followed by buys, a buy is only attempted after
    every sell has been accepted, and the position ledger is not touched. *)
Theorem rebalance_two_phases :
  forall (api api_after : Api.t) (targets : PyDict.t Q) (st : RiskManager.state),
    let run := RiskManager.rebalance_portfolio api api_after targets st in
    let log := rebalance_orders api api_after targets st in
    RiskManager.positions (snd run) = RiskManager.positions st /\
    RiskManager.submitted (snd run) = RiskManager.submitted st ++ log /\
    log = sells_of log ++ buys_of log /\
    (buys_of log <> [] -> Forall (accepted api) (sells_of log)).
Proof.
  intros api api_after targets st run log.
  destruct (rebalance_orders_spec api api_after targets st)
    as [Hp [Hs [Hl [_ [_ [Hk _]]]]]].
  repeat split; auto. intros H. now apply Hk.
Qed.


(** X5. Every sell of a rebalance is for an instrument whose exposure
    ratio is above its target (a missing target counts as 0), and sells a
    positive quantity that is at most the quantity held. *)
Theorem rebalance_sells_bounded :
  forall (api api_after : Api.t) (targets : PyDict.t Q) (st : RiskManager.state),
    Forall (is_excess_sell targets
              (RiskManager.portfolio_exposure
                 (RiskManager.check_portfolio_risk api)))
      (sells_of (rebalance_orders api api_after targets st)).
Proof.
  intros api api_after targets st.
  destruct (rebalance_orders_spec api api_after targets st)
    as [_ [_ [_ [Hf _]]]].
  exact Hf.
Qed.

(** X6. A rebalance reports success only if every order it submitted was
    accepted, and then lists one action per order; without a positive total
    balance it fails without submitting anything. *)
Theorem rebalance_success_means_filled :
  forall (api api_after : Api.t) (targets : PyDict.t Q) (st : RiskManager.state),
    let run := RiskManager.rebalance_portfolio api api_after targets st in
    let log := rebalance_orders api api_after targets st in
    (RiskManager.rebalanced (fst run) = true ->
       Forall (accepted api) (sells_of log) /\
       Forall (accepted api_after) (buys_of log) /\
       List.length (RiskManager.actions (fst run)) = List.length log) /\
    (RiskManager.total_balance (RiskManager.check_portfolio_risk api) <= 0 ->
       log = [] /\ RiskManager.rebalanced (fst run) = false).
Proof.
  intros api api_after targets st run log.
  destruct (rebalance_orders_spec api api_after targets st)
    as [_ [_ [_ [_ [_ [_ [Hok Hnone]]]]]]].
  split; [exact Hok|exact Hnone].
Qed.


(** ** Invariants of the ledger *)

(** What every ledger entry written by [update_positions] satisfies: a
    non-zero entry price, a current price between the recorded extrema, and,
    when trailing stops are in use, a stored stop that is at least
    [current_price * (1 - trailing_pct)]. *)
Definition well_kept (cfg : RiskManager.config) (p : RiskManager.position)
  : Prop :=
  ~ RiskManager.entry_price p == 0 /\
  RiskManager.lowest_price p <= RiskManager.current_price p /\
  RiskManager.current_price p <= RiskManager.highest_price p /\
  (RiskManager.use_trailing_stop cfg = true ->
   exists s, RiskManager.trailing_stop_price p = Some s /\
             RiskManager.current_price p * (1 - RiskManager.trailing_stop cfg)
               <= s).

Lemma refresh_position_extrema cfg p bal cp :
  let p' := RiskManager.refresh_position cfg p bal cp in
  RiskManager.current_price p' = cp /\
  RiskManager.quantity p' = bal /\
  RiskManager.highest_price p' = Py.max2 (RiskManager.highest_price p) cp /\
  RiskManager.lowest_price p' = Py.min2 (RiskManager.lowest_price p) cp.
Proof.
  unfold RiskManager.refresh_position, RiskManager._update_trailing_stop,
    Py.max2, Py.min2.
  simpl.
  destruct (Py.Qltb (RiskManager.highest_price p) cp); simpl;
    destruct (Py.Qltb cp (RiskManager.lowest_price p)); simpl;
    destruct (RiskManager.use_trailing_stop cfg); simpl;
    destruct (RiskManager.trailing_stop_price p); simpl;
    try destruct (Py.Qltb _ _); simpl; auto.
Qed.

Lemma refresh_position_stop_set cfg p bal cp :
  RiskManager.use_trailing_stop cfg = true ->
  exists s,
    RiskManager.trailing_stop_price (RiskManager.refresh_position cfg p bal cp)
      = Some s /\
    cp * (1 - RiskManager.trailing_stop cfg) <= s.
Proof.
  intros Hts.
  destruct (RiskManager.trailing_stop_price p) as [s0|] eqn:Es.
  - rewrite (refresh_position_stop cfg p bal cp s0 Es), Hts.
    eexists; split; [reflexivity|apply max2_ge_r].
  - unfold RiskManager.refresh_position, RiskManager._update_trailing_stop.
    rewrite Hts. simpl.
    destruct (Py.Qltb (RiskManager.highest_price p) cp); simpl;
      destruct (Py.Qltb cp _); simpl; rewrite Es; simpl;
      eexists; split; try reflexivity; lra.
Qed.

Lemma refresh_position_well_kept cfg p bal cp :
  ~ RiskManager.entry_price p == 0 ->
  well_kept cfg (RiskManager.refresh_position cfg p bal cp).
Proof.
  intros Hne.
  destruct (refresh_position_frame cfg p bal cp) as [_ [He _]].
  destruct (refresh_position_extrema cfg p bal cp) as [Hc [_ [Hh Hl]]].
  unfold well_kept. rewrite He, Hc, Hh, Hl.
  split; [exact Hne|split; [apply min2_le_r|split; [apply max2_ge_r|]]].
  apply refresh_position_stop_set.
Qed.

(** X7. [update_positions] keeps the ledger well-formed: if every entry has
    a non-zero entry price, a current price between its recorded lowest and
    highest price and (with trailing stops in use) a stop no lower than
    [current_price * (1 - trailing_pct)], so has every entry afterwards; and
    for an entry that was refreshed from an observed price, the recorded
    highest and lowest are the previous ones extended by that price. *)
Theorem update_positions_keeps_invariant :
  forall (cfg : RiskManager.config) (api : Api.t) (old : RiskManager.ledger),
    (forall tk p, PyDict.get tk old = Some p -> well_kept cfg p) ->
    forall tk p',
      PyDict.get tk (RiskManager.update_positions cfg api old) = Some p' ->
      well_kept cfg p' /\
      forall p, PyDict.get tk old = Some p ->
        RiskManager.highest_price p' ==
          Qmax (RiskManager.highest_price p) (RiskManager.current_price p') /\
        RiskManager.lowest_price p' ==
          Qmin (RiskManager.lowest_price p) (RiskManager.current_price p').
Proof.
  intros cfg api old Hold tk p' Hget.
  destruct (update_positions_origin cfg api old tk) as [Hsame|Horigin].
  - rewrite Hsame in Hget. pose proof (Hold tk p' Hget) as Hk.
    split; [exact Hk|]. intros p Hp. assert (p = p') by congruence. subst p.
    destruct Hk as [_ [Hl [Hh _]]]. split.
    + symmetry. apply Q.max_l. exact Hh.
    + symmetry. apply Q.min_l. exact Hl.
  - rewrite Hget in Horigin.
    inversion Horigin as [|p bal cp Ho Hprice Hnz Heq
                          |cur bal cp Ho Htk Hprice Hnz Heq].
    + split.
      * apply refresh_position_well_kept. apply (Hold tk p Ho).
      * intros p0 Hp0. assert (p0 = p) by congruence. subst p0.
        destruct (refresh_position_extrema cfg p bal cp) as [Hc [_ [Hh Hl]]].
        rewrite Hc, Hh, Hl. unfold Py.max2, Py.min2. split.
        -- destruct (Py.Qltb (RiskManager.highest_price p) cp) eqn:E.
           ++ apply Qltb_lt in E. symmetry. apply Q.max_r. lra.
           ++ apply Qltb_ge in E. symmetry. apply Q.max_l. exact E.
        -- destruct (Py.Qltb cp (RiskManager.lowest_price p)) eqn:E.
           ++ apply Qltb_lt in E. symmetry. apply Q.min_r. lra.
           ++ apply Qltb_ge in E. symmetry. apply Q.min_l. exact E.
    + split.
      * unfold well_kept, RiskManager.fresh_position. simpl.
        split; [exact Hnz|split; [lra|split; [lra|]]].
        intros Hts. rewrite Hts. eexists; split; [reflexivity|lra].
      * intros p Hp. congruence.
Qed.

Lemma well_kept_sample cur qty price :
  ~ price == 0 -> well_kept sample_risk_config (sample_position cur qty price).
Proof.
  intros Hnz. unfold well_kept, sample_position, RiskManager.fresh_position.
  simpl. split; [exact Hnz|split; [lra|split; [lra|]]].
  intros _. eexists; split; [reflexivity|lra].
Qed.

Lemma update_positions_keeps_invariant_witness :
  (forall tk p,
     PyDict.get tk (RiskManager.positions two_positions) = Some p ->
     well_kept sample_risk_config p) /\
  exists p',
    PyDict.get "KRW-BTC"
      (RiskManager.update_positions sample_risk_config crash_api
         (RiskManager.positions two_positions)) = Some p' /\
    well_kept sample_risk_config p'.
Proof.
  assert (Hold : forall tk p,
             PyDict.get tk (RiskManager.positions two_positions) = Some p ->
             well_kept sample_risk_config p).
  { intros tk p. simpl.
    destruct (String.eqb tk "KRW-BTC");
      [|destruct (String.eqb tk "KRW-ETH")]; intros H; inversion H;
      apply well_kept_sample; vm_compute; discriminate. }
  split; [exact Hold|].
  eexists. split; [vm_compute; reflexivity|].
  match goal with
  | |- well_kept _ ?q =>
      apply (update_positions_keeps_invariant sample_risk_config crash_api
               (RiskManager.positions two_positions) Hold "KRW-BTC" q eq_refl)
  end.
Defined.

(** ** Which instruments the ledger holds *)

Lemma mem_set_iff {V} k k' (v : V) d :
  PyDict.mem k (PyDict.set k' v d) = true <-> k = k' \/ PyDict.mem k d = true.
Proof.
  destruct (string_dec k k') as [->|Hne].
  - rewrite mem_set_same. tauto.
  - unfold PyDict.mem. rewrite get_set_other by auto. tauto.
Qed.

Lemma update_entry_mem cfg api old new b k :
  PyDict.mem k (RiskManager.update_entry cfg api old new b) = true ->
  PyDict.mem k new = true \/
  (held api b /\ k = RiskManager.ticker_of (Api.currency b)).
Proof.
  unfold RiskManager.update_entry.
  destruct (String.eqb (Api.currency b) "KRW") eqn:Ek; auto.
  destruct (Qle_bool (Api.balance b) 0) eqn:Eb; auto.
  destruct (Api.get_current_price api _) as [cp|] eqn:Ep; auto.
  destruct (Qeq_bool cp 0) eqn:Ez; auto.
  assert (Hheld : held api b).
  { split; [now apply String.eqb_neq|split; [now apply Qle_bool_false|]].
    exists cp. split; auto. intros C. apply Qeq_bool_iff in C. congruence. }
  destruct (PyDict.get _ old); intros H; apply mem_set_iff in H;
    destruct H as [->|H]; auto.
Qed.

Lemma fold_update_entry_mem cfg api old bs :
  forall new k,
    PyDict.mem k (fold_left (RiskManager.update_entry cfg api old) bs new)
      = true ->
    PyDict.mem k new = true \/
    exists b, In b bs /\ held api b /\
              k = RiskManager.ticker_of (Api.currency b).
Proof.
  induction bs as [|b bs IH]; intros new k H; simpl in H; auto.
  apply IH in H. destruct H as [H|[b' [Hin Hb]]].
  - apply update_entry_mem in H. destruct H as [H|[Hb Hk]]; auto.
    right. exists b. split; [now left|auto].
  - right. exists b'. split; [now right|auto].
Qed.

(** X8. When the balances can be read (a non-empty list), the ledger after
    [update_positions] holds exactly the instruments with a positive balance
    and an available non-zero price: every other instrument, whatever the
    ledger said before, is dropped, and no instrument is listed twice. *)
Theorem update_positions_holds_what_is_held :
  forall (cfg : RiskManager.config) (api : Api.t) (old : RiskManager.ledger)
         (b0 : Api.balance_entry) (bs : list Api.balance_entry),
    Api.get_balances api = Some (b0 :: bs) ->
    (forall tk,
       PyDict.mem tk (RiskManager.update_positions cfg api old) = true <->
       exists b, In b (b0 :: bs) /\ held api b /\
                 tk = RiskManager.ticker_of (Api.currency b)) /\
    NoDup (PyDict.keys (RiskManager.update_positions cfg api old)).
Proof.
  intros cfg api old b0 bs Hbs. split.
  - intros tk. split.
    + unfold RiskManager.update_positions. rewrite Hbs. intros H.
      apply fold_update_entry_mem in H. destruct H as [H|H]; auto.
      discriminate H.
    + intros [b [Hin [Hheld ->]]].
      eapply update_positions_held; eauto.
  - unfold RiskManager.update_positions. rewrite Hbs. clear Hbs.
    assert (Hacc : NoDup (PyDict.keys (@PyDict.empty RiskManager.position)))
      by constructor.
    revert Hacc. generalize (@PyDict.empty RiskManager.position).
    induction (b0 :: bs) as [|x l IH]; intros acc Hacc; simpl; auto.
    apply IH. now apply update_entry_nodup.
Qed.

Lemma update_positions_holds_what_is_held_witness :
  Api.get_balances crash_api =
    Some [ {| Api.currency := "KRW"; Api.balance := 1000 |};
           {| Api.currency := "BTC"; Api.balance := 1 |};
           {| Api.currency := "ETH"; Api.balance := 2 |} ] /\
  NoDup (PyDict.keys
           (RiskManager.update_positions sample_risk_config crash_api
              (RiskManager.positions one_position))).
Proof.
  split; [reflexivity|].
  apply (update_positions_holds_what_is_held sample_risk_config crash_api
           (RiskManager.positions one_position) _ _ eq_refl).
Defined.

(** ** Partial exits *)

Lemma keys_alter {V} (f : V -> V) k d :
  PyDict.keys (PyDict.alter f k d) = PyDict.keys d.
Proof.
  unfold PyDict.keys. induction d as [|[k' v'] r IH]; simpl; auto.
  destruct (String.eqb k k'); simpl; congruence.
Qed.

(** X9. A partial exit that the exchange accepts sells
    [quantity * sell_ratio] and takes exactly that amount off the quantity of
    the ledger entry, in place: the entry keeps every other field, the other
    entries and the order of the ledger are unchanged, and with the default
    ratio of one half the remaining quantity is half of what was held. *)
Theorem partial_exit_reduces_quantity :
  forall (api : Api.t) (tk : string) (p : RiskManager.position)
         (ra : RiskManager.risk_action) (st : RiskManager.state) (o : Api.order),
    RiskManager.action ra = RiskManager.PartialSell ->
    PyDict.get tk (RiskManager.positions st) = Some p ->
    let volume :=
      RiskManager.quantity p * RiskManager.sell_ratio_of (RiskManager.details ra) in
    Api.sell_market_order api tk volume = Some o ->
    let run := RiskManager._execute_risk_action api tk p ra st in
    RiskManager.success (fst run) = true /\
    RiskManager.exec_action (fst run) = RiskManager.PartialSell /\
    RiskManager.submitted (snd run) =
      RiskManager.submitted st ++ [Api.SellMarket tk volume] /\
    PyDict.get tk (RiskManager.positions (snd run)) =
      Some (RiskManager.set_quantity p (RiskManager.quantity p - volume)) /\
    (forall k, k <> tk ->
       PyDict.get k (RiskManager.positions (snd run)) =
       PyDict.get k (RiskManager.positions st)) /\
    PyDict.keys (RiskManager.positions (snd run)) =
      PyDict.keys (RiskManager.positions st) /\
    (RiskManager.sell_ratio_of (RiskManager.details ra) == 1 # 2 ->
     RiskManager.quantity p - volume == RiskManager.quantity p / 2).
Proof.
  intros api tk p ra st o Hact Hget volume Horder run. subst run.
  unfold RiskManager._execute_risk_action. rewrite Hact.
  fold volume. rewrite Horder. simpl.
  repeat split; auto.
  - rewrite get_alter, String.eqb_refl, Hget. reflexivity.
  - intros k Hne. rewrite get_alter.
    apply String.eqb_neq in Hne. now rewrite Hne.
  - apply keys_alter.
  - intros Hr. subst volume. rewrite Hr. field.
Qed.

Lemma partial_exit_reduces_quantity_witness :
  let p := sample_position "BTC" 1 100 in
  let run := RiskManager._execute_risk_action crash_api "KRW-BTC" p
               take_profit_verdict one_position in
  RiskManager.action take_profit_verdict = RiskManager.PartialSell /\
  PyDict.get "KRW-BTC" (RiskManager.positions one_position) = Some p /\
  Api.sell_market_order crash_api "KRW-BTC" (1 * (1 # 2))
    = Some {| Api.uuid := "order" |} /\
  PyDict.get "KRW-BTC" (RiskManager.positions (snd run)) =
    Some (RiskManager.set_quantity p (1 - 1 * (1 # 2))).
Proof.
  intros p run.
  split; [reflexivity|split; [reflexivity|split; [reflexivity|]]].
  apply (partial_exit_reduces_quantity crash_api "KRW-BTC" p
           take_profit_verdict one_position {| Api.uuid := "order" |}
           eq_refl eq_refl eq_refl).
Defined.

(** ** A complete risk report *)

Lemma mem_set_bool {V} k k' (v : V) d :
  PyDict.mem k (PyDict.set k' v d) = String.eqb k k' || PyDict.mem k d.
Proof.
  destruct (String.eqb k k') eqn:E.
  - apply String.eqb_eq in E. subst. now rewrite mem_set_same.
  - apply String.eqb_neq in E. unfold PyDict.mem.
    now rewrite get_set_other.
Qed.

Lemma keys_len {V} (d d' : PyDict.t V) :
  PyDict.keys d = PyDict.keys d' -> PyDict.len d = PyDict.len d'.
Proof.
  unfold PyDict.keys, PyDict.len. intros H.
  apply (f_equal (@List.length string)) in H. now rewrite !length_map in H.
Qed.

Lemma risk_loop_complete cfg api n items :
  forall actions st,
    PyDict.len (RiskManager.positions st) = n ->
    Forall (fun it => ~ RiskManager.entry_price (snd it) == 0 /\
                      ~ exits_fully cfg api it) items ->
    exists acts st',
      RiskManager.risk_loop cfg api n items actions st
        = (Py.Returned acts, st') /\
      PyDict.keys (RiskManager.positions st')
        = PyDict.keys (RiskManager.positions st) /\
      forall k, PyDict.mem k acts =
                PyDict.mem k actions || existsb (String.eqb k) (map fst items).
Proof.
  induction items as [|[tk p] rest IH]; intros actions st Hlen Hall; simpl.
  - rewrite Hlen, Nat.eqb_refl. simpl. exists actions, st.
    repeat split; auto. intros k. now rewrite orb_false_r.
  - rewrite Hlen, Nat.eqb_refl. simpl.
    pose proof (Forall_inv Hall) as [Hnz Hnot].
    pose proof (Forall_inv_tail Hall) as Hrest. simpl in Hnz.
    destruct (check_position_risk_returns cfg tk p Hnz) as [ra Hra].
    rewrite Hra.
    assert (Hnext : forall r st1,
               PyDict.keys (RiskManager.positions st1)
                 = PyDict.keys (RiskManager.positions st) ->
               exists acts st',
                 RiskManager.risk_loop cfg api n rest
                   (PyDict.set tk r actions) st1 = (Py.Returned acts, st') /\
                 PyDict.keys (RiskManager.positions st')
                   = PyDict.keys (RiskManager.positions st) /\
                 forall k, PyDict.mem k acts =
                           PyDict.mem k actions ||
                           (String.eqb k tk ||
                            existsb (String.eqb k) (map fst rest))).
    { intros r st1 Hk.
      destruct (IH (PyDict.set tk r actions) st1) as [acts [st' [H1 [H2 H3]]]];
        auto.
      - rewrite <- Hlen. now apply keys_len.
      - exists acts, st'. repeat split; auto; [congruence|].
        intros k. rewrite H3, mem_set_bool.
        destruct (String.eqb k tk), (PyDict.mem k actions); reflexivity. }
    unfold RiskManager._execute_risk_action.
    destruct (RiskManager.action ra) eqn:Ea; simpl.
    + destruct (Api.sell_market_order api tk (RiskManager.quantity p)) eqn:Eo.
      * exfalso. apply Hnot. exists ra, o. simpl. auto.
      * apply Hnext. reflexivity.
    + destruct (Api.sell_market_order api tk _).
      * apply Hnext. simpl. apply keys_alter.
      * apply Hnext. reflexivity.
    + apply Hnext. reflexivity.
Qed.

Lemma mem_existsb {V} k (d : PyDict.t V) :
  PyDict.mem k d = existsb (String.eqb k) (PyDict.keys d).
Proof.
  unfold PyDict.mem, PyDict.keys.
  induction d as [|[k' v] r IH]; simpl; auto.
  destruct (String.eqb k k'); simpl; auto.
Qed.

(** X10. If no position of the refreshed ledger is exited in full and no
    entry price is zero, the cycle of [check_risk_limits] goes through: its
    report has a record for exactly the instruments of the ledger, and the
    ledger keeps its instruments.  (A full exit that succeeds is what makes
    the report empty.) *)
Theorem risk_cycle_reports_every_position :
  forall (cfg : RiskManager.config) (api : Api.t) (st : RiskManager.state),
    let ledger :=
      RiskManager.update_positions cfg api (RiskManager.positions st) in
    Forall (fun it => ~ RiskManager.entry_price (snd it) == 0) ledger ->
    ~ Exists (exits_fully cfg api) ledger ->
    let run := RiskManager.check_risk_limits cfg api st in
    (forall tk, PyDict.mem tk (fst run) = PyDict.mem tk ledger) /\
    PyDict.keys (RiskManager.positions (snd run)) = PyDict.keys ledger.
Proof.
  intros cfg api st ledger Hnz Hnone run. subst run.
  unfold RiskManager.check_risk_limits. fold ledger.
  assert (Hall : Forall (fun it => ~ RiskManager.entry_price (snd it) == 0 /\
                                   ~ exits_fully cfg api it) ledger).
  { rewrite Forall_forall in *. intros it Hin. split; [now apply Hnz|].
    intros Hex. apply Hnone. apply Exists_exists. eauto. }
  destruct (risk_loop_complete cfg api (PyDict.len ledger) ledger PyDict.empty
              {| RiskManager.positions := ledger;
                 RiskManager.submitted := RiskManager.submitted st |}
              eq_refl Hall) as [acts [st' [Hrun [Hkeys Hmem]]]].
  cbn [RiskManager.positions RiskManager.submitted]. rewrite Hrun.
  simpl. split; [|exact Hkeys].
  intros tk. rewrite Hmem. simpl. apply eq_sym, mem_existsb.
Qed.

Lemma risk_cycle_reports_every_position_witness :
  let ledger :=
    RiskManager.update_positions sample_risk_config (rejecting_api 110)
      (RiskManager.positions one_position) in
  Forall (fun it => ~ RiskManager.entry_price (snd it) == 0) ledger /\
  ~ Exists (exits_fully sample_risk_config (rejecting_api 110)) ledger /\
  PyDict.mem "KRW-BTC"
    (fst (RiskManager.check_risk_limits sample_risk_config (rejecting_api 110)
            one_position)) = true.
Proof.
  intros ledger.
  assert (Hnz : Forall (fun it => ~ RiskManager.entry_price (snd it) == 0) ledger).
  { vm_compute. repeat constructor. discriminate. }
  assert (Hnone : ~ Exists (exits_fully sample_risk_config (rejecting_api 110))
                      ledger).
  { intros Hex. apply Exists_exists in Hex.
    destruct Hex as [it [_ [ra [o [_ [_ Ho]]]]]]. discriminate Ho. }
  split; [exact Hnz|split; [exact Hnone|]].
  destruct (risk_cycle_reports_every_position sample_risk_config
              (rejecting_api 110) one_position Hnz Hnone) as [Hmem _].
  rewrite Hmem. reflexivity.
Defined.

(** ** Orders of the Strategy Controller *)


(** An account with 100000 of cash and the given coin balance; every order
    is accepted. *)
Definition funded_api (coin_balance : Q) : Api.t :=
  {| Api.get_current_price := fun _ => Some 100;
     Api.get_balances := Some [];
     Api.get_balance :=
       fun c => if String.eqb c "KRW" then Some 100000 else Some coin_balance;
     Api.buy_market_order := fun _ _ => Some {| Api.uuid := "order" |};
     Api.sell_market_order := fun _ _ => Some {| Api.uuid := "order" |};
     Api.now := 1 |}.



Definition strong_sell : CombinedStrategy.signal_info :=
  {| CombinedStrategy.signal := (-1)%Z;
     CombinedStrategy.confidence := 7 # 10 |}.


(** ** The trading cycle *)

Lemma trading_loop_spec lib scfg cfg world markets :
  forall k results st,
    let run := CombinedStrategy.trading_loop lib scfg cfg world k markets
                 results st in
    CombinedStrategy.positions (snd run) = CombinedStrategy.positions st /\
    (forall tk, PyDict.mem tk (fst run) =
                PyDict.mem tk results || existsb (String.eqb tk) markets) /\
    (forall tk r,
       PyDict.get tk (fst run) = Some r ->
       PyDict.get tk results = Some r \/
       (In tk markets /\
        In (CombinedStrategy.cycle_signal r) [(-1)%Z; 0%Z; 1%Z] /\
        0 <= CombinedStrategy.cycle_confidence r <= 1)) /\
    exists calls,
      CombinedStrategy.submitted (snd run)
        = CombinedStrategy.submitted st ++ calls /\
      (List.length calls <= List.length markets)%nat /\
      Forall (fun c => In (Api.call_ticker c) markets) calls.
Proof.
  induction markets as [|tk rest IH]; intros k results st; simpl.
  - split; [reflexivity|split; [|split]].
    + intros tk. now rewrite orb_false_r.
    + intros tk r H. now left.
    + exists []. rewrite app_nil_r. repeat split; auto.
  - set (si := CombinedStrategy.get_signal lib scfg
                 (CombinedStrategy.candles_at (world k) tk)).
    pose proof (execute_trade_once cfg
                  (CombinedStrategy.exchange_at (world k)) tk si st) as Honce.
    destruct (CombinedStrategy.execute_trade cfg
                (CombinedStrategy.exchange_at (world k)) tk si st)
      as [r0 st0].
    destruct Honce as [Hpos Hcalls].
    match goal with
    | |- context [CombinedStrategy.trading_loop _ _ _ _ (S k) rest ?res st0] =>
        destruct (IH (S k) res st0) as [Hp [Hm [Hr [calls [Hs [Hl Hf]]]]]]
    end.
    split; [congruence|split; [|split]].
    + intros t. rewrite Hm, mem_set_bool.
      destruct (String.eqb t tk), (PyDict.mem t results); reflexivity.
    + intros t r Hget. destruct (Hr t r Hget) as [H|[Hin Hrange]].
      * destruct (string_dec t tk) as [->|Hne].
        -- rewrite get_set_same in H. injection H as <-. right.
           split; [now left|]. simpl. apply get_signal_range.
        -- rewrite get_set_other in H by auto. now left.
      * right. split; [now right|exact Hrange].
    + destruct Hcalls as [[-> _]|[c [Hsub [_ [_ [Hc _]]]]]].
      * exists calls. split; [exact Hs|split; [lia|]].
        eapply Forall_impl; [|exact Hf]. intros c Hin. now right.
      * exists (c :: calls). rewrite Hs, Hsub, <- app_assoc.
        split; [reflexivity|split; [simpl; lia|]].
        constructor.
        -- left. destruct Hc as [[a [-> _]]|[v [-> _]]]; reflexivity.
        -- eapply Forall_impl; [|exact Hf]. intros c' Hin. now right.
Qed.


(** ** Votes of the indicators *)

(** The signal that the column [name] shows at bar [i]; a column that is not
    there shows nothing. *)
Definition vote (df : Pd.frame) (i : nat) (name : string) : Z :=
  match PyDict.get name (Pd.added df) with
  | Some (Pd.IntCol zs) => nth i zs 0%Z
  | _ => 0%Z
  end.

Definition ternary (c : Pd.column) : Prop :=
  exists zs, c = Pd.IntCol zs /\ Forall (fun z => In z [(-1)%Z; 0%Z; 1%Z]) zs.

Definition signal_names : list string :=
  map fst TechnicalIndicators.signal_weights.

(** The signal columns are integer columns of [-1], [0] and [1], as the
    indicators write them. *)
Definition ternary_signals (df : Pd.frame) : Prop :=
  forall name c,
    In name signal_names -> In (name, c) (Pd.added df) -> ternary c.

(** The indicators that show [s] at bar [i]. *)
Definition votes_for (df : Pd.frame) (i : nat) (s : Z) : list string :=
  filter (fun name => Z.eqb (vote df i name) s) signal_names.

Lemma vote_ternary df i name :
  ternary_signals df -> In name signal_names ->
  In (vote df i name) [(-1)%Z; 0%Z; 1%Z].
Proof.
  intros Ht Hn. unfold vote.
  destruct (PyDict.get name (Pd.added df)) as [c|] eqn:E; [|simpl; auto].
  destruct (Ht name c Hn (dict_get_in _ _ _ E)) as [zs [-> Hz]].
  destruct (Nat.lt_ge_cases i (List.length zs)) as [Hi|Hi].
  - rewrite Forall_forall in Hz. apply Hz. now apply nth_In.
  - rewrite nth_overflow by exact Hi. simpl; auto.
Qed.

(** One term of the weighted sum is the vote times the weight. *)
Lemma weighted_step df i name w a :
  well_formed df -> ternary_signals df -> (i < Pd.len df)%nat ->
  In name signal_names ->
  match PyDict.get name (Pd.added df) with
  | Some c =>
      Np.add (Np.Fin a) (Np.mul (nth i (Pd.floats c) Np.NaN) (Np.Fin w))
  | None => Np.Fin a
  end = Np.Fin (a + inject_Z (vote df i name) * w)
  \/ (PyDict.get name (Pd.added df) = None /\ vote df i name = 0%Z).
Proof.
  intros [_ [_ Hlen]] Ht Hi Hn. unfold vote.
  destruct (PyDict.get name (Pd.added df)) as [c|] eqn:E; [left|right; auto].
  pose proof (dict_get_in _ _ _ E) as Hin.
  destruct (Ht name c Hn Hin) as [zs [-> _]].
  specialize (Hlen name _ Hin). simpl in Hlen. rewrite length_map in Hlen.
  simpl Pd.floats.
  rewrite (nth_indep _ Np.NaN (Np.of_Z 0)) by (rewrite length_map; lia).
  rewrite map_nth. reflexivity.
Qed.

Lemma weighted_fold_votes df i :
  well_formed df -> ternary_signals df -> (i < Pd.len df)%nat ->
  forall ws a,
    incl (map fst ws) signal_names ->
    exists q,
      fold_left
        (fun acc (nw : string * Q) =>
           match PyDict.get (fst nw) (Pd.added df) with
           | Some c =>
               Np.add acc (Np.mul (nth i (Pd.floats c) Np.NaN) (Np.Fin (snd nw)))
           | None => acc
           end) ws (Np.Fin a) = Np.Fin q /\
      q == a + Pd.sum (map (fun nw : string * Q =>
                              inject_Z (vote df i (fst nw)) * snd nw) ws).
Proof.
  intros Hwf Ht Hi. induction ws as [|[name w] ws IH]; intros a Hincl.
  - exists a. split; [reflexivity|]. simpl. lra.
  - assert (Hn : In name signal_names) by (apply Hincl; now left).
    assert (Hrest : incl (map fst ws) signal_names)
      by (intros x Hx; apply Hincl; now right).
    cbn [fold_left fst snd map Pd.sum fold_right].
    destruct (weighted_step df i name w a Hwf Ht Hi Hn) as [->|[-> Hv]].
    + destruct (IH (a + inject_Z (vote df i name) * w) Hrest) as [q [Hq Hs]].
      exists q. split; [exact Hq|]. unfold Pd.sum in Hs. lra.
    + destruct (IH a Hrest) as [q [Hq Hs]].
      exists q. split; [exact Hq|]. rewrite Hv. unfold Pd.sum in Hs.
      change (inject_Z 0) with 0. lra.
Qed.

(** The fused signal of a bar, from the votes of the five indicators. *)
Lemma fused_signal_from_votes df i s :
  well_formed df -> ternary_signals df -> (i < Pd.len df)%nat ->
  nth_error (TechnicalIndicators.get_combined_signal df) i = Some s ->
  s <> 0%Z ->
  (2 <= List.length (votes_for df i s))%nat.
Proof.
  intros Hwf Ht Hi Hs Hnz.
  rewrite (get_combined_signal_rowwise df i Hwf Hi) in Hs.
  injection Hs as Hs.
  destruct (weighted_fold_votes df i Hwf Ht Hi
              TechnicalIndicators.signal_weights 0 (incl_refl _))
    as [q [Hq Hsum]].
  unfold weighted_sum_at in Hs. rewrite Hq in Hs. clear Hq.
  unfold votes_for, signal_names.
  cbn [TechnicalIndicators.signal_weights map fst snd Pd.sum fold_right filter]
    in Hsum |- *.
  assert (H1 : In (vote df i "ma_cross_signal") [(-1)%Z; 0%Z; 1%Z])
    by (apply vote_ternary; [exact Ht|left; reflexivity]).
  assert (H2 : In (vote df i "rsi_signal") [(-1)%Z; 0%Z; 1%Z])
    by (apply vote_ternary; [exact Ht|do 1 right; left; reflexivity]).
  assert (H3 : In (vote df i "rsi_divergence") [(-1)%Z; 0%Z; 1%Z])
    by (apply vote_ternary; [exact Ht|do 2 right; left; reflexivity]).
  assert (H4 : In (vote df i "bb_signal") [(-1)%Z; 0%Z; 1%Z])
    by (apply vote_ternary; [exact Ht|do 3 right; left; reflexivity]).
  assert (H5 : In (vote df i "volume_signal") [(-1)%Z; 0%Z; 1%Z])
    by (apply vote_ternary; [exact Ht|do 4 right; left; reflexivity]).
  revert Hsum H1 H2 H3 H4 H5.
  generalize (vote df i "ma_cross_signal") as v1.
  generalize (vote df i "rsi_signal") as v2.
  generalize (vote df i "rsi_divergence") as v3.
  generalize (vote df i "bb_signal") as v4.
  generalize (vote df i "volume_signal") as v5.
  intros v5 v4 v3 v2 v1 Hsum H1 H2 H3 H4 H5.
  unfold TechnicalIndicators.discretize, Np.gtb in Hs. simpl in Hs.
  destruct (Py.Qltb q (- (3 # 10))) eqn:Elo.
  - apply Qltb_lt in Elo. subst s.
    destruct H1 as [<-|[<-|[<-|[]]]]; destruct H2 as [<-|[<-|[<-|[]]]];
      destruct H3 as [<-|[<-|[<-|[]]]]; destruct H4 as [<-|[<-|[<-|[]]]];
      destruct H5 as [<-|[<-|[<-|[]]]];
      first [ simpl; lia | exfalso; unfold inject_Z in Hsum; lra ].
  - destruct (Py.Qltb (3 # 10) q) eqn:Ehi; [|congruence].
    apply Qltb_lt in Ehi. subst s.
    destruct H1 as [<-|[<-|[<-|[]]]]; destruct H2 as [<-|[<-|[<-|[]]]];
      destruct H3 as [<-|[<-|[<-|[]]]]; destruct H4 as [<-|[<-|[<-|[]]]];
      destruct H5 as [<-|[<-|[<-|[]]]];
      first [ simpl; lia | exfalso; unfold inject_Z in Hsum; lra ].
Qed.

(** X14. A bar gets a non-zero fused signal only when at least two of the
    indicator columns show that same signal at the bar: no weight exceeds the
    threshold of [0.3], so one indicator alone never moves the strategy. *)
Theorem fused_signal_needs_two_votes :
  forall (df : Pd.frame) (i : nat) (s : Z),
    well_formed df -> ternary_signals df -> (i < Pd.len df)%nat ->
    nth_error (TechnicalIndicators.get_combined_signal df) i = Some s ->
    s <> 0%Z ->
    exists n1 n2,
      n1 <> n2 /\ In n1 signal_names /\ In n2 signal_names /\
      vote df i n1 = s /\ vote df i n2 = s.
Proof.
  intros df i s Hwf Ht Hi Hs Hnz.
  pose proof (fused_signal_from_votes df i s Hwf Ht Hi Hs Hnz) as Hlen.
  assert (Hnd : NoDup (votes_for df i s)).
  { unfold votes_for. apply NoDup_filter. unfold signal_names. simpl.
    repeat constructor; simpl; intuition discriminate. }
  destruct (votes_for df i s) as [|n1 [|n2 rest]] eqn:E; simpl in Hlen; try lia.
  assert (Hin1 : In n1 (votes_for df i s)) by (rewrite E; now left).
  assert (Hin2 : In n2 (votes_for df i s)) by (rewrite E; right; now left).
  unfold votes_for in Hin1, Hin2. apply filter_In in Hin1, Hin2.
  destruct Hin1 as [Hn1 Hv1], Hin2 as [Hn2 Hv2].
  apply Z.eqb_eq in Hv1, Hv2.
  exists n1, n2. split; [|auto].
  intros ->. inversion Hnd as [|? ? Hnot _]. apply Hnot. now left.
Qed.

(** Two bars; at the second one the crossing and the RSI both say buy. *)
Definition agreeing_frame : Pd.frame :=
  {| Pd.index := [0%Z; 1%Z];
     Pd.close := [10; 11];
     Pd.volume := [1; 1];
     Pd.added := [("ma_cross_signal"%string, Pd.IntCol [0%Z; 1%Z]);
                  ("rsi_signal"%string, Pd.IntCol [0%Z; 1%Z])] |}.

Lemma fused_signal_needs_two_votes_witness :
  nth_error (TechnicalIndicators.get_combined_signal agreeing_frame) 1
    = Some 1%Z /\
  exists n1 n2,
    n1 <> n2 /\ vote agreeing_frame 1 n1 = 1%Z /\ vote agreeing_frame 1 n2 = 1%Z.
Proof.
  assert (Hwf : well_formed agreeing_frame).
  { split; [reflexivity|split; [reflexivity|]].
    intros name c [H|[H|[]]]; inversion H; reflexivity. }
  assert (Ht : ternary_signals agreeing_frame).
  { intros name c _ [H|[H|[]]]; inversion H; eexists;
      (split; [reflexivity|]);
      repeat (apply Forall_cons; [simpl; auto|]); apply Forall_nil. }
  assert (Hi : (1 < Pd.len agreeing_frame)%nat) by (vm_compute; lia).
  assert (Hs : nth_error (TechnicalIndicators.get_combined_signal agreeing_frame) 1
               = Some 1%Z) by (vm_compute; reflexivity).
  assert (Hnz : 1%Z <> 0%Z) by discriminate.
  split; [exact Hs|].
  destruct (fused_signal_needs_two_votes agreeing_frame 1 1%Z Hwf Ht Hi Hs Hnz)
    as [n1 [n2 [Hne [_ [_ [H1 H2]]]]]].
  exists n1, n2. split; [exact Hne|split; [exact H1|exact H2]].
Defined.

(** ** Shape of the indicator frame *)

(** A frame whose columns all have one cell per row and whose signal columns
    are integer columns of [-1], [0] and [1]. *)
Definition tidy (df : Pd.frame) : Prop := well_formed df /\ ternary_signals df.

Lemma in_set_inv {V} k (v : V) k' v' d :
  In (k, v) (PyDict.set k' v' d) -> (k = k' /\ v = v') \/ In (k, v) d.
Proof.
  induction d as [|[k0 v0] r IH]; simpl.
  - intros [H|[]]. inversion H. auto.
  - destruct (String.eqb k' k0) eqn:E; simpl.
    + intros [H|H]; [inversion H; auto|auto].
    + intros [H|H]; [auto|]. destruct (IH H); auto.
Qed.

Lemma with_column_tidy k c df :
  tidy df ->
  List.length (Pd.floats c) = Pd.len df ->
  (In k signal_names -> ternary c) ->
  tidy (Pd.with_column k c df).
Proof.
  intros [[Hc [Hv Hcols]] Ht] Hlen Hk. split; [split; [|split]|].
  - exact Hc.
  - exact Hv.
  - intros name c' Hin. apply in_set_inv in Hin.
    destruct Hin as [[_ ->]|Hin]; [exact Hlen|eauto].
  - intros name c' Hn Hin. apply in_set_inv in Hin.
    destruct Hin as [[-> ->]|Hin]; [auto|eauto].
Qed.

Lemma signal_of_ternary up down :
  In (TechnicalIndicators.signal_of up down) [(-1)%Z; 0%Z; 1%Z].
Proof. destruct up, down; simpl; auto. Qed.

Lemma map2_forall {A B C} (P : C -> Prop) (f : A -> B -> C) xs ys :
  (forall x y, P (f x y)) -> Forall P (Pd.map2 f xs ys).
Proof.
  intros H. revert ys. induction xs as [|x xs IH]; intros [|y ys]; simpl;
    constructor; auto.
Qed.

Lemma map3_forall {A B C D} (P : D -> Prop) (f : A -> B -> C -> D) xs ys zs :
  (forall x y z, P (f x y z)) ->
  Forall P (TechnicalIndicators.map3 f xs ys zs).
Proof.
  intros H. revert ys zs.
  induction xs as [|x xs IH]; intros [|y ys] [|z zs]; simpl;
    constructor; auto.
Qed.

Lemma map4_forall {A B C D E} (P : E -> Prop) (f : A -> B -> C -> D -> E)
  xs ys zs ws :
  (forall x y z w, P (f x y z w)) ->
  Forall P (TechnicalIndicators.map4 f xs ys zs ws).
Proof.
  intros H. revert ys zs ws.
  induction xs as [|x xs IH]; intros [|y ys] [|z zs] [|w ws]; simpl;
    constructor; auto.
Qed.

Lemma map3_length {A B C D} (f : A -> B -> C -> D) xs ys zs :
  List.length (TechnicalIndicators.map3 f xs ys zs) =
  Nat.min (List.length xs) (Nat.min (List.length ys) (List.length zs)).
Proof.
  revert ys zs. induction xs as [|x xs IH]; intros [|y ys] [|z zs]; simpl;
    auto.
Qed.

Lemma map4_length {A B C D E} (f : A -> B -> C -> D -> E) xs ys zs ws :
  List.length (TechnicalIndicators.map4 f xs ys zs ws) =
  Nat.min (List.length xs)
    (Nat.min (List.length ys) (Nat.min (List.length zs) (List.length ws))).
Proof.
  revert ys zs ws.
  induction xs as [|x xs IH]; intros [|y ys] [|z zs] [|w ws]; simpl; auto.
Qed.

Lemma shift_length xs : List.length (Pd.shift xs) = List.length xs.
Proof.
  destruct xs as [|x xs]; [reflexivity|].
  unfold Pd.shift. cbn [List.length]. rewrite removelast_firstn_len.
  rewrite length_firstn. simpl. lia.
Qed.

Lemma rsi_column_length lib df p :
  List.length (TechnicalIndicators.rsi_column lib df p) = Pd.len df.
Proof.
  unfold TechnicalIndicators.rsi_column.
  rewrite length_firstn, length_app, repeat_length. lia.
Qed.

Lemma len_with_column k c df : Pd.len (Pd.with_column k c df) = Pd.len df.
Proof. reflexivity. Qed.

Lemma close_with_column k c df :
  Pd.close (Pd.with_column k c df) = Pd.close df.
Proof. reflexivity. Qed.

Lemma volume_with_column k c df :
  Pd.volume (Pd.with_column k c df) = Pd.volume df.
Proof. reflexivity. Qed.

Ltac col_length :=
  cbn [Pd.floats];
  repeat first
    [ rewrite len_with_column | rewrite close_with_column
    | rewrite volume_with_column | rewrite map2_length | rewrite map3_length | rewrite map4_length
    | rewrite shift_length | rewrite rolling_length | rewrite length_map
    | rewrite length_seq | rewrite rsi_column_length ];
  try lia.

(** The name of a column that is not one of the five signal columns. *)
Ltac not_a_signal :=
  let Hin := fresh in
  intros Hin; exfalso; unfold signal_names in Hin; simpl in Hin;
  repeat (destruct Hin as [Hin|Hin]; [revert Hin; name_neq|]); exact Hin.

Ltac signal_column_ternary :=
  intros _; eexists; split; [reflexivity|];
  first [ apply map4_forall | apply map3_forall | apply map2_forall ];
  intros; apply signal_of_ternary.

Ltac stage_tidy Hd :=
  repeat apply with_column_tidy; try exact Hd;
  try solve [col_length];
  try solve [not_a_signal];
  try solve [signal_column_ternary].

Lemma add_moving_average_tidy df s l t :
  tidy df -> tidy (TechnicalIndicators.add_moving_average df s l t).
Proof.
  intros Hd. pose proof Hd as [[Hc _] _].
  unfold TechnicalIndicators.add_moving_average, TechnicalIndicators.closes,
    Pd.rolling_mean.
  stage_tidy Hd.
Qed.

Lemma add_rsi_tidy lib df p :
  tidy df -> tidy (TechnicalIndicators.add_rsi lib df p).
Proof.
  intros Hd. unfold TechnicalIndicators.add_rsi.
  stage_tidy Hd.
Qed.

Lemma divergence_at_ternary w close rsi i :
  In (TechnicalIndicators.divergence_at w close rsi i) [(-1)%Z; 0%Z; 1%Z].
Proof.
  unfold TechnicalIndicators.divergence_at.
  destruct (Nat.ltb i w); [simpl; auto|apply signal_of_ternary].
Qed.

Lemma add_rsi_divergence_tidy df p w :
  tidy df -> tidy (TechnicalIndicators.add_rsi_divergence df p w).
Proof.
  intros Hd. unfold TechnicalIndicators.add_rsi_divergence.
  destruct (PyDict.get _ (Pd.added df)); [|exact Hd].
  apply with_column_tidy; [exact Hd|col_length|].
  intros _. eexists. split; [reflexivity|].
  apply Forall_forall. intros z Hz. apply in_map_iff in Hz.
  destruct Hz as [i [<- _]]. apply divergence_at_ternary.
Qed.

Lemma add_bollinger_bands_tidy lib df p sd :
  tidy df -> tidy (TechnicalIndicators.add_bollinger_bands lib df p sd).
Proof.
  intros Hd. pose proof Hd as [[Hc _] _].
  unfold TechnicalIndicators.add_bollinger_bands, TechnicalIndicators.closes,
    Pd.rolling_mean, Pd.rolling_std.
  stage_tidy Hd.
Qed.

Lemma add_volume_indicators_tidy df p th :
  tidy df -> tidy (TechnicalIndicators.add_volume_indicators df p th).
Proof.
  intros Hd. pose proof Hd as [[Hc [Hv _]] _].
  unfold TechnicalIndicators.add_volume_indicators, TechnicalIndicators.closes,
    Pd.rolling_mean.
  stage_tidy Hd.
Qed.

Lemma with_indicators_tidy lib cfg df :
  tidy df -> tidy (TechnicalIndicators.with_indicators lib cfg df).
Proof.
  intros Hd. unfold TechnicalIndicators.with_indicators. cbv zeta.
  destruct (TechnicalIndicators.volume_enabled cfg);
    [apply add_volume_indicators_tidy|];
    (destruct (TechnicalIndicators.bollinger_enabled cfg);
     [apply add_bollinger_bands_tidy|]);
    (destruct (TechnicalIndicators.rsi_enabled cfg);
     [destruct (TechnicalIndicators.use_divergence cfg);
      [apply add_rsi_divergence_tidy|]; apply add_rsi_tidy|]);
    (destruct (TechnicalIndicators.ma_enabled cfg);
     [apply add_moving_average_tidy|]);
    exact Hd.
Qed.

Lemma select_length {A} (mask : list bool) (xs : list A) :
  List.length xs = List.length mask ->
  List.length (Pd.select mask xs) = List.length (filter (fun b => b) mask).
Proof.
  revert xs. induction mask as [|b mask IH]; intros [|x xs]; simpl;
    try discriminate; auto.
  intros H. destruct b; simpl; rewrite IH by lia; reflexivity.
Qed.

Lemma select_map {A B} (f : A -> B) mask xs :
  Pd.select mask (map f xs) = map f (Pd.select mask xs).
Proof.
  revert xs. induction mask as [|b mask IH]; intros [|x xs]; simpl; auto.
  destruct b; simpl; now rewrite IH.
Qed.

Lemma select_forall {A} (P : A -> Prop) mask xs :
  Forall P xs -> Forall P (Pd.select mask xs).
Proof.
  intros H. apply Forall_forall. intros x Hx. apply select_spec in Hx.
  destruct Hx as [i [_ Hi]]. rewrite Forall_forall in H.
  eapply H, nth_error_In, Hi.
Qed.

Lemma floats_select mask c :
  Pd.floats (Pd.select_column mask c) = Pd.select mask (Pd.floats c).
Proof. destruct c; simpl; now rewrite ?select_map. Qed.

Lemma notna_length c : List.length (Pd.notna c) = List.length (Pd.floats c).
Proof. destruct c; simpl; now rewrite !length_map. Qed.

Lemma complete_rows_length df :
  well_formed df -> List.length (Pd.complete_rows df) = Pd.len df.
Proof.
  intros [_ [_ Hcols]]. unfold Pd.complete_rows.
  assert (H : forall (cols : list (string * Pd.column)) mask,
             (forall kc, In kc cols ->
                         List.length (Pd.floats (snd kc)) = Pd.len df) ->
             List.length mask = Pd.len df ->
             List.length
               (fold_left (fun m kc => Pd.map2 andb m (Pd.notna (snd kc)))
                  cols mask) = Pd.len df).
  { induction cols as [|kc cols IH]; intros mask Hc Hm; simpl; [exact Hm|].
    apply IH.
    - intros kc' Hin. apply Hc. now right.
    - rewrite map2_length, notna_length, (Hc kc) by now left. lia. }
  apply H.
  - intros [k c] Hin. apply (Hcols k c Hin).
  - apply repeat_length.
Qed.

Lemma dropna_tidy df : tidy df -> tidy (Pd.dropna df).
Proof.
  intros [Hwf Ht]. pose proof (complete_rows_length df Hwf) as Hm.
  destruct Hwf as [Hc [Hv Hcols]].
  assert (Hlen : Pd.len (Pd.dropna df) =
                 List.length (filter (fun b => b) (Pd.complete_rows df))).
  { unfold Pd.dropna, Pd.len. simpl. apply select_length.
    now rewrite Hm. }
  split; [split; [|split]|].
  - rewrite Hlen. unfold Pd.dropna. simpl. apply select_length. congruence.
  - rewrite Hlen. unfold Pd.dropna. simpl. apply select_length. congruence.
  - intros name c Hin. rewrite Hlen. unfold Pd.dropna in Hin. simpl in Hin.
    apply in_map_iff in Hin. destruct Hin as [[k c0] [Heq Hin]].
    simpl in Heq. inversion Heq; subst.
    rewrite floats_select. apply select_length.
    rewrite (Hcols _ _ Hin). congruence.
  - intros name c Hn Hin. unfold Pd.dropna in Hin. simpl in Hin.
    apply in_map_iff in Hin. destruct Hin as [[k c0] [Heq Hin]].
    simpl in Heq. inversion Heq; subst.
    destruct (Ht _ _ Hn Hin) as [zs [-> Hz]].
    eexists. split; [reflexivity|]. now apply select_forall.
Qed.

(** Candles as the exchange returns them: one close and one volume per row
    and no other column that the indicators know. *)
Definition plain_candles (df : Pd.frame) : Prop :=
  List.length (Pd.close df) = Pd.len df /\
  List.length (Pd.volume df) = Pd.len df /\
  Pd.added df = PyDict.empty.

Lemma plain_candles_tidy df : plain_candles df -> tidy df.
Proof.
  intros [Hc [Hv Ha]]. split; [split; [exact Hc|split; [exact Hv|]]|].
  - intros name c Hin. rewrite Ha in Hin. destruct Hin.
  - intros name c _ Hin. rewrite Ha in Hin. destruct Hin.
Qed.

Lemma add_indicators_tidy lib cfg raw :
  plain_candles raw -> tidy (TechnicalIndicators.add_indicators lib cfg raw).
Proof.
  intros H. unfold TechnicalIndicators.add_indicators.
  apply dropna_tidy, with_indicators_tidy, plain_candles_tidy, H.
Qed.

(** X15. Whatever the configuration, the numerical library and the candles,
    the frame that [add_indicators] hands to the fusion has one cell per row
    in every column, no missing value in any float column, and signal columns
    that are integer columns holding only [-1], [0] and [1]. *)
Theorem indicator_frame_is_tidy :
  forall (lib : TechnicalIndicators.library) (cfg : TechnicalIndicators.config)
         (raw : Pd.frame),
    plain_candles raw ->
    let df := TechnicalIndicators.add_indicators lib cfg raw in
    well_formed df /\
    (forall name xs,
       In (name, Pd.FloatCol xs) (Pd.added df) ->
       Forall (fun x => Np.isnan x = false) xs) /\
    (forall name c,
       In name signal_names -> PyDict.get name (Pd.added df) = Some c ->
       exists zs,
         c = Pd.IntCol zs /\ Forall (fun z => In z [(-1)%Z; 0%Z; 1%Z]) zs).
Proof.
  intros lib cfg raw Hraw df.
  destruct (add_indicators_tidy lib cfg raw Hraw) as [Hwf Ht].
  split; [exact Hwf|split].
  - intros name xs Hin. eapply dropna_complete. exact Hin.
  - intros name c Hn Hget. apply (Ht name c Hn). now apply dict_get_in.
Qed.

Lemma indicator_frame_is_tidy_witness :
  plain_candles rising_candles /\
  well_formed
    (TechnicalIndicators.add_indicators sample_library rsi_only rising_candles).
Proof.
  assert (H : plain_candles rising_candles)
    by (split; [reflexivity|split; reflexivity]).
  split; [exact H|].
  exact (proj1 (indicator_frame_is_tidy sample_library rsi_only rising_candles H)).
Defined.

(** ** Which signal columns a configuration gives *)

Lemma get_map_values {V W} (f : V -> W) k (d : PyDict.t V) :
  PyDict.get k (map (fun kc => (fst kc, f (snd kc))) d) =
  option_map f (PyDict.get k d).
Proof.
  induction d as [|[k' v] r IH]; simpl; [reflexivity|].
  destruct (String.eqb k k'); [reflexivity|exact IH].
Qed.

Lemma has_column_dropna k df :
  Pd.has_column k (Pd.dropna df) = Pd.has_column k df.
Proof.
  unfold Pd.has_column, PyDict.mem, Pd.dropna. simpl.
  rewrite get_map_values. now destruct (PyDict.get k (Pd.added df)).
Qed.

Lemma rsi_name_inj n m :
  TechnicalIndicators.rsi_name n = TechnicalIndicators.rsi_name m -> n = m.
Proof.
  unfold TechnicalIndicators.rsi_name. simpl. intros [= H]. now apply str_inj.
Qed.

Definition untouched_by_ma (k : string) : Prop :=
  (forall p, k <> TechnicalIndicators.ma_name p) /\
  k <> "ma_cross_signal"%string /\ k <> "trend_direction"%string.

Lemma add_moving_average_get_other df s l t k :
  untouched_by_ma k ->
  PyDict.get k (Pd.added (TechnicalIndicators.add_moving_average df s l t)) =
  PyDict.get k (Pd.added df).
Proof.
  intros [Hma [Hc Ht]]. unfold TechnicalIndicators.add_moving_average.
  now rewrite !get_with_column_other.
Qed.

Ltac through_ma :=
  rewrite add_moving_average_get_other
    by (split; [intros ?; name_neq|split; name_neq]).

(** The columns that the RSI stage leaves for the divergence to find. *)
Lemma add_rsi_get_rsi14 lib df p :
  PyDict.get (TechnicalIndicators.rsi_name 14) (Pd.added df) = None ->
  PyDict.mem (TechnicalIndicators.rsi_name 14)
    (Pd.added (TechnicalIndicators.add_rsi lib df p)) = Nat.eqb p 14.
Proof.
  intros Hnone. unfold TechnicalIndicators.add_rsi, PyDict.mem.
  rewrite get_with_column_other by name_neq.
  destruct (Nat.eqb p 14) eqn:E.
  - apply Nat.eqb_eq in E. subst p. now rewrite get_with_column_same.
  - apply Nat.eqb_neq in E.
    rewrite get_with_column_other
      by (intros H; apply rsi_name_inj in H; congruence).
    now rewrite Hnone.
Qed.

Section SignalColumns.
Variable lib : TechnicalIndicators.library.
Variable cfg : TechnicalIndicators.config.
Variable raw : Pd.frame.
Hypothesis Hraw : Pd.added raw = PyDict.empty.

Let staged := TechnicalIndicators.with_indicators lib cfg raw.

Ltac flags :=
  unfold staged, Pd.has_column, PyDict.mem, TechnicalIndicators.with_indicators;
  cbv zeta;
  destruct (TechnicalIndicators.ma_enabled cfg),
    (TechnicalIndicators.rsi_enabled cfg),
    (TechnicalIndicators.use_divergence cfg),
    (TechnicalIndicators.bollinger_enabled cfg),
    (TechnicalIndicators.volume_enabled cfg);
  cbn [andb].

Ltac absent := repeat through_ma; rewrite Hraw; reflexivity.

Lemma staged_ma_cross_signal :
  Pd.has_column "ma_cross_signal" staged = TechnicalIndicators.ma_enabled cfg.
Proof.
  flags; through_stages;
    first [ absent
          | unfold TechnicalIndicators.add_moving_average;
            rewrite get_with_column_other by name_neq;
            rewrite get_with_column_same; reflexivity ].
Qed.

Lemma staged_rsi_signal :
  Pd.has_column "rsi_signal" staged = TechnicalIndicators.rsi_enabled cfg.
Proof.
  flags; through_stages;
    first [ absent
          | unfold TechnicalIndicators.add_rsi at 1;
            rewrite get_with_column_same; reflexivity ].
Qed.

Lemma staged_bb_signal :
  Pd.has_column "bb_signal" staged = TechnicalIndicators.bollinger_enabled cfg.
Proof.
  flags; through_stages;
    first [ absent
          | unfold TechnicalIndicators.add_bollinger_bands at 1;
            rewrite get_with_column_same; reflexivity ].
Qed.

Lemma staged_volume_signal :
  Pd.has_column "volume_signal" staged = TechnicalIndicators.volume_enabled cfg.
Proof.
  flags; through_stages;
    first [ absent
          | unfold TechnicalIndicators.add_volume_indicators at 1;
            rewrite get_with_column_same; reflexivity ].
Qed.

Lemma divergence_column lib' df p :
  PyDict.get (TechnicalIndicators.rsi_name 14) (Pd.added df) = None ->
  PyDict.get "rsi_divergence" (Pd.added df) = None ->
  PyDict.mem "rsi_divergence"
    (Pd.added
       (TechnicalIndicators.add_rsi_divergence
          (TechnicalIndicators.add_rsi lib' df p) 14 10)) = Nat.eqb p 14.
Proof.
  intros H14 Hdiv.
  pose proof (add_rsi_get_rsi14 lib' df p H14) as Hmem.
  unfold PyDict.mem in *. unfold TechnicalIndicators.add_rsi_divergence.
  destruct (PyDict.get (TechnicalIndicators.rsi_name 14)
              (Pd.added (TechnicalIndicators.add_rsi lib' df p))).
  - rewrite get_with_column_same. exact Hmem.
  - unfold TechnicalIndicators.add_rsi.
    rewrite !get_with_column_other by name_neq. rewrite Hdiv. exact Hmem.
Qed.

Lemma staged_rsi_divergence :
  Pd.has_column "rsi_divergence" staged =
  TechnicalIndicators.rsi_enabled cfg && TechnicalIndicators.use_divergence cfg
  && Nat.eqb (TechnicalIndicators.rsi_period cfg) 14.
Proof.
  flags;
    repeat first
      [ rewrite add_volume_get_other by names_differ
      | rewrite add_bollinger_get_other by names_differ ];
    first
      [ apply divergence_column; absent
      | unfold TechnicalIndicators.add_rsi at 1;
        rewrite !get_with_column_other by name_neq; absent
      | absent ].
Qed.

End SignalColumns.

(** X16. The signal columns of the frame that [add_indicators] returns are
    those of the enabled indicators; the divergence column is there only
    when the RSI is enabled with [use_divergence] and its period is 14,
    because [add_rsi_divergence] is called with its default period and looks
    for the column [rsi14].  The RSI routine is taken to answer with one
    value per candle, as it does when the candles are at least as many as its
    period. *)
Theorem signal_columns_follow_config :
  forall (lib : TechnicalIndicators.library) (cfg : TechnicalIndicators.config)
         (raw : Pd.frame),
    Pd.added raw = PyDict.empty ->
    (TechnicalIndicators.rsi_enabled cfg = true ->
     List.length (TechnicalIndicators.ta_rsi lib (Pd.close raw)
                    (TechnicalIndicators.rsi_period cfg)) = Pd.len raw) ->
    let df := TechnicalIndicators.add_indicators lib cfg raw in
    Pd.has_column "ma_cross_signal" df = TechnicalIndicators.ma_enabled cfg /\
    Pd.has_column "rsi_signal" df = TechnicalIndicators.rsi_enabled cfg /\
    Pd.has_column "rsi_divergence" df =
      TechnicalIndicators.rsi_enabled cfg
      && TechnicalIndicators.use_divergence cfg
      && Nat.eqb (TechnicalIndicators.rsi_period cfg) 14 /\
    Pd.has_column "bb_signal" df = TechnicalIndicators.bollinger_enabled cfg /\
    Pd.has_column "volume_signal" df = TechnicalIndicators.volume_enabled cfg.
Proof.
  intros lib cfg raw Hraw _ df. subst df.
  unfold TechnicalIndicators.add_indicators. rewrite !has_column_dropna.
  split; [now apply staged_ma_cross_signal|].
  split; [now apply staged_rsi_signal|].
  split; [now apply staged_rsi_divergence|].
  split; [now apply staged_bb_signal|now apply staged_volume_signal].
Qed.

Lemma signal_columns_follow_config_witness :
  Pd.added rising_candles = PyDict.empty /\
  List.length (TechnicalIndicators.ta_rsi sample_library
                 (Pd.close rising_candles)
                 (TechnicalIndicators.rsi_period rsi_only))
    = Pd.len rising_candles /\
  Pd.has_column "rsi_divergence"
    (TechnicalIndicators.add_indicators sample_library rsi_only rising_candles)
    = true.
Proof.
  split; [reflexivity|split; [reflexivity|]].
  exact (proj1 (proj2 (proj2
           (signal_columns_follow_config sample_library rsi_only rising_candles
              eq_refl (fun _ => eq_refl))))).
Defined.

(** ** A lone indicator *)

(** The number of signal columns that a configuration gives. *)
Definition enabled_signals (cfg : TechnicalIndicators.config) : nat :=
  List.length
    (filter (fun b : bool => b)
       [TechnicalIndicators.ma_enabled cfg;
        TechnicalIndicators.rsi_enabled cfg;
        TechnicalIndicators.rsi_enabled cfg
        && TechnicalIndicators.use_divergence cfg
        && Nat.eqb (TechnicalIndicators.rsi_period cfg) 14;
        TechnicalIndicators.bollinger_enabled cfg;
        TechnicalIndicators.volume_enabled cfg]).

Lemma filter_length_le {A} (f g : A -> bool) l :
  (forall x, In x l -> f x = true -> g x = true) ->
  (List.length (filter f l) <= List.length (filter g l))%nat.
Proof.
  induction l as [|x l IH]; intros H; simpl; [lia|].
  assert (IH' : (List.length (filter f l) <= List.length (filter g l))%nat).
  { apply IH. intros y Hy. apply H. now right. }
  destruct (f x) eqn:Ef.
  - rewrite (H x (or_introl eq_refl) Ef). simpl. lia.
  - destruct (g x); simpl; lia.
Qed.

Lemma weighted_fold_length n (sigs : list (list Np.float * Q)) :
  Forall (fun sw => List.length (fst sw) = n) sigs ->
  forall acc, List.length acc = n ->
    List.length
      (fold_left (fun acc sw =>
                    Pd.map2 Np.add acc
                      (map (fun s => Np.mul s (Np.Fin (snd sw))) (fst sw)))
         sigs acc) = n.
Proof.
  induction 1 as [|sw sigs Hsw _ IH]; intros acc Hacc; simpl; [exact Hacc|].
  apply IH. rewrite map2_length, length_map. lia.
Qed.

Lemma get_combined_signal_length df :
  well_formed df ->
  List.length (TechnicalIndicators.get_combined_signal df) = Pd.len df.
Proof.
  intros [_ [_ Hcols]]. unfold TechnicalIndicators.get_combined_signal.
  destruct (TechnicalIndicators.available_signals df) eqn:E.
  - apply repeat_length.
  - rewrite length_map. unfold TechnicalIndicators.weighted_signal.
    apply weighted_fold_length; [|apply repeat_length].
    unfold TechnicalIndicators.available_signals.
    apply Forall_forall. intros sw Hin. apply in_flat_map in Hin.
    destruct Hin as [[name w] [_ Hin]]. simpl in Hin.
    destruct (PyDict.get name (Pd.added df)) as [c|] eqn:Eg; [|destruct Hin].
    destruct Hin as [<-|[]]. simpl. eapply Hcols, dict_get_in, Eg.
Qed.

(** With at most one signal column, every bar is neutral. *)
Lemma lone_column_is_neutral df :
  tidy df ->
  (List.length (filter (fun name => Pd.has_column name df) signal_names) <= 1)%nat ->
  Forall (fun s => s = 0%Z) (TechnicalIndicators.get_combined_signal df).
Proof.
  intros [Hwf Ht] Hone. apply Forall_forall. intros s Hs.
  apply In_nth_error in Hs. destruct Hs as [i Hi].
  assert (Hlt : (i < Pd.len df)%nat).
  { rewrite <- (get_combined_signal_length df Hwf).
    apply nth_error_Some. congruence. }
  destruct (Z.eq_dec s 0) as [|Hnz]; [assumption|exfalso].
  pose proof (fused_signal_from_votes df i s Hwf Ht Hlt Hi Hnz) as Htwo.
  assert (Hle : (List.length (votes_for df i s) <=
                 List.length (filter (fun name => Pd.has_column name df)
                                signal_names))%nat).
  { unfold votes_for. apply filter_length_le. intros name _ Hv.
    apply Z.eqb_eq in Hv. unfold vote in Hv.
    unfold Pd.has_column, PyDict.mem.
    destruct (PyDict.get name (Pd.added df)); [reflexivity|congruence]. }
  lia.
Qed.

Lemma execute_trade_neutral cfg api tk si st :
  CombinedStrategy.signal si = 0%Z ->
  CombinedStrategy.execute_trade cfg api tk si st =
  (CombinedStrategy.hold_ok
     (CombinedStrategy.NoSignalOrLowConfidence 0 (CombinedStrategy.confidence si)),
   st).
Proof.
  intros H. unfold CombinedStrategy.execute_trade. rewrite H. reflexivity.
Qed.

Lemma pipeline_lone_column lib cfg raw :
  plain_candles raw -> (enabled_signals cfg <= 1)%nat ->
  Forall (fun s => s = 0%Z)
    (TechnicalIndicators.get_combined_signal
       (TechnicalIndicators.add_indicators lib cfg raw)).
Proof.
  intros Hraw Hone. apply lone_column_is_neutral.
  - now apply add_indicators_tidy.
  - destruct Hraw as [_ [_ Ha]].
    unfold signal_names, TechnicalIndicators.add_indicators.
    cbn [TechnicalIndicators.signal_weights map fst filter].
    rewrite !has_column_dropna.
    rewrite staged_ma_cross_signal, staged_rsi_signal, staged_rsi_divergence,
      staged_bb_signal, staged_volume_signal by exact Ha.
    unfold enabled_signals in Hone. revert Hone.
    generalize (TechnicalIndicators.rsi_enabled cfg
                && TechnicalIndicators.use_divergence cfg
                && Nat.eqb (TechnicalIndicators.rsi_period cfg) 14) as d.
    intros d.
    destruct (TechnicalIndicators.ma_enabled cfg),
      (TechnicalIndicators.rsi_enabled cfg), d,
      (TechnicalIndicators.bollinger_enabled cfg),
      (TechnicalIndicators.volume_enabled cfg); simpl; lia.
Qed.

(** X17. A strategy configured with a single source of signals never
    trades: whatever the candles, the numerical library and the exchange,
    [get_signal] answers with the neutral signal and [execute_trade] holds
    without submitting an order. *)
Theorem lone_indicator_never_trades :
  forall (lib : TechnicalIndicators.library) (cfg : TechnicalIndicators.config)
         (raw : Pd.frame),
    plain_candles raw -> (enabled_signals cfg <= 1)%nat ->
    let si := CombinedStrategy.get_signal lib cfg (Some raw) in
    CombinedStrategy.signal si = 0%Z /\
    forall (tcfg : CombinedStrategy.config) (api : Api.t) (tk : string)
           (st : CombinedStrategy.state),
      let run := CombinedStrategy.execute_trade tcfg api tk si st in
      CombinedStrategy.action (fst run) = CombinedStrategy.Hold /\
      CombinedStrategy.success (fst run) = true /\
      snd run = st.
Proof.
  intros lib cfg raw Hraw Hone si.
  assert (Hzero : CombinedStrategy.signal si = 0%Z).
  { subst si.
    unfold CombinedStrategy.get_signal, CombinedStrategy.update_market_data.
    destruct (Pd.empty raw); [reflexivity|].
    destruct (Pd.empty _); [reflexivity|].
    destruct (Pd.iloc_back 1 _) as [s|] eqn:Es; [|reflexivity].
    destruct (CombinedStrategy._calculate_confidence _); [|reflexivity].
    simpl. apply iloc_back_in in Es.
    unfold CombinedStrategy.signal_column, Pd.with_column in Es. simpl in Es.
    rewrite get_set_same in Es.
    pose proof (pipeline_lone_column lib cfg raw Hraw Hone) as Hall.
    rewrite Forall_forall in Hall. now apply Hall. }
  split; [exact Hzero|].
  intros tcfg api tk st run. subst run.
  rewrite (execute_trade_neutral tcfg api tk si st Hzero).
  split; [reflexivity|split; reflexivity].
Qed.

Lemma lone_indicator_never_trades_witness :
  plain_candles golden_cross_candles /\
  (enabled_signals ma_only <= 1)%nat /\
  CombinedStrategy.signal
    (CombinedStrategy.get_signal sample_library ma_only
       (Some golden_cross_candles)) = 0%Z.
Proof.
  assert (H1 : plain_candles golden_cross_candles)
    by (split; [reflexivity|split; reflexivity]).
  assert (H2 : (enabled_signals ma_only <= 1)%nat) by (vm_compute; lia).
  split; [exact H1|split; [exact H2|]].
  exact (proj1 (lone_indicator_never_trades sample_library ma_only
                  golden_cross_candles H1 H2)).
Defined.

(** ** Too short a history *)

(** The longest rolling window among the enabled indicators. *)
Definition longest_window (cfg : TechnicalIndicators.config) : nat :=
  Nat.max
    (if TechnicalIndicators.ma_enabled cfg
     then Nat.max (TechnicalIndicators.short_period cfg)
            (Nat.max (TechnicalIndicators.long_period cfg)
               (TechnicalIndicators.trend_period cfg))
     else 0%nat)
    (Nat.max
       (if TechnicalIndicators.bollinger_enabled cfg
        then TechnicalIndicators.bollinger_period cfg else 0%nat)
       (if TechnicalIndicators.volume_enabled cfg
        then TechnicalIndicators.volume_period cfg else 0%nat)).

Lemma select_nothing {A} (mask : list bool) (xs : list A) :
  (forall i, nth_error mask i <> Some true) -> Pd.select mask xs = [].
Proof.
  intros H. destruct (Pd.select mask xs) as [|x rest] eqn:E; [reflexivity|].
  assert (Hin : In x (Pd.select mask xs)) by (rewrite E; now left).
  apply select_spec in Hin. destruct Hin as [i [Hm _]].
  exfalso. exact (H i Hm).
Qed.

(** A window longer than the history leaves no row. *)
Lemma window_too_long df name p xs :
  PyDict.get name (Pd.added df) = Some (Pd.FloatCol (Pd.rolling_mean p xs)) ->
  List.length xs = Pd.len df -> (Pd.len df < p)%nat ->
  Pd.index (Pd.dropna df) = [].
Proof.
  intros Hget Hlen Hp. unfold Pd.dropna. simpl. apply select_nothing.
  intros i Hk. change (kept df i) in Hk.
  pose proof (proj1 (kept_iff df i) Hk) as [Hi _].
  revert Hk. eapply undefined_feature_drops_row; [exact Hget|].
  unfold Pd.rolling_mean. apply rolling_warmup; lia.
Qed.

Lemma lt_max3 n a b c :
  (n < Nat.max a (Nat.max b c) -> n < a \/ n < b \/ n < c)%nat.
Proof. lia. Qed.

Lemma short_history_leaves_nothing lib cfg raw :
  List.length (Pd.close raw) = Pd.len raw ->
  List.length (Pd.volume raw) = Pd.len raw ->
  (Pd.len raw < longest_window cfg)%nat ->
  Pd.index (TechnicalIndicators.add_indicators lib cfg raw) = [].
Proof.
  intros Hc Hv Hshort. unfold TechnicalIndicators.add_indicators.
  destruct (with_indicators_candles lib cfg raw) as [Hidx _].
  assert (Hlen : Pd.len (TechnicalIndicators.with_indicators lib cfg raw)
                 = Pd.len raw) by (unfold Pd.len; now rewrite Hidx).
  unfold longest_window in Hshort. apply lt_max3 in Hshort.
  destruct Hshort as [Hma|[Hbb|Hvol]].
  - destruct (TechnicalIndicators.ma_enabled cfg) eqn:Ema; [|lia].
    apply lt_max3 in Hma.
    assert (Hp : exists p,
               (p = TechnicalIndicators.short_period cfg \/
                p = TechnicalIndicators.long_period cfg \/
                p = TechnicalIndicators.trend_period cfg) /\
               (Pd.len raw < p)%nat).
    { destruct Hma as [H|[H|H]]; eexists; (split; [|exact H]); auto. }
    destruct Hp as [p [Hp Hlt]].
    eapply window_too_long;
      [apply (with_indicators_ma lib cfg raw p Ema Hp)|congruence|lia].
  - destruct (TechnicalIndicators.bollinger_enabled cfg) eqn:Ebb; [|lia].
    eapply window_too_long;
      [apply (with_indicators_bollinger lib cfg raw Ebb)|congruence|lia].
  - destruct (TechnicalIndicators.volume_enabled cfg) eqn:Evol; [|lia].
    eapply window_too_long;
      [apply (with_indicators_volume lib cfg raw Evol)|congruence|lia].
Qed.

(** X18. With fewer candles than the longest rolling window of the enabled
    indicators, no row survives [add_indicators], and [get_signal] gives the
    neutral answer: signal 0 with confidence 0. *)
Theorem short_history_is_neutral :
  forall (lib : TechnicalIndicators.library) (cfg : TechnicalIndicators.config)
         (raw : Pd.frame),
    List.length (Pd.close raw) = Pd.len raw ->
    List.length (Pd.volume raw) = Pd.len raw ->
    (Pd.len raw < longest_window cfg)%nat ->
    Pd.len (TechnicalIndicators.add_indicators lib cfg raw) = 0%nat /\
    CombinedStrategy.get_signal lib cfg (Some raw) = CombinedStrategy.no_signal.
Proof.
  intros lib cfg raw Hc Hv Hshort.
  pose proof (short_history_leaves_nothing lib cfg raw Hc Hv Hshort) as Hnil.
  assert (Hlen : Pd.len (TechnicalIndicators.add_indicators lib cfg raw) = 0%nat)
    by (unfold Pd.len; now rewrite Hnil).
  split; [exact Hlen|].
  unfold CombinedStrategy.get_signal, CombinedStrategy.update_market_data.
  destruct (Pd.empty raw); [reflexivity|].
  unfold Pd.empty at 1. rewrite len_with_column, Hlen. reflexivity.
Qed.

Lemma short_history_is_neutral_witness :
  (Pd.len rising_candles < longest_window ma_only)%nat /\
  CombinedStrategy.get_signal sample_library ma_only (Some rising_candles)
    = CombinedStrategy.no_signal.
Proof.
  assert (H : (Pd.len rising_candles < longest_window ma_only)%nat)
    by (vm_compute; lia).
  split; [exact H|].
  exact (proj2 (short_history_is_neutral sample_library ma_only rising_candles
                  eq_refl eq_refl H)).
Defined.
